(** * CareConnect: the nurse-notifier alert pipeline

    A shallow embedding of [agent/nurse_notifier_agent.py] (class
    [NurseNotifierAgent] and its A2A handler) and of the escalation path of
    [agent/triage_agent.py] ([assess_symptoms],
    [_trigger_nurse_notification], [_map_risk_to_priority]), followed by the
    properties of the escalation and notification-routing pipeline.

    Conventions of the embedding.
    - A Python [str] is the list of its Unicode code points ([pystr]); slicing,
      [len] and comparison therefore count code points, as Python does.
    - A Python [dict] whose keys are read with [.get(key, default)] becomes a
      record of [option] fields; a key read with [d[key]] that the code may
      find missing (the contact addresses) is an [option] field whose absence
      raises [KeyError].
    - [self] is an explicit state; the methods are computations in a state
      monad over it.  [datetime.now()] reads an external clock: the k-th
      reading is [clock k] and the state counts the readings made so far.
    - The four [_send_*_notification] adapters report [True]/[False]; their
      invocations are recorded, in order, in the [outbox] of the state. *)

From Stdlib Require Import Ascii String.
From Stdlib Require Import List Bool Arith ZArith Lia Permutation Sorted.
From Stdlib Require Decimal DecimalNat.
Import ListNotations.

Set Implicit Arguments.

(* ===================================================================== *)
(** ** Python strings *)
(* ===================================================================== *)

Definition pystr := list N.

(** An ASCII literal of the source, as code points. *)
Definition py (s : string) : pystr :=
  map N_of_ascii (list_ascii_of_string s).

Definition newline : pystr := [10%N].
Definition dquote : pystr := [34%N].

(** [a == b] on strings. *)
Fixpoint str_eqb (a b : pystr) : bool :=
  match a, b with
  | [], [] => true
  | x :: a', y :: b' => N.eqb x y && str_eqb a' b'
  | _, _ => false
  end.

(** [a <= b] on strings: lexicographic on code points. *)
Fixpoint str_leb (a b : pystr) : bool :=
  match a, b with
  | [], _ => true
  | _ :: _, [] => false
  | x :: a', y :: b' =>
      if N.ltb x y then true
      else if N.eqb x y then str_leb a' b' else false
  end.

(** [sep.join(parts)]. *)
Fixpoint join (sep : pystr) (parts : list pystr) : pystr :=
  match parts with
  | [] => []
  | [p] => p
  | p :: rest => p ++ sep ++ join sep rest
  end.

(** [str.isspace] for one code point (the set [str.strip()] removes). *)
Definition isspace (c : N) : bool :=
  ((9 <=? c) && (c <=? 13) || (28 <=? c) && (c <=? 32)
   || (c =? 133) || (c =? 160) || (c =? 5760)
   || (8192 <=? c) && (c <=? 8202)
   || (c =? 8232) || (c =? 8233) || (c =? 8239) || (c =? 8287)
   || (c =? 12288))%N.

Fixpoint lstrip (s : pystr) : pystr :=
  match s with
  | [] => []
  | c :: s' => if isspace c then lstrip s' else s
  end.

Definition rstrip (s : pystr) : pystr := rev (lstrip (rev s)).

(** [s.strip()]. *)
Definition strip (s : pystr) : pystr := rstrip (lstrip s).

(** [s[:k]] for a non-negative [k]. *)
Definition slice_to (k : nat) (s : pystr) : pystr := firstn k s.

(** [str(n)] for a non-negative integer. *)
Fixpoint uint_codes (d : Decimal.uint) : pystr :=
  match d with
  | Decimal.Nil => []
  | Decimal.D0 d' => 48%N :: uint_codes d'
  | Decimal.D1 d' => 49%N :: uint_codes d'
  | Decimal.D2 d' => 50%N :: uint_codes d'
  | Decimal.D3 d' => 51%N :: uint_codes d'
  | Decimal.D4 d' => 52%N :: uint_codes d'
  | Decimal.D5 d' => 53%N :: uint_codes d'
  | Decimal.D6 d' => 54%N :: uint_codes d'
  | Decimal.D7 d' => 55%N :: uint_codes d'
  | Decimal.D8 d' => 56%N :: uint_codes d'
  | Decimal.D9 d' => 57%N :: uint_codes d'
  end.

Definition str_of_nat (n : nat) : pystr := uint_codes (Nat.to_uint n).

(** [l[:k]] for any Python integer [k]: a negative bound counts from the
    end of the list. *)
Definition slice_list (A : Type) (l : list A) (k : Z) : list A :=
  if (k <? 0)%Z then firstn (length l - Z.to_nat (- k)) l
  else firstn (Z.to_nat k) l.

(** [d.get(key)] on a dict kept in insertion order. *)
Fixpoint dict_get (A : Type) (d : list (pystr * A)) (key : pystr) : option A :=
  match d with
  | [] => None
  | (k, v) :: d' => if str_eqb k key then Some v else dict_get d' key
  end.

(** [list(d.keys())]. *)
Definition dict_keys (A : Type) (d : list (pystr * A)) : list pystr :=
  map fst d.

(** [x if present else default], the second argument of [.get]. *)
Definition get_or (A : Type) (o : option A) (default : A) : A :=
  match o with Some v => v | None => default end.

(* ===================================================================== *)
(** ** Data model: the dicts of the source as records *)
(* ===================================================================== *)

(** [provider["contact"]]: every address is read with [contact_info[key]];
    [None] is a missing key. *)
Module Contact.
Record t := mk {
  phone : option pystr;
  email : option pystr;
  pager : option pystr;
  dashboard_id : option pystr
}.
End Contact.

(** One entry of [self.healthcare_providers].  [on_call] is read with
    [provider.get("on_call", False)] and written by
    [update_provider_status] with [request.get("on_call")]: [None] stands
    for a missing key and for the value [None], both falsy. *)
Module Provider.
Record t := mk {
  name : pystr;
  role : pystr;
  department : pystr;
  contact : Contact.t;
  shift_schedule : list (pystr * pystr);
  specializations : list pystr;
  on_call : option bool
}.

Definition set_on_call (v : option bool) (p : t) : t :=
  mk (name p) (role p) (department p) (contact p)
     (shift_schedule p) (specializations p) v.
End Provider.

(** The triage assessment handed over by the triage agent; the notifier
    reads every key with [.get]. *)
Module TriageAssessment.
Record t := mk {
  risk_level : option pystr;
  escalate : option bool;
  symptoms_identified : option (list pystr);
  reasoning : option pystr;
  recommendations : option (list pystr);
  urgency_score : option Z
}.

(** The default [{}] of [request.get("triage_assessment", {})]. *)
Definition empty : t := mk None None None None None None.
End TriageAssessment.

(** [patient_context], read with [.get("name", ...)] and
    [.get("condition", ...)]. *)
Module PatientContext.
Record t := mk {
  name : option pystr;
  condition : option pystr
}.

Definition empty : t := mk None None.
End PatientContext.

(** [alert["patient_info"]]. *)
Module PatientInfo.
Record t := mk {
  name : pystr;
  condition : pystr;
  original_message : pystr
}.

(** [alert["patient_info"]] passed as a [patient_context] (as
    [escalate_alert] does): both keys are present. *)
Definition as_context (p : t) : PatientContext.t :=
  PatientContext.mk (Some (name p)) (Some (condition p)).
End PatientInfo.

(** The alert dict built by [_create_alert]. *)
Module Alert.
Record t := mk {
  alert_id : pystr;
  timestamp : pystr;
  priority : pystr;
  risk_level : pystr;
  urgency_score : Z;
  patient_info : PatientInfo.t;
  triage_assessment : TriageAssessment.t;
  alert_message : pystr;
  status : pystr;
  response_required : bool;
  escalation_level : Z;
  created_by : pystr
}.

(** [alert["priority"] = new_priority; alert["escalation_level"] += 1]. *)
Definition escalated (new_priority : pystr) (a : t) : t :=
  mk (alert_id a) (timestamp a) new_priority (risk_level a)
     (urgency_score a) (patient_info a) (triage_assessment a)
     (alert_message a) (status a) (response_required a)
     (escalation_level a + 1)%Z (created_by a).
End Alert.

(** The delivery channels, named in the source by the strings
    ["dashboard"], ["sms"], ["pager"] and ["email"]. *)
Inductive Channel := dashboard | sms | pager | email.

Definition channel_name (c : Channel) : pystr :=
  match c with
  | dashboard => py "dashboard"
  | sms => py "sms"
  | pager => py "pager"
  | email => py "email"
  end.

Definition Channel_eqb (a b : Channel) : bool :=
  match a, b with
  | dashboard, dashboard | sms, sms | pager, pager | email, email => true
  | _, _ => false
  end.

(** ["success"] / ["error"] of a notification result. *)
Module ResultStatus.
Inductive t := success | error.
End ResultStatus.

(** The dict returned by [_send_notification_to_provider]; [error] is
    [None] while the key is absent. *)
Module NotificationResult.
Record t := mk {
  provider_name : pystr;
  provider_role : pystr;
  channels_used : list Channel;
  status : ResultStatus.t;
  error : option pystr;
  timestamp : pystr
}.

(** [notification_result["channels_used"].append(c)]. *)
Definition use (c : Channel) (r : t) : t :=
  mk (provider_name r) (provider_role r) (channels_used r ++ [c])
     (status r) (error r) (timestamp r).

(** [notification_result["status"] = "error";
     notification_result["error"] = detail]. *)
Definition fail (detail : pystr) (r : t) : t :=
  mk (provider_name r) (provider_role r) (channels_used r)
     ResultStatus.error (Some detail) (timestamp r).
End NotificationResult.

(** One invocation of a channel adapter: which adapter, for which alert, to
    which destination, and what it reported. *)
Module Delivery.
Record t := mk {
  channel : Channel;
  about : pystr;
  destination : pystr;
  delivered : bool
}.
End Delivery.

(* ===================================================================== *)
(** ** The agent state and its monad *)
(* ===================================================================== *)

(** [self] of [NurseNotifierAgent], together with the two pieces of the
    outside world its methods touch: the number of clock readings made so
    far and the adapter invocations made so far. *)
Record State := mkState {
  healthcare_providers : list (pystr * Provider.t);
  alert_history : list Alert.t;
  clock_reads : nat;
  outbox : list Delivery.t
}.

Definition M (A : Type) : Type := State -> A * State.

Definition ret (A : Type) (a : A) : M A := fun s => (a, s).

Definition bind (A B : Type) (c : M A) (k : A -> M B) : M B :=
  fun s => let (a, s') := c s in k a s'.

Definition gets (A : Type) (f : State -> A) : M A := fun s => (f s, s).

Definition modify (f : State -> State) : M unit := fun s => (tt, f s).

Declare Scope agent_scope.
Delimit Scope agent_scope with agent.
Notation "x <- c ;; k" := (bind c (fun x => k))
  (at level 61, c at next level, right associativity) : agent_scope.
Notation "'do' c ;; k" := (bind c (fun _ => k))
  (at level 61, c at next level, right associativity) : agent_scope.
Local Open Scope agent_scope.

Definition set_alert_history (h : list Alert.t) (s : State) : State :=
  mkState (healthcare_providers s) h (clock_reads s) (outbox s).

Definition set_healthcare_providers (d : list (pystr * Provider.t))
  (s : State) : State :=
  mkState d (alert_history s) (clock_reads s) (outbox s).

Definition record_delivery (d : Delivery.t) (s : State) : State :=
  mkState (healthcare_providers s) (alert_history s) (clock_reads s)
          (outbox s ++ [d]).

Definition tick (s : State) : State :=
  mkState (healthcare_providers s) (alert_history s) (S (clock_reads s))
          (outbox s).

(** A reading of the clock, through the two renderings the code takes of
    it: [.isoformat()] and [.strftime('%Y%m%d_%H%M%S')]. *)
Record datetime := mkDatetime {
  isoformat : pystr;
  strftime_Ymd_HMS : pystr
}.

(** [_initialize_healthcare_providers]. *)
Definition _initialize_healthcare_providers : list (pystr * Provider.t) :=
  [ (py "nurse_david",
     Provider.mk (py "David Johnson") (py "Registered Nurse")
       (py "Orthopedic Floor")
       (Contact.mk (Some (py "+1-555-0123"))
                   (Some (py "david.johnson@hospital.com"))
                   (Some (py "555-1234"))
                   (Some (py "nurse_dashboard_001")))
       [ (py "monday", py "07:00-19:00"); (py "tuesday", py "07:00-19:00");
         (py "wednesday", py "07:00-19:00"); (py "thursday", py "off");
         (py "friday", py "off"); (py "saturday", py "07:00-19:00");
         (py "sunday", py "07:00-19:00") ]
       [ py "post-operative care"; py "orthopedic patients" ]
       (Some true));
    (py "dr_smith",
     Provider.mk (py "Dr. Sarah Smith") (py "Orthopedic Surgeon")
       (py "Orthopedic Surgery")
       (Contact.mk (Some (py "+1-555-0456"))
                   (Some (py "sarah.smith@hospital.com"))
                   (Some (py "555-5678"))
                   (Some (py "doctor_dashboard_002")))
       [ (py "monday", py "08:00-17:00"); (py "tuesday", py "08:00-17:00");
         (py "wednesday", py "08:00-17:00"); (py "thursday", py "08:00-17:00");
         (py "friday", py "08:00-17:00"); (py "saturday", py "on-call");
         (py "sunday", py "off") ]
       [ py "knee replacement"; py "hip replacement"; py "joint surgery" ]
       (Some false)) ].

(** The agent as [__init__] leaves it, in a world where [n] clock readings
    and the deliveries [out] have already happened. *)
Definition init_state (n : nat) (out : list Delivery.t) : State :=
  mkState _initialize_healthcare_providers [] n out.

(** [_get_expected_response_time], with the three entries of
    [self.alert_config] it reads. *)
Definition _get_expected_response_time (priority : pystr) : Z :=
  get_or (dict_get [ (py "URGENT", 15%Z); (py "HIGH", 60%Z);
                     (py "NORMAL", 240%Z) ] priority) 60%Z.

(** [TriageAgent._map_risk_to_priority]. *)
Definition _map_risk_to_priority (risk_level : pystr) : pystr :=
  let mapping := [ (py "CRITICAL", py "URGENT");
                   (py "MODERATE", py "HIGH");
                   (py "LOW", py "NORMAL") ] in
  get_or (dict_get mapping risk_level) (py "HIGH").

(* ===================================================================== *)
(** ** Rendering the alert message *)
(* ===================================================================== *)

(** The [urgency_indicator] lookup of [_format_alert_message]; the three
    symbols are U+1F6A8, U+26A0 U+FE0F and U+2139 U+FE0F. *)
Definition urgency_indicator (risk_level : pystr) : pystr :=
  get_or (dict_get [ (py "CRITICAL", 128680%N :: py " URGENT");
                     (py "MODERATE", 9888%N :: 65039%N :: py " HIGH PRIORITY");
                     (py "LOW", 8505%N :: 65039%N :: py " ROUTINE") ]
                   risk_level)
         (9888%N :: 65039%N :: py " ATTENTION").

(** [", ".join(symptoms) if symptoms else "See details"]. *)
Definition symptoms_text (symptoms : list pystr) : pystr :=
  match symptoms with
  | [] => py "See details"
  | _ :: _ => join (py ", ") symptoms
  end.

(** [{patient_message[:150]}{'...' if len(patient_message) > 150 else ''}]. *)
Definition patient_report (patient_message : pystr) : pystr :=
  slice_to 150 patient_message
  ++ (if 150 <? length patient_message then py "..." else []).

Definition immediate_action (risk_level : pystr) : pystr :=
  if str_eqb risk_level (py "CRITICAL")
  then py "Contact patient immediately"
  else py "Review and respond within expected timeframe".

(** The f-string of [_format_alert_message] before [.strip()], for the
    clock rendering [stamp] of its [datetime.now()]. *)
Definition alert_template (patient_name patient_message : pystr)
  (symptoms : list pystr) (risk_level stamp : pystr) : pystr :=
  newline
  ++ urgency_indicator risk_level ++ py ": Patient Alert - " ++ patient_name
  ++ newline ++ newline
  ++ py "SYMPTOMS: " ++ symptoms_text symptoms ++ newline
  ++ py "PATIENT REPORT: " ++ dquote ++ patient_report patient_message
  ++ dquote ++ newline ++ newline
  ++ py "RISK LEVEL: " ++ risk_level ++ newline
  ++ py "IMMEDIATE ACTION: " ++ immediate_action risk_level
  ++ newline ++ newline
  ++ py "Alert ID: " ++ stamp ++ newline ++ py "        ".

(* ===================================================================== *)
(** ** The channel adapters as written (mock implementations) *)
(* ===================================================================== *)

(** Each adapter builds its payload inside a [try:] and returns [True]; the
    [except] branch returns [False].  On the typed alerts of this model no
    step of the bodies below raises, so the adapters as written always
    report [True]. *)

Definition dashboard_payload (alert : Alert.t)
  : pystr * pystr * pystr * pystr * pystr * bool :=
  (Alert.alert_id alert, Alert.priority alert, Alert.alert_message alert,
   PatientInfo.name (Alert.patient_info alert), Alert.timestamp alert,
   Alert.response_required alert).

Definition _send_dashboard_notification (alert : Alert.t)
  (dashboard_id : pystr) : bool :=
  let _ := dashboard_payload alert in true.

Definition symptoms_of (alert : Alert.t) : list pystr :=
  get_or (TriageAssessment.symptoms_identified
            (Alert.triage_assessment alert)) [].

Definition sms_message (alert : Alert.t) : pystr :=
  strip (newline
         ++ py "PATIENT ALERT: "
         ++ PatientInfo.name (Alert.patient_info alert) ++ newline
         ++ py "Priority: " ++ Alert.priority alert ++ newline
         ++ py "Symptoms: " ++ join (py ", ") (firstn 2 (symptoms_of alert))
         ++ newline
         ++ py "Check dashboard for full details." ++ newline
         ++ py "Alert ID: " ++ Alert.alert_id alert ++ newline
         ++ py "            ").

Definition _send_sms_notification (alert : Alert.t)
  (phone_number : pystr) : bool :=
  let _ := sms_message alert in true.

Definition pager_message (alert : Alert.t) : pystr :=
  py "URGENT: " ++ PatientInfo.name (Alert.patient_info alert)
  ++ py " - " ++ Alert.alert_id alert.

Definition _send_pager_notification (alert : Alert.t)
  (pager_number : pystr) : bool :=
  let _ := pager_message alert in true.

Definition email_subject (alert : Alert.t) : pystr :=
  py "Patient Alert - " ++ Alert.priority alert ++ py " - "
  ++ PatientInfo.name (Alert.patient_info alert).

Definition email_body (alert : Alert.t) : pystr :=
  let ta := Alert.triage_assessment alert in
  let info := Alert.patient_info alert in
  newline ++ py "Healthcare Provider Alert" ++ newline ++ newline
  ++ py "Alert ID: " ++ Alert.alert_id alert ++ newline
  ++ py "Timestamp: " ++ Alert.timestamp alert ++ newline
  ++ py "Priority: " ++ Alert.priority alert ++ newline
  ++ py "Risk Level: " ++ Alert.risk_level alert ++ newline ++ newline
  ++ py "Patient Information:" ++ newline
  ++ py "- Name: " ++ PatientInfo.name info ++ newline
  ++ py "- Condition: " ++ PatientInfo.condition info ++ newline ++ newline
  ++ py "Patient Report:" ++ newline
  ++ dquote ++ PatientInfo.original_message info ++ dquote
  ++ newline ++ newline
  ++ py "Triage Assessment:" ++ newline
  ++ py "- Symptoms Identified: " ++ join (py ", ") (symptoms_of alert)
  ++ newline
  ++ py "- Reasoning: "
  ++ get_or (TriageAssessment.reasoning ta) (py "N/A") ++ newline
  ++ py "- Recommendations: "
  ++ join (py ", ") (get_or (TriageAssessment.recommendations ta) [])
  ++ newline ++ newline
  ++ py "Please respond according to your facility's protocols."
  ++ newline ++ newline
  ++ py "This is an automated alert from the CareConnect system."
  ++ newline ++ py "            ".

Definition _send_email_notification (alert : Alert.t)
  (email_address : pystr) : bool :=
  let _ := (email_subject alert, email_body alert) in true.

(** The four adapters of the source, by channel. *)
Definition source_adapters (c : Channel) : Alert.t -> pystr -> bool :=
  match c with
  | dashboard => _send_dashboard_notification
  | sms => _send_sms_notification
  | pager => _send_pager_notification
  | email => _send_email_notification
  end.

(* ===================================================================== *)
(** ** Responses *)
(* ===================================================================== *)

(** The dict returned by [send_alert]: the ["alert_sent"] summary, or the
    ["error"] dict of its [except] branch. *)
Module SendAlertResponse.
Record summary := mk {
  alert_id : pystr;
  priority : pystr;
  providers_notified : nat;
  notification_results : list NotificationResult.t;
  expected_response_time_minutes : Z;
  timestamp : pystr
}.

Inductive t :=
| alert_sent (r : summary)
| error (error_details : pystr).
End SendAlertResponse.

(** The dict returned by [get_alert_history]. *)
Module HistoryResponse.
Record listing := mk {
  alerts : list Alert.t;
  total_alerts : nat;
  limit_applied : Z
}.

Inductive t :=
| success (r : listing)
| error (error_details : pystr).
End HistoryResponse.

(** The dict returned by [escalate_alert]. *)
Module EscalateResponse.
Record report := mk {
  alert_id : pystr;
  old_priority : pystr;
  new_priority : pystr;
  escalation_level : Z;
  escalation_result : SendAlertResponse.t
}.

Inductive t :=
| escalated (r : report)
| not_found (message : pystr)
| error (error_details : pystr).
End EscalateResponse.

(** The dict returned by [update_provider_status]. *)
Module UpdateResponse.
Inductive t :=
| updated (provider_id : pystr) (on_call : option bool)
| not_found (message : pystr).
End UpdateResponse.

(** The requests, each key read with [request.get]. *)
Module SendAlertRequest.
Record t := mk {
  patient_message : option pystr;
  triage_assessment : option TriageAssessment.t;
  patient_context : option PatientContext.t;
  priority : option pystr;
  timestamp : option pystr
}.
End SendAlertRequest.

Module HistoryRequest.
Record t := mk {
  limit : option Z;
  patient_name : option pystr
}.
End HistoryRequest.

Module EscalateRequest.
Record t := mk {
  alert_id : option pystr;
  new_priority : option pystr
}.
End EscalateRequest.

Module UpdateRequest.
Record t := mk {
  provider_id : option pystr;
  on_call : option bool
}.
End UpdateRequest.

(* ===================================================================== *)
(** ** Sorting the history *)
(* ===================================================================== *)

(** [alerts.sort(key=lambda x: x["timestamp"], reverse=True)]: a stable sort
    into descending timestamp order.  Insertion from the right puts an alert
    in front of the first alert that is not newer than it, hence in front of
    the alerts of equal timestamp that followed it in the input. *)
Fixpoint insert_newest_first (x : Alert.t) (l : list Alert.t) : list Alert.t :=
  match l with
  | [] => [x]
  | y :: l' =>
      if str_leb (Alert.timestamp y) (Alert.timestamp x)
      then x :: y :: l'
      else y :: insert_newest_first x l'
  end.

Definition sort_newest_first (l : list Alert.t) : list Alert.t :=
  fold_right insert_newest_first [] l.

(** Truth value of [request.get("patient_name")]: [None] and [""] are
    falsy. *)
Definition truthy (o : option pystr) : bool :=
  match o with
  | Some (_ :: _) => true
  | _ => false
  end.

(** The first alert of the history whose id is [alert_id], with the alerts
    before and after it: what the [for] loop of [escalate_alert] finds. *)
Fixpoint find_alert (alert_id : pystr) (history : list Alert.t)
  : option (list Alert.t * Alert.t * list Alert.t) :=
  match history with
  | [] => None
  | alert :: rest =>
      if str_eqb (Alert.alert_id alert) alert_id
      then Some ([], alert, rest)
      else match find_alert alert_id rest with
           | Some (before, found, after) => Some (alert :: before, found, after)
           | None => None
           end
  end.

(** [self.healthcare_providers[provider_id]["on_call"] = on_call]. *)
Fixpoint store_on_call (provider_id : pystr) (on_call : option bool)
  (d : list (pystr * Provider.t)) : list (pystr * Provider.t) :=
  match d with
  | [] => []
  | (k, p) :: d' =>
      if str_eqb k provider_id
      then (k, Provider.set_on_call on_call p) :: d'
      else (k, p) :: store_on_call provider_id on_call d'
  end.

(** Exceptions raised inside the [try:] of
    [_send_notification_to_provider], and their [str(e)]. *)
Inductive exn := KeyError (key : pystr).

Definition str_of_exn (e : exn) : pystr :=
  match e with
  | KeyError key => py "'" ++ key ++ py "'"
  end.

Inductive outcome (A : Type) :=
| returned (a : A)
| raised (e : exn).
Arguments raised {A} e.

(** A computation inside that [try:]: it may update the notification result
    being filled in and the state, and may raise. *)
Definition Try (A : Type) : Type :=
  NotificationResult.t -> State -> outcome A * NotificationResult.t * State.

Definition tret (A : Type) (a : A) : Try A := fun r s => (returned a, r, s).

Definition tbind (A B : Type) (c : Try A) (k : A -> Try B) : Try B :=
  fun r s =>
    match c r s with
    | (returned a, r', s') => k a r' s'
    | (raised e, r', s') => (raised e, r', s')
    end.

Notation "x <~ c ;; k" := (tbind c (fun x => k))
  (at level 61, c at next level, right associativity) : agent_scope.

(** [contact_info[key]]. *)
Definition subscript (field : option pystr) (key : pystr) : Try pystr :=
  fun r s =>
    match field with
    | Some v => (returned v, r, s)
    | None => (raised (KeyError key), r, s)
    end.

(** [notification_result["channels_used"].append(c)]. *)
Definition channels_used_append (c : Channel) : Try unit :=
  fun r s => (returned tt, NotificationResult.use c r, s).

(* ===================================================================== *)
(** ** The methods of [NurseNotifierAgent] *)
(* ===================================================================== *)

Section Agent.

(** The external clock: reading number [k] of [datetime.now()]. *)
Variable clock : nat -> datetime.

(** The four channel adapters.  [source_adapters] are the bodies as
    written; the methods are stated over any adapters so that a delivery
    that reports [False] can be spoken about. *)
Variable adapter : Channel -> Alert.t -> pystr -> bool.

(** [datetime.now()]. *)
Definition datetime_now : M datetime :=
  fun s => (clock (clock_reads s), tick s).

(** [await self._send_<channel>_notification(alert, destination)]. *)
Definition call_adapter (c : Channel) (alert : Alert.t)
  (destination : pystr) : Try bool :=
  fun r s =>
    let reported := adapter c alert destination in
    (returned reported, r,
     record_delivery
       (Delivery.mk c (Alert.alert_id alert) destination reported) s).

(** [_format_alert_message]. *)
Definition _format_alert_message (patient_name patient_message : pystr)
  (symptoms : list pystr) (risk_level : pystr) : M pystr :=
  now <- datetime_now ;;
  ret (strip (alert_template patient_name patient_message symptoms
                risk_level (strftime_Ymd_HMS now))).

(** [_create_alert]. *)
Definition _create_alert (patient_message : pystr)
  (triage_assessment : TriageAssessment.t)
  (patient_context : PatientContext.t) (priority timestamp : pystr)
  : M Alert.t :=
  history <- gets alert_history ;;
  now <- datetime_now ;;
  let alert_id :=
    py "ALERT_" ++ str_of_nat (length history + 1) ++ py "_"
    ++ strftime_Ymd_HMS now in
  let patient_name :=
    get_or (PatientContext.name patient_context) (py "Unknown Patient") in
  let symptoms :=
    get_or (TriageAssessment.symptoms_identified triage_assessment) [] in
  let risk_level :=
    get_or (TriageAssessment.risk_level triage_assessment)
           (py "MODERATE") in
  let urgency_score :=
    get_or (TriageAssessment.urgency_score triage_assessment) 5%Z in
  alert_message <-
    _format_alert_message patient_name patient_message symptoms risk_level ;;
  ret (Alert.mk alert_id timestamp priority risk_level urgency_score
         (PatientInfo.mk patient_name
            (get_or (PatientContext.condition patient_context)
                    (py "Unknown"))
            patient_message)
         triage_assessment alert_message (py "sent") true 0%Z
         (py "triage_agent")).

(** The availability loop of [_determine_notification_recipients]. *)
Fixpoint available_among (providers : list (pystr * Provider.t))
  (recipients available_recipients : list pystr) : list pystr :=
  match recipients with
  | [] => available_recipients
  | recipient_id :: rest =>
      match dict_get providers recipient_id with
      | Some provider =>
          if get_or (Provider.on_call provider) false
          then available_among providers rest
                 (available_recipients ++ [recipient_id])
          else available_among providers rest available_recipients
      | None => available_among providers rest available_recipients
      end
  end.

(** [_determine_notification_recipients], a read of
    [self.healthcare_providers]. *)
Definition _determine_notification_recipients
  (providers : list (pystr * Provider.t)) (alert : Alert.t) : list pystr :=
  let priority := Alert.priority alert in
  let risk_level := Alert.risk_level alert in
  let recipients := [] ++ [py "nurse_david"] in
  let recipients :=
    if str_eqb risk_level (py "CRITICAL") || str_eqb priority (py "URGENT")
    then recipients ++ [py "dr_smith"]
    else recipients in
  let available_recipients := available_among providers recipients [] in
  match available_recipients with
  | [] => dict_keys providers
  | _ :: _ => available_recipients
  end.

(** The body of the [try:] in [_send_notification_to_provider]. *)
Definition notify_channels (alert : Alert.t) (contact_info : Contact.t)
  (priority : pystr) : Try unit :=
  dashboard_id <~
    subscript (Contact.dashboard_id contact_info) (py "dashboard_id") ;;
  dashboard_result <~ call_adapter dashboard alert dashboard_id ;;
  _ <~ channels_used_append dashboard ;;
  _ <~ (if existsb (str_eqb priority) [py "URGENT"; py "HIGH"]
        then
          phone <~ subscript (Contact.phone contact_info) (py "phone") ;;
          sms_result <~ call_adapter sms alert phone ;;
          _ <~ channels_used_append sms ;;
          if str_eqb priority (py "URGENT")
          then
            pager_number <~
              subscript (Contact.pager contact_info) (py "pager") ;;
            pager_result <~ call_adapter pager alert pager_number ;;
            channels_used_append pager
          else tret tt
        else tret tt) ;;
  email_address <~ subscript (Contact.email contact_info) (py "email") ;;
  email_result <~ call_adapter email alert email_address ;;
  channels_used_append email.

(** [_send_notification_to_provider]: the [except] branch marks the
    result as an error and keeps [str(e)]. *)
Definition _send_notification_to_provider (alert : Alert.t)
  (provider : Provider.t) : M NotificationResult.t :=
  let provider_name := Provider.name provider in
  let contact_info := Provider.contact provider in
  let priority := Alert.priority alert in
  now <- datetime_now ;;
  let notification_result :=
    NotificationResult.mk provider_name (Provider.role provider) []
      ResultStatus.success None (isoformat now) in
  fun s =>
    match notify_channels alert contact_info priority
            notification_result s with
    | (returned _, r, s') => (r, s')
    | (raised e, r, s') => (NotificationResult.fail (str_of_exn e) r, s')
    end.

(** The notification loop of [send_alert]. *)
Fixpoint notify_each (alert : Alert.t) (providers_to_notify : list pystr)
  (notification_results : list NotificationResult.t)
  : M (list NotificationResult.t) :=
  match providers_to_notify with
  | [] => ret notification_results
  | provider_id :: rest =>
      providers <- gets healthcare_providers ;;
      match dict_get providers provider_id with
      | Some provider =>
          result <- _send_notification_to_provider alert provider ;;
          notify_each alert rest (notification_results ++ [result])
      | None => notify_each alert rest notification_results
      end
  end.

(** [send_alert].  None of the steps of its [try:] raises on these typed
    inputs, so the summary is always the ["alert_sent"] one.
    [_log_alert_for_audit] builds a dict and logs a line; it touches
    neither [self] nor the adapters and is left out. *)
Definition send_alert (request : SendAlertRequest.t)
  : M SendAlertResponse.t :=
  let patient_message :=
    get_or (SendAlertRequest.patient_message request) [] in
  let triage_assessment :=
    get_or (SendAlertRequest.triage_assessment request)
           TriageAssessment.empty in
  let patient_context :=
    get_or (SendAlertRequest.patient_context request)
           PatientContext.empty in
  let priority := get_or (SendAlertRequest.priority request) (py "HIGH") in
  now <- datetime_now ;;
  let timestamp :=
    get_or (SendAlertRequest.timestamp request) (isoformat now) in
  alert <- _create_alert patient_message triage_assessment patient_context
             priority timestamp ;;
  providers <- gets healthcare_providers ;;
  let providers_to_notify :=
    _determine_notification_recipients providers alert in
  notification_results <- notify_each alert providers_to_notify [] ;;
  do modify (fun s => set_alert_history (alert_history s ++ [alert]) s) ;;
  ret (SendAlertResponse.alert_sent
         (SendAlertResponse.mk (Alert.alert_id alert) priority
            (length notification_results) notification_results
            (_get_expected_response_time priority) timestamp)).

(** [get_alert_history].  Without a patient name, [filtered_alerts] is
    [self.alert_history] itself, so [.sort] reorders the stored list;
    with one, the list comprehension builds a fresh list and the stored
    one is left alone. *)
Definition get_alert_history (request : HistoryRequest.t)
  : M HistoryResponse.t :=
  let limit := get_or (HistoryRequest.limit request) 50%Z in
  let patient_name := HistoryRequest.patient_name request in
  history <- gets alert_history ;;
  if truthy patient_name
  then
    let filtered_alerts :=
      filter (fun alert =>
                str_eqb (PatientInfo.name (Alert.patient_info alert))
                        (get_or patient_name []))
             history in
    let filtered_alerts := sort_newest_first filtered_alerts in
    ret (HistoryResponse.success
           (HistoryResponse.mk (slice_list filtered_alerts limit)
              (length filtered_alerts) limit))
  else
    let filtered_alerts := sort_newest_first history in
    do modify (set_alert_history filtered_alerts) ;;
    ret (HistoryResponse.success
           (HistoryResponse.mk (slice_list filtered_alerts limit)
              (length filtered_alerts) limit)).

(** [str(x)] of an optional string inside an f-string. *)
Definition str_of_optional (o : option pystr) : pystr :=
  get_or o (py "None").

(** [update_provider_status]. *)
Definition update_provider_status (request : UpdateRequest.t)
  : M UpdateResponse.t :=
  let provider_id := UpdateRequest.provider_id request in
  let on_call := UpdateRequest.on_call request in
  providers <- gets healthcare_providers ;;
  match provider_id with
  | Some id =>
      match dict_get providers id with
      | Some _ =>
          do modify (set_healthcare_providers
                       (store_on_call id on_call providers)) ;;
          ret (UpdateResponse.updated id on_call)
      | None =>
          ret (UpdateResponse.not_found
                 (py "Provider " ++ id ++ py " not found"))
      end
  | None =>
      ret (UpdateResponse.not_found (py "Provider None not found"))
  end.

(** [check_provider_availability]: id, name, role and department of the
    providers on call, in directory order. *)
Definition check_provider_availability
  : M (list (pystr * pystr * pystr * pystr)) :=
  providers <- gets healthcare_providers ;;
  ret (map (fun kp =>
              (fst kp, Provider.name (snd kp), Provider.role (snd kp),
               Provider.department (snd kp)))
           (filter (fun kp => get_or (Provider.on_call (snd kp)) false)
                   providers)).

(** [escalate_alert].  The loop stops at the first alert whose id matches,
    updates that dict in place and sends a new alert through
    [send_alert]; an absent or [None] id matches nothing. *)
Definition escalate_alert (request : EscalateRequest.t)
  : M EscalateResponse.t :=
  let alert_id := EscalateRequest.alert_id request in
  let new_priority :=
    get_or (EscalateRequest.new_priority request) (py "URGENT") in
  history <- gets alert_history ;;
  match match alert_id with
        | Some id => find_alert id history
        | None => None
        end with
  | Some (before, alert, after) =>
      let old_priority := Alert.priority alert in
      let alert := Alert.escalated new_priority alert in
      do modify (set_alert_history (before ++ alert :: after)) ;;
      now <- datetime_now ;;
      escalation_result <-
        send_alert
          (SendAlertRequest.mk
             (Some (py "ESCALATED: "
                    ++ PatientInfo.original_message
                         (Alert.patient_info alert)))
             (Some (Alert.triage_assessment alert))
             (Some (PatientInfo.as_context (Alert.patient_info alert)))
             (Some new_priority)
             (Some (isoformat now))) ;;
      ret (EscalateResponse.escalated
             (EscalateResponse.mk (str_of_optional alert_id) old_priority
                new_priority (Alert.escalation_level alert)
                escalation_result))
  | None =>
      ret (EscalateResponse.not_found
             (py "Alert " ++ str_of_optional alert_id ++ py " not found"))
  end.

End Agent.

(* ===================================================================== *)
(** ** The dispatcher as a walk over a channel plan *)
(* ===================================================================== *)

(** The channels the [try:] of [_send_notification_to_provider] goes
    through for a priority string, in the order of its statements. *)
Definition tier_of (priority : pystr) : list Channel :=
  dashboard
  :: (if existsb (str_eqb priority) [py "URGENT"; py "HIGH"]
      then sms :: (if str_eqb priority (py "URGENT") then [pager] else [])
      else [])
  ++ [email].

(** The contact key each adapter is given, and its value. *)
Definition contact_key (c : Channel) : pystr :=
  match c with
  | dashboard => py "dashboard_id"
  | sms => py "phone"
  | pager => py "pager"
  | email => py "email"
  end.

Definition address_of (contact : Contact.t) (c : Channel) : option pystr :=
  match c with
  | dashboard => Contact.dashboard_id contact
  | sms => Contact.phone contact
  | pager => Contact.pager contact
  | email => Contact.email contact
  end.

Definition has_address (contact : Contact.t) (c : Channel) : bool :=
  match address_of contact c with Some _ => true | None => false end.

(** The channels of a plan reached before the first missing address, and
    that first channel without an address. *)
Fixpoint attempted (contact : Contact.t) (plan : list Channel)
  : list Channel :=
  match plan with
  | [] => []
  | c :: rest =>
      if has_address contact c then c :: attempted contact rest else []
  end.

Definition first_missing (contact : Contact.t) (plan : list Channel)
  : option Channel :=
  find (fun c => negb (has_address contact c)) plan.

(** The outbox entry of one adapter invocation. *)
Definition delivery_of (adapter : Channel -> Alert.t -> pystr -> bool)
  (alert : Alert.t) (contact : Contact.t) (c : Channel) : Delivery.t :=
  let destination := get_or (address_of contact c) [] in
  Delivery.mk c (Alert.alert_id alert) destination
              (adapter c alert destination).

(** Three statements per channel: look the address up, call the adapter,
    append the channel name. *)
Fixpoint run_plan (adapter : Channel -> Alert.t -> pystr -> bool)
  (alert : Alert.t) (contact : Contact.t) (plan : list Channel) : Try unit :=
  match plan with
  | [] => tret tt
  | c :: rest =>
      destination <~ subscript (address_of contact c) (contact_key c) ;;
      reported <~ call_adapter adapter c alert destination ;;
      _ <~ channels_used_append c ;;
      run_plan adapter alert contact rest
  end.

(* ===================================================================== *)
(** ** What an operation leaves alone, and what [send_alert] creates *)
(* ===================================================================== *)

(** The two attributes of [self] are the same in both states. *)
Definition same_store (s s' : State) : Prop :=
  alert_history s' = alert_history s
  /\ healthcare_providers s' = healthcare_providers s.

(** The alert [send_alert] builds for a request in state [s]: the call of
    [_create_alert] it makes after its own reading of the clock. *)
Definition created_alert (clock : nat -> datetime)
  (request : SendAlertRequest.t) (s : State) : Alert.t :=
  fst (_create_alert clock
         (get_or (SendAlertRequest.patient_message request) [])
         (get_or (SendAlertRequest.triage_assessment request)
                 TriageAssessment.empty)
         (get_or (SendAlertRequest.patient_context request)
                 PatientContext.empty)
         (get_or (SendAlertRequest.priority request) (py "HIGH"))
         (get_or (SendAlertRequest.timestamp request)
                 (isoformat (clock (clock_reads s))))
         (tick s)).

(** The id [_create_alert] gives the alert number [n] at clock rendering
    [stamp]. *)
Definition make_alert_id (n : nat) (stamp : pystr) : pystr :=
  py "ALERT_" ++ str_of_nat n ++ py "_" ++ stamp.

(* ===================================================================== *)
(** ** Reading the store *)
(* ===================================================================== *)

(** The escalation level of the alert [escalate_alert] would find under
    [alert_id]; [None] when the store has no such alert. *)
Definition escalation_level_of (alert_id : pystr) (history : list Alert.t)
  : option Z :=
  match find_alert alert_id history with
  | Some (_, alert, _) => Some (Alert.escalation_level alert)
  | None => None
  end.

(** The request [escalate_alert] hands to [send_alert] for the alert it
    found, once updated, at the clock reading [now]. *)
Definition escalation_request (alert : Alert.t) (new_priority : pystr)
  (now : datetime) : SendAlertRequest.t :=
  SendAlertRequest.mk
    (Some (py "ESCALATED: "
           ++ PatientInfo.original_message (Alert.patient_info alert)))
    (Some (Alert.triage_assessment alert))
    (Some (PatientInfo.as_context (Alert.patient_info alert)))
    (Some new_priority)
    (Some (isoformat now)).

(** Every stored alert carries an id made by [_create_alert] with a number
    that does not exceed the length of the history. *)
Definition numbered (history : list Alert.t) : Prop :=
  Forall (fun alert =>
            exists n stamp,
              Alert.alert_id alert = make_alert_id n stamp
              /\ n <= length history)
         history.

(** The states the agent can be in: those [__init__] leaves, and those
    reached from them through its public methods
    ([check_provider_availability] changes nothing and needs no rule). *)
Inductive reachable (clock : nat -> datetime)
  (adapter : Channel -> Alert.t -> pystr -> bool) : State -> Prop :=
| reach_init (n : nat) (out : list Delivery.t) :
    reachable clock adapter (init_state n out)
| reach_send_alert (s : State) (request : SendAlertRequest.t) :
    reachable clock adapter s ->
    reachable clock adapter (snd (send_alert clock adapter request s))
| reach_get_alert_history (s : State) (request : HistoryRequest.t) :
    reachable clock adapter s ->
    reachable clock adapter (snd (get_alert_history request s))
| reach_update_provider_status (s : State) (request : UpdateRequest.t) :
    reachable clock adapter s ->
    reachable clock adapter (snd (update_provider_status request s))
| reach_escalate_alert (s : State) (request : EscalateRequest.t) :
    reachable clock adapter s ->
    reachable clock adapter (snd (escalate_alert clock adapter request s)).

(** The alerts of a history whose patient name is [patient_name]. *)
Definition alerts_of (patient_name : pystr) (history : list Alert.t)
  : list Alert.t :=
  filter (fun alert =>
            str_eqb (PatientInfo.name (Alert.patient_info alert))
                    patient_name)
         history.

(** Every provider of a directory has the four contact addresses. *)
Definition contacts_complete (providers : list (pystr * Provider.t))
  : Prop :=
  Forall (fun entry =>
            forall c, address_of (Provider.contact (snd entry)) c <> None)
         providers.

(** Newest first: [a] may stand before [b]. *)
Definition newest_first (a b : Alert.t) : Prop :=
  str_leb (Alert.timestamp b) (Alert.timestamp a) = true.

(* ===================================================================== *)
(** ** The policies in the words of the specification *)
(* ===================================================================== *)

(** A provider id is on call when the directory has it and its flag is
    set. *)
Definition on_call_now (providers : list (pystr * Provider.t))
  (provider_id : pystr) : bool :=
  match dict_get providers provider_id with
  | Some provider => get_or (Provider.on_call provider) false
  | None => false
  end.

(** Recipient resolution as the specification words it: the primary nurse
    is always a candidate, the physician is one when the risk level is
    CRITICAL or the priority is URGENT; the candidates are filtered to those
    on call; an empty outcome falls back to the whole directory. *)
Definition recipients_by_policy (providers : list (pystr * Provider.t))
  (alert : Alert.t) : list pystr :=
  let candidates :=
    py "nurse_david"
    :: (if str_eqb (Alert.risk_level alert) (py "CRITICAL")
           || str_eqb (Alert.priority alert) (py "URGENT")
        then [py "dr_smith"] else []) in
  match filter (on_call_now providers) candidates with
  | [] => dict_keys providers
  | available => available
  end.

(** The patient message as the specification words it: at most its first
    150 characters, followed by the ellipsis marker when, and only when,
    something was cut off. *)
Definition truncated_report (patient_message : pystr) : pystr :=
  if length patient_message <=? 150 then patient_message
  else firstn 150 patient_message ++ py "...".

(** What the rendered message shows before the patient report ... *)
Definition alert_head (patient_name : pystr) (symptoms : list pystr)
  (risk_level : pystr) : pystr :=
  urgency_indicator risk_level ++ py ": Patient Alert - " ++ patient_name
  ++ newline ++ newline
  ++ py "SYMPTOMS: " ++ symptoms_text symptoms ++ newline
  ++ py "PATIENT REPORT: ".

(** ... and after it. *)
Definition alert_tail (risk_level stamp : pystr) : pystr :=
  rstrip (newline ++ newline
          ++ py "RISK LEVEL: " ++ risk_level ++ newline
          ++ py "IMMEDIATE ACTION: " ++ immediate_action risk_level
          ++ newline ++ newline
          ++ py "Alert ID: " ++ stamp ++ newline ++ py "        ").

(** The priority tiers of the specification and their channel table. *)
Inductive PriorityTier := URGENT | HIGH | NORMAL.

Definition priority_name (t : PriorityTier) : pystr :=
  match t with
  | URGENT => py "URGENT"
  | HIGH => py "HIGH"
  | NORMAL => py "NORMAL"
  end.

Definition tier_channels (t : PriorityTier) : list Channel :=
  match t with
  | NORMAL => [dashboard; email]
  | HIGH => [dashboard; sms; email]
  | URGENT => [dashboard; sms; pager; email]
  end.

(* ===================================================================== *)
(** ** Concrete inputs *)
(* ===================================================================== *)

(** A clock whose k-th reading is rendered with the digits of [k]. *)
Definition sample_clock (k : nat) : datetime :=
  mkDatetime (py "2025-01-01T00:00:00." ++ str_of_nat k)
             (py "20250101_0000" ++ str_of_nat k).

Definition sample_assessment : TriageAssessment.t :=
  TriageAssessment.mk (Some (py "CRITICAL")) (Some true)
    (Some [py "fever"; py "swelling"]) (Some (py "signs of infection"))
    (Some [py "call the patient"]) (Some 9%Z).

(** An URGENT alert for the patient Elena. *)
Definition sample_alert : Alert.t :=
  Alert.mk (py "ALERT_1_20250101_000001") (py "2025-01-01T00:00:00.0")
    (py "URGENT") (py "CRITICAL") 9%Z
    (PatientInfo.mk (py "Elena") (py "knee replacement")
       (py "I have a fever"))
    sample_assessment (py "URGENT: Patient Alert - Elena") (py "sent")
    true 0%Z (py "triage_agent").

Definition nurse_david : Provider.t :=
  Provider.mk (py "David Johnson") (py "Registered Nurse")
    (py "Orthopedic Floor")
    (Contact.mk (Some (py "+1-555-0123"))
                (Some (py "david.johnson@hospital.com"))
                (Some (py "555-1234"))
                (Some (py "nurse_dashboard_001")))
    [] [] (Some true).

(** The same provider with no ["phone"] key, and with no ["email"] key. *)
Definition nurse_without_phone : Provider.t :=
  Provider.mk (py "David Johnson") (py "Registered Nurse")
    (py "Orthopedic Floor")
    (Contact.mk None (Some (py "david.johnson@hospital.com"))
                (Some (py "555-1234")) (Some (py "nurse_dashboard_001")))
    [] [] (Some true).

Definition nurse_without_email : Provider.t :=
  Provider.mk (py "David Johnson") (py "Registered Nurse")
    (py "Orthopedic Floor")
    (Contact.mk (Some (py "+1-555-0123")) None
                (Some (py "555-1234")) (Some (py "nurse_dashboard_001")))
    [] [] (Some true).

(** Adapters every call of which reports [False]. *)
Definition failing_adapters (c : Channel) (alert : Alert.t)
  (destination : pystr) : bool := false.

(** A request whose assessment has no risk level. *)
Definition request_without_risk_level : SendAlertRequest.t :=
  SendAlertRequest.mk (Some (py "I feel dizzy"))
    (Some (TriageAssessment.mk None (Some true) (Some [py "dizziness"])
             None None (Some 4%Z)))
    (Some (PatientContext.mk (Some (py "Elena")) None))
    (Some (py "HIGH")) (Some (py "2025-01-01T08:00:00")).

(** A request to alert the providers about Elena, the state after it has
    been served by a fresh agent, and the alert stored there. *)
Definition sample_request : SendAlertRequest.t :=
  SendAlertRequest.mk (Some (py "I have a fever")) (Some sample_assessment)
    (Some (PatientContext.mk (Some (py "Elena"))
             (Some (py "knee replacement"))))
    (Some (py "HIGH")) (Some (py "2025-01-01T08:00:00")).

Definition state_after_one_alert : State :=
  snd (send_alert sample_clock source_adapters sample_request
         (init_state 0 [])).

Definition first_alert : Alert.t :=
  created_alert sample_clock sample_request (init_state 0 []).

Definition first_alert_id : pystr := py "ALERT_1_20250101_00001".

Definition escalate_first : EscalateRequest.t :=
  EscalateRequest.mk (Some first_alert_id) None.


(** A later alert for the same patient, and the state holding both. *)
Definition later_request : SendAlertRequest.t :=
  SendAlertRequest.mk (Some (py "The swelling is worse"))
    (Some sample_assessment)
    (Some (PatientContext.mk (Some (py "Elena"))
             (Some (py "knee replacement"))))
    (Some (py "URGENT")) (Some (py "2025-01-02T09:30:00")).

Definition state_after_two_alerts : State :=
  snd (send_alert sample_clock source_adapters later_request
         state_after_one_alert).

(* ===================================================================== *)
(** ** The entry point [invoke] *)
(* ===================================================================== *)

(** The request dict of [invoke]: its ["action"] key, and the same dict as
    each method reads it. *)
Module InvokeRequest.
Record t := mk {
  action : option pystr;
  as_send_alert : SendAlertRequest.t;
  as_get_alert_history : HistoryRequest.t;
  as_update_provider_status : UpdateRequest.t;
  as_escalate_alert : EscalateRequest.t
}.
End InvokeRequest.

(** What [invoke] returns: the dict of the method it dispatched to, or the
    ["Unknown action"] error dict. *)
Module InvokeResponse.
Inductive t :=
| of_send_alert (r : SendAlertResponse.t)
| of_get_alert_history (r : HistoryResponse.t)
| of_update_provider_status (r : UpdateResponse.t)
| of_check_provider_availability (r : list (pystr * pystr * pystr * pystr))
| of_escalate_alert (r : EscalateResponse.t)
| unknown_action (message : pystr) (available_actions : list pystr).
End InvokeResponse.

Section Invoke.

Variable clock : nat -> datetime.
Variable adapter : Channel -> Alert.t -> pystr -> bool.

(** [invoke]: the action defaults to ["send_alert"]. *)
Definition invoke (request : InvokeRequest.t) : M InvokeResponse.t :=
  let action := get_or (InvokeRequest.action request) (py "send_alert") in
  if str_eqb action (py "send_alert") then
    r <- send_alert clock adapter (InvokeRequest.as_send_alert request) ;;
    ret (InvokeResponse.of_send_alert r)
  else if str_eqb action (py "get_alert_history") then
    r <- get_alert_history (InvokeRequest.as_get_alert_history request) ;;
    ret (InvokeResponse.of_get_alert_history r)
  else if str_eqb action (py "update_provider_status") then
    r <- update_provider_status
           (InvokeRequest.as_update_provider_status request) ;;
    ret (InvokeResponse.of_update_provider_status r)
  else if str_eqb action (py "check_provider_availability") then
    r <- check_provider_availability ;;
    ret (InvokeResponse.of_check_provider_availability r)
  else if str_eqb action (py "escalate_alert") then
    r <- escalate_alert clock adapter
           (InvokeRequest.as_escalate_alert request) ;;
    ret (InvokeResponse.of_escalate_alert r)
  else
    ret (InvokeResponse.unknown_action
           (py "Unknown action: " ++ action)
           [py "send_alert"; py "get_alert_history";
            py "update_provider_status"; py "check_provider_availability";
            py "escalate_alert"]).

(** A run of the agent: the requests served one after the other. *)
Fixpoint serve (requests : list InvokeRequest.t) (s : State) : State :=
  match requests with
  | [] => s
  | request :: rest => serve rest (snd (invoke request s))
  end.

End Invoke.

(* ===================================================================== *)
(** ** The triage agent *)
(* ===================================================================== *)

(** The [params] dict [_trigger_nurse_notification] hands to the A2A
    client.  [patient_context] is passed on as received, and
    [assess_symptoms] receives [None] by default: here [None] is that
    Python value, not a missing key. *)
Module NotificationData.
Record t := mk {
  patient_message : pystr;
  triage_assessment : TriageAssessment.t;
  patient_context : option PatientContext.t;
  timestamp : pystr;
  priority : pystr
}.
End NotificationData.

(** What [await self.generate_response(...)] followed by [json.loads] can
    come to: the model call raises, its text is not JSON, or it parses to
    an assessment dict. *)
Inductive llm_reply :=
| generation_failed (detail : pystr)
| not_json
| parsed (assessment : TriageAssessment.t).

(** The two fallback assessments of [assess_symptoms].  (Their key
    ["keywords_detected"], which no code reads, has no field in the
    record.) *)
Definition parsing_error_assessment : TriageAssessment.t :=
  TriageAssessment.mk (Some (py "MODERATE")) (Some true)
    (Some [py "parsing_error"])
    (Some (py "Unable to parse assessment, escalating for safety"))
    (Some [py "Manual review needed"]) (Some 5%Z).

Definition system_error_assessment (detail : pystr) : TriageAssessment.t :=
  TriageAssessment.mk (Some (py "CRITICAL")) (Some true)
    (Some [py "system_error"])
    (Some (py "System error during assessment: " ++ detail))
    (Some [py "Immediate manual review required"]) (Some 10%Z).

Section Triage.

Variable clock : nat -> datetime.

(** [self.a2a_client.call_agent(agent_name="nurse_notifier_agent",
    method="send_alert", params=...)].  The client belongs to the agent
    framework; the triage agent only logs its answer and swallows its
    exceptions, so the call is its effect on the state. *)
Variable call_agent : NotificationData.t -> M unit.

(** [_trigger_nurse_notification]: the timestamp is taken before the
    priority is computed; [assessment["risk_level"]] raises [KeyError] when
    the key is missing, and the [except] branch only logs. *)
Definition _trigger_nurse_notification (patient_message : pystr)
  (assessment : TriageAssessment.t)
  (patient_context : option PatientContext.t) : M unit :=
  now <- datetime_now clock ;;
  match TriageAssessment.risk_level assessment with
  | Some risk_level =>
      call_agent
        (NotificationData.mk patient_message assessment patient_context
           (isoformat now) (_map_risk_to_priority risk_level))
  | None => ret tt
  end.

(** [assess_symptoms], for the reply of the model.  The closing log line
    reads [assessment['risk_level']]; when the key is missing the outer
    [except] returns the system-error assessment with
    [str(KeyError('risk_level'))] as detail. *)
Definition assess_symptoms (reply : llm_reply) (patient_message : pystr)
  (patient_context : option PatientContext.t) : M TriageAssessment.t :=
  match reply with
  | generation_failed detail => ret (system_error_assessment detail)
  | not_json | parsed _ =>
      let assessment :=
        match reply with
        | parsed a => a
        | _ => parsing_error_assessment
        end in
      do (if get_or (TriageAssessment.escalate assessment) false
          then _trigger_nurse_notification patient_message assessment
                 patient_context
          else ret tt) ;;
      match TriageAssessment.risk_level assessment with
      | Some _ => ret assessment
      | None => ret (system_error_assessment (py "'risk_level'"))
      end
  end.

End Triage.

(* ===================================================================== *)
(** ** The notifier as the triage agent reaches it *)
(* ===================================================================== *)

Section Endpoint.

Variable clock : nat -> datetime.
Variable adapter : Channel -> Alert.t -> pystr -> bool.

(** [NurseNotifierAgentA2AHandler.send_alert(params)], that is
    [send_alert] on the params of the triage agent.  When
    ["patient_context"] holds [None], [send_alert] has read the clock for
    the default of its timestamp when [patient_context.get] raises
    [AttributeError]; its [except] branch answers with the error dict. *)
Definition handler_send_alert (params : NotificationData.t)
  : M SendAlertResponse.t :=
  match NotificationData.patient_context params with
  | Some patient_context =>
      send_alert clock adapter
        (SendAlertRequest.mk
           (Some (NotificationData.patient_message params))
           (Some (NotificationData.triage_assessment params))
           (Some patient_context)
           (Some (NotificationData.priority params))
           (Some (NotificationData.timestamp params)))
  | None =>
      now <- datetime_now clock ;;
      ret (SendAlertResponse.error
             (py "'NoneType' object has no attribute 'get'"))
  end.

(** The A2A route from the triage agent to that handler. *)
Definition notifier_endpoint (params : NotificationData.t) : M unit :=
  do handler_send_alert params ;; ret tt.

End Endpoint.

(* ===================================================================== *)
(** ** Invariants of the directory and of the ids *)
(* ===================================================================== *)

(** The seeded directory with the two on-call flags replaced. *)
Definition directory_with (nurse_on_call dr_on_call : option bool)
  : list (pystr * Provider.t) :=
  match _initialize_healthcare_providers with
  | [(k1, p1); (k2, p2)] =>
      [(k1, Provider.set_on_call nurse_on_call p1);
       (k2, Provider.set_on_call dr_on_call p2)]
  | d => d
  end.

(** The ids of the stored alerts. *)
Definition alert_ids (history : list Alert.t) : list pystr :=
  map Alert.alert_id history.

(** The ids listed by [check_provider_availability]. *)
Definition available_ids (s : State) : list pystr :=
  map (fun row => fst (fst (fst row))) (fst (check_provider_availability s)).

(** The recipients of an alert by the two on-call flags. *)
Definition recipients_table (critical_or_urgent nurse_on dr_on : bool)
  : list pystr :=
  if critical_or_urgent
  then match nurse_on, dr_on with
       | true, true => [py "nurse_david"; py "dr_smith"]
       | true, false => [py "nurse_david"]
       | false, true => [py "dr_smith"]
       | false, false => [py "nurse_david"; py "dr_smith"]
       end
  else if nurse_on then [py "nurse_david"]
       else [py "nurse_david"; py "dr_smith"].

(** A status update for a provider the directory does not have, and one
    that takes the nurse off call. *)
Definition update_unknown : UpdateRequest.t :=
  UpdateRequest.mk (Some (py "dr_jones")) (Some true).

Definition nurse_off_call : UpdateRequest.t :=
  UpdateRequest.mk (Some (py "nurse_david")) (Some false).

(** The alert [find_alert] finds under an id. *)
Definition found_alert (alert_id : pystr) (history : list Alert.t)
  : option Alert.t :=
  match find_alert alert_id history with
  | Some (_, alert, _) => Some alert
  | None => None
  end.

(** An escalation request for an id no alert has. *)
Definition escalate_missing : EscalateRequest.t :=
  EscalateRequest.mk (Some (py "ALERT_missing")) (Some (py "URGENT")).

(** A request for an action [invoke] does not know, and a short run of
    requests. *)
Definition invoke_request (action : option pystr) : InvokeRequest.t :=
  InvokeRequest.mk action sample_request (HistoryRequest.mk None None)
    nurse_off_call escalate_first.

Definition sample_run : list InvokeRequest.t :=
  [ invoke_request None;
    invoke_request (Some (py "get_alert_history"));
    invoke_request (Some (py "escalate_alert"));
    invoke_request (Some (py "update_provider_status"));
    invoke_request (Some (py "delete_alert")) ].

(** Replies of the model: a routine assessment, one without a risk level,
    and the patient context of Elena. *)
Definition routine_assessment : TriageAssessment.t :=
  TriageAssessment.mk (Some (py "LOW")) (Some false) (Some [])
    (Some (py "general recovery question")) (Some []) (Some 2%Z).

Definition assessment_without_risk_level : TriageAssessment.t :=
  TriageAssessment.mk None (Some true) (Some [py "fever"]) None None
    (Some 8%Z).

Definition elena : PatientContext.t :=
  PatientContext.mk (Some (py "Elena")) (Some (py "knee replacement")).

(* ===================================================================== *)
(** ** Facts about strings and dicts *)
(* ===================================================================== *)

Lemma str_eqb_eq (a b : pystr) : str_eqb a b = true <-> a = b.
Proof.
  revert b; induction a as [|x a IH]; intros [|y b]; simpl;
    try (split; [discriminate | congruence]); try tauto.
  rewrite andb_true_iff, N.eqb_eq, IH.
  split; [intros [-> ->]; reflexivity | intros H; inversion H; auto].
Qed.

Lemma str_eqb_refl (a : pystr) : str_eqb a a = true.
Proof. apply str_eqb_eq; reflexivity. Qed.

Lemma str_eqb_neq (a b : pystr) : str_eqb a b = false <-> a <> b.
Proof.
  rewrite <- str_eqb_eq. destruct (str_eqb a b); split; congruence.
Qed.

Lemma str_leb_refl (a : pystr) : str_leb a a = true.
Proof.
  induction a as [|x a IH]; simpl; auto.
  rewrite N.ltb_irrefl, N.eqb_refl; exact IH.
Qed.

Lemma str_leb_total (a b : pystr) : str_leb a b = true \/ str_leb b a = true.
Proof.
  revert b; induction a as [|x a IH]; intros [|y b]; simpl; auto.
  destruct (N.ltb_spec x y) as [Hxy|Hxy]; auto.
  destruct (N.ltb_spec y x) as [Hyx|Hyx]; auto.
  assert (x = y) as -> by lia.
  rewrite N.eqb_refl; apply IH.
Qed.

Lemma str_leb_trans (a b c : pystr) :
  str_leb a b = true -> str_leb b c = true -> str_leb a c = true.
Proof.
  revert b c; induction a as [|x a IH]; intros [|y b] [|z c]; simpl; auto;
    try discriminate.
  destruct (N.ltb_spec x y) as [Hxy|Hxy];
    destruct (N.ltb_spec y z) as [Hyz|Hyz];
    destruct (N.ltb_spec x z) as [Hxz|Hxz]; auto; try lia;
    destruct (N.eqb_spec x y) as [Exy|Exy];
    destruct (N.eqb_spec y z) as [Eyz|Eyz];
    destruct (N.eqb_spec x z) as [Exz|Exz];
    try discriminate; try lia; auto.
  apply IH.
Qed.

Lemma dict_get_In (A : Type) (d : list (pystr * A)) (key : pystr) (v : A) :
  dict_get d key = Some v -> In key (dict_keys d).
Proof.
  induction d as [|[k w] d IH]; simpl; [discriminate|].
  destruct (str_eqb k key) eqn:E; [|auto].
  apply str_eqb_eq in E; auto.
Qed.

(* ===================================================================== *)
(** ** Risk level to priority *)
(* ===================================================================== *)

(** C5 (as amended).  [_map_risk_to_priority] sends CRITICAL to URGENT,
    MODERATE to HIGH and LOW to NORMAL; every other risk-level value, that
    is every unrecognized one, goes to HIGH, the default of the lookup. *)
Theorem map_risk_to_priority_cases (risk_level : pystr) :
  risk_level <> py "CRITICAL" ->
  risk_level <> py "MODERATE" ->
  risk_level <> py "LOW" ->
  _map_risk_to_priority risk_level = py "HIGH"
  /\ _map_risk_to_priority (py "CRITICAL") = py "URGENT"
  /\ _map_risk_to_priority (py "MODERATE") = py "HIGH"
  /\ _map_risk_to_priority (py "LOW") = py "NORMAL".
Proof.
  intros HC HM HL.
  split; [|repeat split; reflexivity].
  unfold _map_risk_to_priority, get_or, dict_get.
  apply str_eqb_neq in HC, HM, HL.
  rewrite (proj2 (str_eqb_neq _ _)), (proj2 (str_eqb_neq _ _)),
          (proj2 (str_eqb_neq _ _)); auto;
    intros E; symmetry in E; revert E; apply str_eqb_neq; assumption.
Qed.

Lemma map_risk_to_priority_cases_witness :
  _map_risk_to_priority (py "UNKNOWN") = py "HIGH"
  /\ _map_risk_to_priority (py "CRITICAL") = py "URGENT"
  /\ _map_risk_to_priority (py "MODERATE") = py "HIGH"
  /\ _map_risk_to_priority (py "LOW") = py "NORMAL".
Proof.
  apply (@map_risk_to_priority_cases (py "UNKNOWN")); discriminate.
Defined.

(** C5 (as stated) fails: the unrecognized risk level ["UNKNOWN"], which is
    neither CRITICAL nor MODERATE, is mapped to HIGH and not to NORMAL. *)
Lemma map_risk_unrecognized_is_not_normal :
  py "UNKNOWN" <> py "CRITICAL"
  /\ py "UNKNOWN" <> py "MODERATE"
  /\ _map_risk_to_priority (py "UNKNOWN") = py "HIGH"
  /\ _map_risk_to_priority (py "UNKNOWN") <> py "NORMAL".
Proof. repeat split; try discriminate; reflexivity. Qed.

(* ===================================================================== *)
(** ** Recipient resolution *)
(* ===================================================================== *)

Lemma available_among_filter (providers : list (pystr * Provider.t))
  (recipients acc : list pystr) :
  available_among providers recipients acc
  = acc ++ filter (on_call_now providers) recipients.
Proof.
  revert acc; induction recipients as [|r rs IH]; intros acc; simpl.
  - now rewrite app_nil_r.
  - unfold on_call_now at 1.
    destruct (dict_get providers r) as [p|]; [|apply IH].
    destruct (get_or (Provider.on_call p) false); [|apply IH].
    rewrite IH, <- app_assoc; reflexivity.
Qed.

Lemma on_call_now_In (providers : list (pystr * Provider.t)) (id : pystr) :
  on_call_now providers id = true -> In id (dict_keys providers).
Proof.
  unfold on_call_now.
  destruct (dict_get providers id) eqn:E; [|discriminate].
  intros _; eapply dict_get_In; eassumption.
Qed.

(** C2.  Whenever the directory is non-empty, the recipients resolved for
    an alert are a non-empty list of ids of the directory, and they are
    those of the policy: the nurse always a candidate, the physician when
    the risk is CRITICAL or the priority URGENT, candidates filtered to
    those on call, the whole directory when that leaves nobody. *)
Theorem recipients_never_empty (providers : list (pystr * Provider.t))
  (alert : Alert.t) :
  providers <> [] ->
  _determine_notification_recipients providers alert <> []
  /\ _determine_notification_recipients providers alert
     = recipients_by_policy providers alert
  /\ incl (_determine_notification_recipients providers alert)
          (dict_keys providers).
Proof.
  intros Hne.
  assert (Heq : _determine_notification_recipients providers alert
                = recipients_by_policy providers alert).
  { unfold _determine_notification_recipients, recipients_by_policy.
    rewrite available_among_filter; simpl app.
    destruct (str_eqb (Alert.risk_level alert) (py "CRITICAL")
              || str_eqb (Alert.priority alert) (py "URGENT"));
      match goal with
      | |- context [filter ?f ?l] => destruct (filter f l); reflexivity
      end. }
  rewrite Heq; unfold recipients_by_policy.
  set (candidates := _ :: _).
  destruct (filter (on_call_now providers) candidates) as [|a l] eqn:F.
  - repeat split; [|apply incl_refl].
    destruct providers; [congruence | discriminate].
  - repeat split; [discriminate|].
    intros x Hx. rewrite <- F in Hx.
    apply filter_In in Hx. apply on_call_now_In, Hx.
Qed.

Lemma recipients_never_empty_witness :
  _determine_notification_recipients _initialize_healthcare_providers
    sample_alert <> []
  /\ _determine_notification_recipients _initialize_healthcare_providers
       sample_alert
     = recipients_by_policy _initialize_healthcare_providers sample_alert
  /\ incl (_determine_notification_recipients
             _initialize_healthcare_providers sample_alert)
          (dict_keys _initialize_healthcare_providers).
Proof.
  apply (@recipients_never_empty _initialize_healthcare_providers
           sample_alert).
  discriminate.
Defined.

(* ===================================================================== *)
(** ** The rendered alert message *)
(* ===================================================================== *)

Lemma lstrip_app (x y : pystr) :
  lstrip x <> [] -> lstrip (x ++ y) = lstrip x ++ y.
Proof.
  induction x as [|c x IH]; simpl; [congruence|].
  destruct (isspace c); auto.
Qed.

Lemma lstrip_keeps_nonspace (x y : pystr) (c : N) :
  isspace c = false -> lstrip (x ++ c :: y) <> [].
Proof.
  intros Hc; induction x as [|d x IH]; simpl.
  - rewrite Hc; discriminate.
  - destruct (isspace d); [exact IH | discriminate].
Qed.

Lemma rstrip_app (x y : pystr) :
  rstrip y <> [] -> rstrip (x ++ y) = x ++ rstrip y.
Proof.
  unfold rstrip; intros H.
  rewrite rev_app_distr, lstrip_app, rev_app_distr, rev_involutive; auto.
  intros E; apply H; rewrite E; reflexivity.
Qed.

Lemma rstrip_keeps_nonspace (x y : pystr) (c : N) :
  isspace c = false -> rstrip (x ++ c :: y) <> [].
Proof.
  intros Hc; unfold rstrip.
  rewrite rev_app_distr; simpl; rewrite <- app_assoc; simpl.
  intros E. apply (f_equal (@rev N)) in E; rewrite rev_involutive in E.
  revert E; apply lstrip_keeps_nonspace; exact Hc.
Qed.

Lemma urgency_indicator_head (risk_level : pystr) :
  exists c rest,
    urgency_indicator risk_level = c :: rest /\ isspace c = false.
Proof.
  unfold urgency_indicator, dict_get, get_or.
  destruct (str_eqb (py "CRITICAL") risk_level);
    [eexists; eexists; split; [reflexivity|reflexivity]|].
  destruct (str_eqb (py "MODERATE") risk_level);
    [eexists; eexists; split; [reflexivity|reflexivity]|].
  destruct (str_eqb (py "LOW") risk_level);
    eexists; eexists; split; reflexivity.
Qed.

Lemma patient_report_truncated (patient_message : pystr) :
  patient_report patient_message = truncated_report patient_message.
Proof.
  unfold patient_report, truncated_report, slice_to.
  destruct (Nat.leb_spec (length patient_message) 150) as [H|H].
  - rewrite firstn_all2 by exact H.
    destruct (Nat.ltb_spec 150 (length patient_message)); [lia|].
    apply app_nil_r.
  - destruct (Nat.ltb_spec 150 (length patient_message)); [reflexivity|lia].
Qed.

Lemma strip_alert_template (patient_name patient_message : pystr)
  (symptoms : list pystr) (risk_level stamp : pystr) :
  strip (alert_template patient_name patient_message symptoms risk_level
           stamp)
  = alert_head patient_name symptoms risk_level
    ++ dquote ++ patient_report patient_message ++ dquote
    ++ alert_tail risk_level stamp.
Proof.
  unfold strip, alert_template, alert_head, alert_tail.
  destruct (urgency_indicator_head risk_level) as (c & rest & -> & Hc).
  change (lstrip (newline ++ ?x)) with (lstrip x).
  change ((c :: rest) ++ ?x) with (c :: (rest ++ x)).
  unfold lstrip at 1; rewrite Hc; fold lstrip.
  repeat rewrite <- app_assoc.
  repeat rewrite app_comm_cons.
  repeat rewrite (app_assoc _ _ (newline ++ newline ++ py "RISK LEVEL: " ++ _)).
  rewrite rstrip_app.
  - repeat rewrite <- app_assoc. reflexivity.
  - change (newline ++ newline ++ py "RISK LEVEL: " ++ ?x)
      with ([10%N; 10%N] ++ 82%N :: (py "ISK LEVEL: " ++ x)).
    apply rstrip_keeps_nonspace; reflexivity.
Qed.

(** C8.  The rendered alert message is a heading, then, between double
    quotes, the patient message cut to at most its first 150 characters,
    then a closing part; neither surrounding part depends on the patient
    message.  The ellipsis marker follows the cut message exactly when the
    original is longer than 150 characters. *)
Theorem alert_message_truncates_report (clock : nat -> datetime)
  (patient_name patient_message : pystr) (symptoms : list pystr)
  (risk_level : pystr) (s : State) :
  fst (_format_alert_message clock patient_name patient_message symptoms
         risk_level s)
  = alert_head patient_name symptoms risk_level
    ++ dquote ++ truncated_report patient_message ++ dquote
    ++ alert_tail risk_level (strftime_Ymd_HMS (clock (clock_reads s)))
  /\ exists marker,
       truncated_report patient_message
       = firstn 150 patient_message ++ marker
       /\ length (firstn 150 patient_message) <= 150
       /\ (marker = py "..." <-> 150 < length patient_message)
       /\ (marker = [] <-> length patient_message <= 150).
Proof.
  split.
  - unfold _format_alert_message, bind, datetime_now, ret; simpl.
    rewrite strip_alert_template, patient_report_truncated; reflexivity.
  - rewrite <- patient_report_truncated; unfold patient_report, slice_to.
    exists (if 150 <? length patient_message then py "..." else []).
    split; [reflexivity|]. split; [apply firstn_le_length|].
    destruct (Nat.ltb_spec 150 (length patient_message));
      split; split; intros; try reflexivity; try lia; discriminate.
Qed.

(* ===================================================================== *)
(** ** The dispatcher *)
(* ===================================================================== *)

Section Dispatcher.

Variable clock : nat -> datetime.
Variable adapter : Channel -> Alert.t -> pystr -> bool.

(** The [try:] body is the walk over the plan [tier_of priority]. *)
Lemma notify_channels_run_plan (alert : Alert.t) (contact : Contact.t)
  (priority : pystr) (r : NotificationResult.t) (s : State) :
  notify_channels adapter alert contact priority r s
  = run_plan adapter alert contact (tier_of priority) r s.
Proof.
  unfold notify_channels, tier_of.
  destruct contact as [ph em pg db].
  destruct (existsb (str_eqb priority) [py "URGENT"; py "HIGH"]);
    [destruct (str_eqb priority (py "URGENT"))|];
    destruct db, ph, pg, em; reflexivity.
Qed.

Lemma run_plan_outcome (alert : Alert.t) (contact : Contact.t)
  (plan : list Channel) (r : NotificationResult.t) (s : State) :
  run_plan adapter alert contact plan r s
  = (match first_missing contact plan with
     | None => returned tt
     | Some c => raised (KeyError (contact_key c))
     end,
     fold_left (fun r c => NotificationResult.use c r)
               (attempted contact plan) r,
     fold_left (fun s c =>
                  record_delivery (delivery_of adapter alert contact c) s)
               (attempted contact plan) s).
Proof.
  revert r s; induction plan as [|c plan IH]; intros r s; [reflexivity|].
  unfold first_missing in *; simpl.
  unfold has_address, delivery_of, tbind, subscript at 1.
  destruct (address_of contact c) as [a|] eqn:Ha; simpl; [|reflexivity].
  rewrite IH. unfold delivery_of; rewrite Ha; reflexivity.
Qed.

Lemma used_channels (cs : list Channel) (r : NotificationResult.t) :
  let r' := fold_left (fun r c => NotificationResult.use c r) cs r in
  NotificationResult.channels_used r'
  = NotificationResult.channels_used r ++ cs
  /\ NotificationResult.status r' = NotificationResult.status r
  /\ NotificationResult.error r' = NotificationResult.error r
  /\ NotificationResult.provider_name r'
     = NotificationResult.provider_name r
  /\ NotificationResult.timestamp r' = NotificationResult.timestamp r.
Proof.
  revert r; induction cs as [|c cs IH]; intros r; simpl.
  - rewrite app_nil_r; auto.
  - destruct (IH (NotificationResult.use c r)) as (H1 & H2 & H3 & H4 & H5).
    rewrite H1, H2, H3, H4, H5; simpl.
    rewrite <- app_assoc; auto.
Qed.

Lemma recorded_deliveries (f : Channel -> Delivery.t) (cs : list Channel)
  (s : State) :
  let s' := fold_left (fun s c => record_delivery (f c) s) cs s in
  outbox s' = outbox s ++ map f cs
  /\ alert_history s' = alert_history s
  /\ healthcare_providers s' = healthcare_providers s
  /\ clock_reads s' = clock_reads s.
Proof.
  revert s; induction cs as [|c cs IH]; intros s; simpl.
  - rewrite app_nil_r; auto.
  - destruct (IH (record_delivery (f c) s)) as (H1 & H2 & H3 & H4).
    rewrite H1, H2, H3, H4; simpl.
    rewrite <- app_assoc; auto.
Qed.

Lemma attempted_all (contact : Contact.t) (plan : list Channel) :
  first_missing contact plan = None <-> attempted contact plan = plan.
Proof.
  unfold first_missing; induction plan as [|c plan IH]; simpl;
    [tauto|].
  destruct (has_address contact c); simpl.
  - rewrite IH; split; [congruence | intros H; inversion H; congruence].
  - split; discriminate.
Qed.

Lemma attempted_all_addresses (contact : Contact.t) (plan : list Channel) :
  (forall c, In c plan -> address_of contact c <> None) ->
  first_missing contact plan = None.
Proof.
  unfold first_missing; induction plan as [|c plan IH]; simpl; auto.
  intros H. unfold has_address at 1.
  destruct (address_of contact c) eqn:E.
  - simpl; apply IH; auto.
  - exfalso; apply (H c); auto.
Qed.

(** The whole of [_send_notification_to_provider], for any adapters. *)
Lemma send_notification_to_provider_eq (alert : Alert.t)
  (provider : Provider.t) (s : State) :
  let contact := Provider.contact provider in
  let plan := tier_of (Alert.priority alert) in
  let r0 := NotificationResult.mk (Provider.name provider)
              (Provider.role provider) [] ResultStatus.success None
              (isoformat (clock (clock_reads s))) in
  let r1 := fold_left (fun r c => NotificationResult.use c r)
              (attempted contact plan) r0 in
  _send_notification_to_provider clock adapter alert provider s
  = (match first_missing contact plan with
     | None => r1
     | Some c =>
         NotificationResult.fail (str_of_exn (KeyError (contact_key c))) r1
     end,
     fold_left (fun s c =>
                  record_delivery (delivery_of adapter alert contact c) s)
               (attempted contact plan) (tick s)).
Proof.
  intros contact plan r0 r1; subst contact plan r0 r1.
  lazy beta iota zeta delta [_send_notification_to_provider bind
                              datetime_now].
  rewrite notify_channels_run_plan, run_plan_outcome.
  destruct (first_missing _ _); reflexivity.
Qed.

End Dispatcher.

(** C1 (as amended).  For every alert, provider and adapters, the
    dispatcher goes through the channels of the alert's priority tier in
    order and invokes the adapter of each one up to the first channel for
    which the provider has no contact address; what an adapter reports is
    recorded in the outbox but not inspected, so a failed delivery never
    stops the later channels and never changes the result.  The result has
    status success, with [channels_used] listing every channel of the tier,
    exactly when the provider has an address for each of them; otherwise
    it has status error, the error detail is that of the first (and only)
    exception, the missing contact key, and [channels_used] lists the
    channels attempted before it. *)
Theorem dispatch_outcome (clock : nat -> datetime)
  (adapter : Channel -> Alert.t -> pystr -> bool) (alert : Alert.t)
  (provider : Provider.t) (s : State) :
  let contact := Provider.contact provider in
  let tier := tier_of (Alert.priority alert) in
  let r := fst (_send_notification_to_provider clock adapter alert provider
                  s) in
  let s' := snd (_send_notification_to_provider clock adapter alert provider
                   s) in
  NotificationResult.channels_used r = attempted contact tier
  /\ outbox s'
     = outbox s ++ map (delivery_of adapter alert contact)
                       (attempted contact tier)
  /\ NotificationResult.status r
     = match first_missing contact tier with
       | None => ResultStatus.success
       | Some _ => ResultStatus.error
       end
  /\ NotificationResult.error r
     = option_map (fun c => str_of_exn (KeyError (contact_key c)))
                  (first_missing contact tier)
  /\ (first_missing contact tier = None <-> attempted contact tier = tier).
Proof.
  intros contact tier r s'; subst r s'.
  rewrite send_notification_to_provider_eq; fold contact tier.
  set (r0 := NotificationResult.mk _ _ _ _ _ _).
  destruct (used_channels (attempted contact tier) r0) as (U1 & U2 & U3 & _).
  destruct (recorded_deliveries (delivery_of adapter alert contact)
              (attempted contact tier) (tick s)) as (D1 & _).
  cbv zeta in U1, U2, U3, D1.
  repeat split; try apply attempted_all;
    destruct (first_missing contact tier);
    cbn [fst snd NotificationResult.fail NotificationResult.channels_used
         NotificationResult.status NotificationResult.error option_map];
    rewrite ?U1, ?U2, ?U3, ?D1; reflexivity.
Qed.

(** C1 (as stated) fails in both directions.  With adapters that all report
    failure, the nurse's result for an URGENT alert is still a success that
    lists the four channels, none of which delivered.  With the adapters of
    the source and a provider without an email address, the result is an
    error although dashboard, SMS and pager all delivered, and the email
    adapter is never invoked. *)
Lemma dispatch_status_ignores_deliveries :
  (let out := _send_notification_to_provider sample_clock failing_adapters
                sample_alert nurse_david (init_state 0 []) in
   NotificationResult.status (fst out) = ResultStatus.success
   /\ NotificationResult.channels_used (fst out)
      = [dashboard; sms; pager; email]
   /\ map (fun d => (Delivery.channel d, Delivery.delivered d))
          (outbox (snd out))
      = [(dashboard, false); (sms, false); (pager, false); (email, false)])
  /\
  (let out := _send_notification_to_provider sample_clock source_adapters
                sample_alert nurse_without_email (init_state 0 []) in
   NotificationResult.status (fst out) = ResultStatus.error
   /\ NotificationResult.error (fst out) = Some (py "'email'")
   /\ NotificationResult.channels_used (fst out) = [dashboard; sms; pager]
   /\ map (fun d => (Delivery.channel d, Delivery.delivered d))
          (outbox (snd out))
      = [(dashboard, true); (sms, true); (pager, true)]).
Proof. vm_compute. repeat split; reflexivity. Qed.

Lemma tier_of_priority_name (t : PriorityTier) :
  tier_of (priority_name t) = tier_channels t.
Proof. destruct t; reflexivity. Qed.

(** C3 (as amended).  For every alert whose priority is one of the three
    tiers and every provider that has a contact address for each channel of
    that tier, the channels attempted by the dispatcher are exactly the
    tier: NORMAL uses dashboard and email; HIGH uses dashboard, SMS and
    email; URGENT uses dashboard, SMS, pager and email.  URGENT's channels
    include HIGH's, which include NORMAL's. *)
Theorem tier_channels_attempted (clock : nat -> datetime)
  (adapter : Channel -> Alert.t -> pystr -> bool) (alert : Alert.t)
  (provider : Provider.t) (s : State) (t : PriorityTier) :
  Alert.priority alert = priority_name t ->
  (forall c, In c (tier_channels t) ->
             address_of (Provider.contact provider) c <> None) ->
  let out := _send_notification_to_provider clock adapter alert provider s in
  NotificationResult.channels_used (fst out) = tier_channels t
  /\ NotificationResult.status (fst out) = ResultStatus.success
  /\ (exists sent, outbox (snd out) = outbox s ++ sent
                   /\ map Delivery.channel sent = tier_channels t)
  /\ incl (tier_channels NORMAL) (tier_channels HIGH)
  /\ incl (tier_channels HIGH) (tier_channels URGENT).
Proof.
  intros Hp Ha out; subst out.
  rewrite send_notification_to_provider_eq, Hp, tier_of_priority_name.
  set (contact := Provider.contact provider) in *.
  rewrite (attempted_all_addresses _ _ Ha).
  rewrite (proj1 (attempted_all contact (tier_channels t))
             (attempted_all_addresses _ _ Ha)).
  set (r0 := NotificationResult.mk _ _ _ _ _ _).
  destruct (used_channels (tier_channels t) r0) as (U1 & U2 & _).
  destruct (recorded_deliveries (delivery_of adapter alert contact)
              (tier_channels t) (tick s)) as (D1 & _).
  cbv zeta in U1, U2, D1; cbn [fst snd].
  split; [rewrite U1; reflexivity|].
  split; [rewrite U2; reflexivity|].
  split.
  - eexists; split; [exact D1|].
    rewrite map_map; apply map_id.
  - split; intros c; simpl; tauto.
Qed.

Lemma tier_channels_attempted_witness :
  let out := _send_notification_to_provider sample_clock source_adapters
               sample_alert nurse_david (init_state 0 []) in
  NotificationResult.channels_used (fst out) = tier_channels URGENT
  /\ NotificationResult.status (fst out) = ResultStatus.success
  /\ (exists sent, outbox (snd out) = outbox (init_state 0 []) ++ sent
                   /\ map Delivery.channel sent = tier_channels URGENT)
  /\ incl (tier_channels NORMAL) (tier_channels HIGH)
  /\ incl (tier_channels HIGH) (tier_channels URGENT).
Proof.
  apply (@tier_channels_attempted sample_clock source_adapters sample_alert
           nurse_david (init_state 0 []) URGENT).
  - reflexivity.
  - intros c Hc; destruct c; discriminate.
Defined.

(** C3 (as stated) fails for a provider without a phone number: for an
    URGENT alert only the dashboard is attempted, not the four channels of
    the tier. *)
Lemma missing_phone_cuts_the_tier :
  let out := _send_notification_to_provider sample_clock source_adapters
               sample_alert nurse_without_phone (init_state 0 []) in
  Alert.priority sample_alert = priority_name URGENT
  /\ NotificationResult.channels_used (fst out) = [dashboard]
  /\ map Delivery.channel (outbox (snd out)) = [dashboard]
  /\ NotificationResult.channels_used (fst out) <> tier_channels URGENT.
Proof. vm_compute. repeat split; try reflexivity; discriminate. Qed.

(* ===================================================================== *)
(** ** Frames: what the helpers leave alone *)
(* ===================================================================== *)

Lemma same_store_refl (s : State) : same_store s s.
Proof. split; reflexivity. Qed.

Lemma same_store_trans (s1 s2 s3 : State) :
  same_store s1 s2 -> same_store s2 s3 -> same_store s1 s3.
Proof. intros [A B] [C D]; split; congruence. Qed.

Lemma same_store_tick (s : State) : same_store s (tick s).
Proof. split; reflexivity. Qed.

Section Frames.

Variable clock : nat -> datetime.
Variable adapter : Channel -> Alert.t -> pystr -> bool.

Lemma create_alert_eq (patient_message : pystr)
  (ta : TriageAssessment.t) (pc : PatientContext.t)
  (priority timestamp : pystr) (s : State) :
  let patient_name :=
    get_or (PatientContext.name pc) (py "Unknown Patient") in
  let risk_level :=
    get_or (TriageAssessment.risk_level ta) (py "MODERATE") in
  _create_alert clock patient_message ta pc priority timestamp s
  = (Alert.mk
       (make_alert_id (length (alert_history s) + 1)
          (strftime_Ymd_HMS (clock (clock_reads s))))
       timestamp priority risk_level
       (get_or (TriageAssessment.urgency_score ta) 5%Z)
       (PatientInfo.mk patient_name
          (get_or (PatientContext.condition pc) (py "Unknown"))
          patient_message)
       ta
       (strip (alert_template patient_name patient_message
                 (get_or (TriageAssessment.symptoms_identified ta) [])
                 risk_level
                 (strftime_Ymd_HMS (clock (S (clock_reads s))))))
       (py "sent") true 0%Z (py "triage_agent"),
     tick (tick s)).
Proof. reflexivity. Qed.

Lemma send_notification_frame (alert : Alert.t) (provider : Provider.t)
  (s : State) :
  same_store s
    (snd (_send_notification_to_provider clock adapter alert provider s)).
Proof.
  rewrite send_notification_to_provider_eq; cbn [snd].
  destruct (recorded_deliveries
              (delivery_of adapter alert (Provider.contact provider))
              (attempted (Provider.contact provider)
                 (tier_of (Alert.priority alert))) (tick s))
    as (_ & H1 & H2 & _).
  split; [rewrite H1 | rewrite H2]; reflexivity.
Qed.

Lemma notify_each_frame (alert : Alert.t) (ids : list pystr)
  (acc : list NotificationResult.t) (s : State) :
  same_store s (snd (notify_each clock adapter alert ids acc s)).
Proof.
  revert acc s; induction ids as [|id ids IH]; intros acc s.
  - apply same_store_refl.
  - cbn [notify_each]; unfold bind, gets.
    destruct (dict_get (healthcare_providers s) id) as [p|]; [|apply IH].
    pose proof (send_notification_frame alert p s) as F.
    destruct (_send_notification_to_provider clock adapter alert p s)
      as [r s1].
    eapply same_store_trans; [exact F | apply IH].
Qed.

Lemma send_alert_eq (request : SendAlertRequest.t) (s : State) :
  send_alert clock adapter request s
  = let alert := created_alert clock request s in
    let priority :=
      get_or (SendAlertRequest.priority request) (py "HIGH") in
    let (results, s2) :=
      notify_each clock adapter alert
        (_determine_notification_recipients (healthcare_providers s) alert)
        [] (tick (tick (tick s))) in
    (SendAlertResponse.alert_sent
       (SendAlertResponse.mk (Alert.alert_id alert) priority
          (length results) results (_get_expected_response_time priority)
          (Alert.timestamp alert)),
     set_alert_history (alert_history s2 ++ [alert]) s2).
Proof. reflexivity. Qed.

(** [send_alert] always answers with the ["alert_sent"] summary, appends
    the alert it created to the history and leaves the directory alone. *)
Lemma send_alert_effect (request : SendAlertRequest.t) (s : State) :
  let alert := created_alert clock request s in
  let out := send_alert clock adapter request s in
  (exists results,
     fst out
     = SendAlertResponse.alert_sent
         (SendAlertResponse.mk (Alert.alert_id alert)
            (get_or (SendAlertRequest.priority request) (py "HIGH"))
            (length results) results
            (_get_expected_response_time
               (get_or (SendAlertRequest.priority request) (py "HIGH")))
            (Alert.timestamp alert)))
  /\ alert_history (snd out) = alert_history s ++ [alert]
  /\ healthcare_providers (snd out) = healthcare_providers s.
Proof.
  intros alert out; subst out; rewrite send_alert_eq; fold alert.
  cbv zeta.
  pose proof (notify_each_frame alert
                (_determine_notification_recipients
                   (healthcare_providers s) alert)
                [] (tick (tick (tick s)))) as [F1 F2].
  destruct (notify_each clock adapter alert _ [] _) as [results s2].
  cbn [fst snd] in *.
  split; [exists results; reflexivity|].
  split; cbn [set_alert_history alert_history healthcare_providers].
  - rewrite F1; reflexivity.
  - rewrite F2; reflexivity.
Qed.

End Frames.

(* ===================================================================== *)
(** ** Alert creation *)
(* ===================================================================== *)

(** C4 (as amended).  Alert creation never reports a validation error.
    When the assessment lacks its risk level an Alert is created all the
    same, with the risk level MODERATE; on every assessment, with or
    without a risk level, creation succeeds.  [_create_alert] stores
    nothing, and [send_alert] answers the request with the ["alert_sent"]
    summary after appending the one alert it created. *)
Theorem create_alert_defaults_risk_level (clock : nat -> datetime)
  (adapter : Channel -> Alert.t -> pystr -> bool)
  (patient_message : pystr) (ta : TriageAssessment.t)
  (pc : PatientContext.t) (priority timestamp : pystr)
  (request : SendAlertRequest.t) (s : State) :
  let created :=
    _create_alert clock patient_message ta pc priority timestamp s in
  let out := send_alert clock adapter request s in
  Alert.risk_level (fst created)
  = match TriageAssessment.risk_level ta with
    | Some risk_level => risk_level
    | None => py "MODERATE"
    end
  /\ Alert.triage_assessment (fst created) = ta
  /\ Alert.escalation_level (fst created) = 0%Z
  /\ Alert.response_required (fst created) = true
  /\ same_store s (snd created)
  /\ (exists summary, fst out = SendAlertResponse.alert_sent summary)
  /\ alert_history (snd out)
     = alert_history s ++ [created_alert clock request s]
  /\ Alert.risk_level (created_alert clock request s)
     = get_or (TriageAssessment.risk_level
                 (get_or (SendAlertRequest.triage_assessment request)
                         TriageAssessment.empty))
              (py "MODERATE").
Proof.
  intros created out; subst created out.
  rewrite create_alert_eq; cbn [fst snd].
  destruct (send_alert_effect clock adapter request s)
    as ((results & Hr) & Hh & _).
  repeat split; try reflexivity.
  - eexists; exact Hr.
  - exact Hh.
Qed.

(** C4 (as stated) fails: for an assessment without a risk level
    [send_alert] reports no error; it answers ["alert_sent"] and stores an
    alert whose risk level is MODERATE. *)
Lemma missing_risk_level_is_not_rejected :
  let out := send_alert sample_clock source_adapters
               request_without_risk_level (init_state 0 []) in
  option_map TriageAssessment.risk_level
    (SendAlertRequest.triage_assessment request_without_risk_level)
  = Some None
  /\ (exists summary, fst out = SendAlertResponse.alert_sent summary)
  /\ (forall details, fst out <> SendAlertResponse.error details)
  /\ map Alert.risk_level (alert_history (snd out)) = [py "MODERATE"].
Proof.
  vm_compute. repeat split; try reflexivity.
  - eexists; reflexivity.
  - discriminate.
Qed.

(* ===================================================================== *)
(** ** Escalation *)
(* ===================================================================== *)

Lemma find_alert_split (alert_id : pystr) (history before after : list Alert.t)
  (alert : Alert.t) :
  find_alert alert_id history = Some (before, alert, after) ->
  history = before ++ alert :: after
  /\ Alert.alert_id alert = alert_id
  /\ Forall (fun a => Alert.alert_id a <> alert_id) before.
Proof.
  revert before; induction history as [|a h IH]; intros before; simpl;
    [discriminate|].
  destruct (str_eqb (Alert.alert_id a) alert_id) eqn:E.
  - intros H; inversion H; subst.
    apply str_eqb_eq in E; auto.
  - destruct (find_alert alert_id h) as [[[b f] r]|]; [|discriminate].
    intros H; inversion H; subst.
    destruct (IH b eq_refl) as (-> & Hid & Hb).
    repeat split; auto.
    constructor; auto. apply str_eqb_neq; exact E.
Qed.

Lemma find_alert_first (alert_id : pystr) (before after : list Alert.t)
  (alert : Alert.t) :
  Forall (fun a => Alert.alert_id a <> alert_id) before ->
  Alert.alert_id alert = alert_id ->
  find_alert alert_id (before ++ alert :: after)
  = Some (before, alert, after).
Proof.
  intros Hb Hid; induction Hb as [|a b Ha Hb IH]; simpl.
  - rewrite (proj2 (str_eqb_eq _ _) Hid); reflexivity.
  - rewrite (proj2 (str_eqb_neq _ _) Ha), IH; reflexivity.
Qed.

Lemma find_alert_present (alert_id : pystr) (history : list Alert.t) :
  In alert_id (map Alert.alert_id history) ->
  exists before alert after,
    find_alert alert_id history = Some (before, alert, after).
Proof.
  induction history as [|a h IH]; simpl; [tauto|].
  intros [H|H].
  - rewrite (proj2 (str_eqb_eq _ _) H); eauto.
  - destruct (str_eqb (Alert.alert_id a) alert_id); eauto.
    destruct (IH H) as (b & f & r & ->); eauto.
Qed.

Section Escalation.

Variable clock : nat -> datetime.
Variable adapter : Channel -> Alert.t -> pystr -> bool.

(** [escalate_alert] on an alert it finds: the alert is updated in place,
    the clock is read and [send_alert] is run on the escalation request. *)
Lemma escalate_alert_found (request : EscalateRequest.t) (s : State)
  (alert_id : pystr) (before after : list Alert.t) (alert : Alert.t) :
  EscalateRequest.alert_id request = Some alert_id ->
  find_alert alert_id (alert_history s) = Some (before, alert, after) ->
  let new_priority :=
    get_or (EscalateRequest.new_priority request) (py "URGENT") in
  let updated := Alert.escalated new_priority alert in
  let s1 := tick (set_alert_history (before ++ updated :: after) s) in
  let sent :=
    send_alert clock adapter
      (escalation_request updated new_priority (clock (clock_reads s)))
      s1 in
  escalate_alert clock adapter request s
  = (EscalateResponse.escalated
       (EscalateResponse.mk alert_id (Alert.priority alert) new_priority
          (Alert.escalation_level alert + 1)%Z (fst sent)),
     snd sent).
Proof.
  intros Hid Hfind new_priority updated s1 sent.
  unfold escalate_alert, bind at 1, gets at 1.
  rewrite Hid, Hfind.
  unfold bind at 1, modify at 1, bind at 1, datetime_now at 1, bind at 1.
  fold new_priority; fold updated.
  change (send_alert clock adapter _ _) with sent.
  destruct sent as [res s2]; reflexivity.
Qed.

Lemma escalate_alert_history (request : EscalateRequest.t) (s : State)
  (alert_id : pystr) (before after : list Alert.t) (alert : Alert.t) :
  EscalateRequest.alert_id request = Some alert_id ->
  find_alert alert_id (alert_history s) = Some (before, alert, after) ->
  let new_priority :=
    get_or (EscalateRequest.new_priority request) (py "URGENT") in
  let updated := Alert.escalated new_priority alert in
  let s1 := tick (set_alert_history (before ++ updated :: after) s) in
  let request' :=
    escalation_request updated new_priority (clock (clock_reads s)) in
  alert_history (snd (escalate_alert clock adapter request s))
  = (before ++ updated :: after) ++ [created_alert clock request' s1]
  /\ healthcare_providers (snd (escalate_alert clock adapter request s))
     = healthcare_providers s.
Proof.
  intros Hid Hfind new_priority updated s1 request'.
  rewrite (escalate_alert_found request s Hid Hfind); cbn [snd].
  fold new_priority; fold updated; fold s1; fold request'.
  destruct (send_alert_effect clock adapter request' s1) as (_ & H1 & H2).
  rewrite H1, H2; split; reflexivity.
Qed.

End Escalation.




(* ===================================================================== *)
(** ** Alert ids *)
(* ===================================================================== *)

Lemma uint_codes_digits (d : Decimal.uint) :
  Forall (fun c => c <> 95%N) (uint_codes d).
Proof.
  induction d; simpl; constructor; auto; discriminate.
Qed.

Lemma uint_codes_inj (d d' : Decimal.uint) :
  uint_codes d = uint_codes d' -> d = d'.
Proof.
  revert d'; induction d; intros d'; destruct d'; simpl; intros H;
    try discriminate; try reflexivity;
    injection H as H; f_equal; auto.
Qed.

Lemma split_at_underscore (d1 d2 x y : pystr) :
  Forall (fun c => c <> 95%N) d1 ->
  Forall (fun c => c <> 95%N) d2 ->
  d1 ++ 95%N :: x = d2 ++ 95%N :: y -> d1 = d2.
Proof.
  intros H1; revert d2; induction H1 as [|c d1 Hc H1 IH];
    intros d2 H2 E; destruct H2 as [|c' d2 Hc' H2]; simpl in E.
  - reflexivity.
  - injection E as E _; congruence.
  - injection E as E _; congruence.
  - injection E as -> E; f_equal; apply IH; assumption.
Qed.

Lemma make_alert_id_inj (n m : nat) (stamp stamp' : pystr) :
  make_alert_id n stamp = make_alert_id m stamp' -> n = m.
Proof.
  unfold make_alert_id; intros E.
  apply app_inv_head in E.
  change (py "_" ++ ?x) with (95%N :: x) in E.
  apply split_at_underscore in E; try apply uint_codes_digits.
  apply DecimalNat.Unsigned.to_uint_inj, uint_codes_inj, E.
Qed.

(* ===================================================================== *)
(** ** The sort of the history *)
(* ===================================================================== *)

Lemma insert_newest_first_perm (x : Alert.t) (l : list Alert.t) :
  Permutation (x :: l) (insert_newest_first x l).
Proof.
  induction l as [|y l IH]; simpl; [reflexivity|].
  destruct (str_leb (Alert.timestamp y) (Alert.timestamp x));
    [reflexivity|].
  rewrite perm_swap; apply perm_skip, IH.
Qed.

Lemma sort_newest_first_perm (l : list Alert.t) :
  Permutation l (sort_newest_first l).
Proof.
  induction l as [|x l IH]; simpl; [reflexivity|].
  rewrite <- insert_newest_first_perm; apply perm_skip, IH.
Qed.

Lemma sort_newest_first_length (l : list Alert.t) :
  length (sort_newest_first l) = length l.
Proof. symmetry; apply Permutation_length, sort_newest_first_perm. Qed.

Lemma newest_first_trans (a b c : Alert.t) :
  newest_first a b -> newest_first b c -> newest_first a c.
Proof. unfold newest_first; intros H1 H2; eapply str_leb_trans; eauto. Qed.

Lemma insert_newest_first_sorted (x : Alert.t) (l : list Alert.t) :
  Sorted newest_first l -> Sorted newest_first (insert_newest_first x l).
Proof.
  induction 1 as [|y l Hs IH Hd]; simpl; [repeat constructor|].
  destruct (str_leb (Alert.timestamp y) (Alert.timestamp x)) eqn:E.
  - constructor; [constructor; assumption|].
    constructor; exact E.
  - constructor; [exact IH|].
    assert (Hyx : newest_first y x).
    { unfold newest_first.
      destruct (str_leb_total (Alert.timestamp y) (Alert.timestamp x));
        congruence. }
    destruct Hd as [|z l Hyz]; simpl; [constructor; exact Hyx|].
    destruct (str_leb (Alert.timestamp z) (Alert.timestamp x));
      constructor; assumption.
Qed.

Lemma sort_newest_first_sorted (l : list Alert.t) :
  StronglySorted newest_first (sort_newest_first l).
Proof.
  apply Sorted_StronglySorted; [exact newest_first_trans|].
  induction l as [|x l IH]; simpl; [constructor|].
  apply insert_newest_first_sorted, IH.
Qed.

Lemma In_firstn (A : Type) (n : nat) (l : list A) (x : A) :
  In x (firstn n l) -> In x l.
Proof.
  revert l; induction n as [|n IH]; intros [|y l]; simpl; try tauto.
  intros [H|H]; auto.
Qed.

Lemma StronglySorted_firstn (A : Type) (R : A -> A -> Prop) (n : nat)
  (l : list A) :
  StronglySorted R l -> StronglySorted R (firstn n l).
Proof.
  intros H; revert n; induction H as [|x l Hs IH Hx]; intros [|n]; simpl;
    try constructor; auto.
  rewrite Forall_forall in *; intros y Hy.
  apply Hx; eapply In_firstn; eassumption.
Qed.

(* ===================================================================== *)
(** ** The invariant of the store *)
(* ===================================================================== *)

Lemma numbered_perm (h h' : list Alert.t) :
  Permutation h h' -> numbered h -> numbered h'.
Proof.
  unfold numbered; intros P H.
  rewrite <- (Permutation_length P).
  eapply Permutation_Forall; eassumption.
Qed.

Lemma numbered_append (h : list Alert.t) (a : Alert.t) (stamp : pystr) :
  Alert.alert_id a = make_alert_id (length h + 1) stamp ->
  numbered h -> numbered (h ++ [a]).
Proof.
  unfold numbered; intros Ha H.
  rewrite length_app; simpl.
  apply Forall_app; split.
  - eapply Forall_impl; [|exact H].
    intros b (n & st & Hb & Hn); exists n, st; split; [exact Hb | lia].
  - constructor; [|constructor].
    exists (length h + 1), stamp; split; [exact Ha | lia].
Qed.

Lemma numbered_update (before after : list Alert.t) (a a' : Alert.t) :
  Alert.alert_id a' = Alert.alert_id a ->
  numbered (before ++ a :: after) -> numbered (before ++ a' :: after).
Proof.
  unfold numbered; intros Ha H.
  rewrite !length_app in *; simpl in *.
  apply Forall_app in H; destruct H as [Hb H].
  inversion H as [|x l Hx Hr]; subst.
  apply Forall_app; split; [exact Hb|].
  constructor; [rewrite Ha; exact Hx | exact Hr].
Qed.

Lemma created_alert_id (clock : nat -> datetime)
  (request : SendAlertRequest.t) (s : State) :
  Alert.alert_id (created_alert clock request s)
  = make_alert_id (length (alert_history s) + 1)
      (strftime_Ymd_HMS (clock (S (clock_reads s)))).
Proof. reflexivity. Qed.

Lemma get_alert_history_store (request : HistoryRequest.t) (s : State) :
  alert_history (snd (get_alert_history request s))
  = (if truthy (HistoryRequest.patient_name request)
     then alert_history s
     else sort_newest_first (alert_history s))
  /\ healthcare_providers (snd (get_alert_history request s))
     = healthcare_providers s.
Proof.
  unfold get_alert_history, bind, gets, modify, ret.
  destruct (truthy (HistoryRequest.patient_name request)); split; reflexivity.
Qed.

Lemma update_provider_status_history (request : UpdateRequest.t)
  (s : State) :
  alert_history (snd (update_provider_status request s)) = alert_history s.
Proof.
  unfold update_provider_status, bind, gets, modify, ret.
  destruct (UpdateRequest.provider_id request) as [id|]; [|reflexivity].
  destruct (dict_get (healthcare_providers s) id); reflexivity.
Qed.

Lemma escalate_alert_not_found (clock : nat -> datetime)
  (adapter : Channel -> Alert.t -> pystr -> bool)
  (request : EscalateRequest.t) (s : State) :
  match EscalateRequest.alert_id request with
  | Some alert_id => find_alert alert_id (alert_history s)
  | None => None
  end = None ->
  escalate_alert clock adapter request s
  = (EscalateResponse.not_found
       (py "Alert " ++ str_of_optional (EscalateRequest.alert_id request)
        ++ py " not found"), s).
Proof.
  intros H; unfold escalate_alert, bind at 1, gets at 1.
  rewrite H; reflexivity.
Qed.

(** In every reachable state the stored alerts carry ids numbered up to the
    length of the history. *)
Lemma reachable_numbered (clock : nat -> datetime)
  (adapter : Channel -> Alert.t -> pystr -> bool) (s : State) :
  reachable clock adapter s -> numbered (alert_history s).
Proof.
  induction 1 as [n out|s request _ IH|s request _ IH|s request _ IH
                  |s request _ IH].
  - constructor.
  - destruct (send_alert_effect clock adapter request s) as (_ & H & _).
    rewrite H. eapply numbered_append; [apply created_alert_id | exact IH].
  - destruct (get_alert_history_store request s) as (H & _); rewrite H.
    destruct (truthy _); [exact IH|].
    eapply numbered_perm; [apply sort_newest_first_perm | exact IH].
  - rewrite update_provider_status_history; exact IH.
  - destruct (match EscalateRequest.alert_id request with
              | Some alert_id => find_alert alert_id (alert_history s)
              | None => None
              end) as [[[before alert] after]|] eqn:E.
    + destruct (EscalateRequest.alert_id request) as [alert_id|] eqn:Hid;
        [|discriminate].
      destruct (escalate_alert_history clock adapter request s Hid E)
        as (H & _).
      destruct (find_alert_split _ _ E) as (Hs & _).
      rewrite H. eapply numbered_append; [apply created_alert_id|].
      cbn [alert_history tick set_alert_history].
      eapply numbered_update; [|rewrite <- Hs; exact IH]. reflexivity.
    + rewrite (escalate_alert_not_found clock adapter request s E).
      exact IH.
Qed.

Lemma numbered_fresh (h : list Alert.t) (stamp : pystr) (a : Alert.t) :
  numbered h -> In a h ->
  Alert.alert_id a <> make_alert_id (length h + 1) stamp.
Proof.
  unfold numbered; rewrite Forall_forall; intros H Ha E.
  destruct (H a Ha) as (n & st & Hid & Hn).
  rewrite Hid in E; apply make_alert_id_inj in E; lia.
Qed.

(* ===================================================================== *)
(** ** Escalation appends a new alert *)
(* ===================================================================== *)

(** C9.  In every state the agent can reach, for every alert id present in
    the store, a successful escalate call updates the alert it found in
    place and appends exactly one new Alert to the history, so the history
    grows by one.  The alert stored under the id afterwards has the new
    priority and the escalation level of before plus one, and is otherwise
    the alert that was found.  The new Alert has an id that no stored alert
    has, escalation level 0, the given priority, and as patient message the
    original message of the escalated alert prefixed with
    ["ESCALATED: "]. *)
Theorem escalate_appends_new_alert (clock : nat -> datetime)
  (adapter : Channel -> Alert.t -> pystr -> bool)
  (request : EscalateRequest.t) (alert_id : pystr)
  (before after : list Alert.t) (alert : Alert.t) (s : State) :
  reachable clock adapter s ->
  EscalateRequest.alert_id request = Some alert_id ->
  find_alert alert_id (alert_history s) = Some (before, alert, after) ->
  let new_priority :=
    get_or (EscalateRequest.new_priority request) (py "URGENT") in
  let out := escalate_alert clock adapter request s in
  exists new,
    alert_history (snd out)
    = before ++ Alert.escalated new_priority alert :: after ++ [new]
    /\ alert_history s = before ++ alert :: after
    /\ length (alert_history (snd out)) = length (alert_history s) + 1
    /\ (forall stored, In stored (alert_history s) ->
                       Alert.alert_id stored <> Alert.alert_id new)
    /\ Alert.alert_id new
       = make_alert_id (length (alert_history s) + 1)
           (strftime_Ymd_HMS (clock (clock_reads s + 2)))
    /\ Alert.escalation_level new = 0%Z
    /\ Alert.priority new = new_priority
    /\ PatientInfo.original_message (Alert.patient_info new)
       = py "ESCALATED: "
         ++ PatientInfo.original_message (Alert.patient_info alert)
    /\ (exists summary, fst out = EscalateResponse.escalated summary)
    /\ alert_history (snd out)
       = before
         ++ Alert.mk (Alert.alert_id alert) (Alert.timestamp alert)
              new_priority (Alert.risk_level alert)
              (Alert.urgency_score alert) (Alert.patient_info alert)
              (Alert.triage_assessment alert) (Alert.alert_message alert)
              (Alert.status alert) (Alert.response_required alert)
              (Alert.escalation_level alert + 1)%Z (Alert.created_by alert)
         :: after ++ [new]
    /\ (exists updated,
          found_alert alert_id (alert_history (snd out)) = Some updated
          /\ Alert.priority updated = new_priority
          /\ Alert.escalation_level updated
             = (Alert.escalation_level alert + 1)%Z
          /\ Alert.alert_id updated = alert_id
          /\ Alert.timestamp updated = Alert.timestamp alert
          /\ Alert.risk_level updated = Alert.risk_level alert
          /\ Alert.patient_info updated = Alert.patient_info alert
          /\ Alert.alert_message updated = Alert.alert_message alert).
Proof.
  intros Hreach Hid Hfind new_priority out; subst out.
  destruct (escalate_alert_history clock adapter request s Hid Hfind)
    as (Hh & _).
  destruct (find_alert_split _ _ Hfind) as (Hs & Hsame & Hbefore).
  fold new_priority in Hh.
  set (updated := Alert.escalated new_priority alert) in *.
  set (s1 := tick (set_alert_history (before ++ updated :: after) s)) in *.
  set (request' := escalation_request updated new_priority
                     (clock (clock_reads s))) in *.
  assert (Hlen : length (alert_history s1) = length (alert_history s)).
  { subst s1; cbn [alert_history tick set_alert_history].
    rewrite Hs, !length_app; reflexivity. }
  assert (Hnew : Alert.alert_id (created_alert clock request' s1)
                 = make_alert_id (length (alert_history s) + 1)
                     (strftime_Ymd_HMS (clock (clock_reads s + 2)))).
  { rewrite created_alert_id, Hlen.
    subst s1; cbn [clock_reads tick set_alert_history].
    replace (S (S (clock_reads s))) with (clock_reads s + 2) by lia.
    reflexivity. }
  exists (created_alert clock request' s1).
  split; [rewrite Hh, <- app_assoc; reflexivity|].
  split; [exact Hs|].
  split; [rewrite Hh, Hs; rewrite !length_app; cbn [length]; lia|].
  split.
  { intros stored Hin; rewrite Hnew.
    apply numbered_fresh; [|exact Hin].
    eapply reachable_numbered; exact Hreach. }
  split; [exact Hnew|].
  split; [reflexivity|].
  split; [reflexivity|].
  split; [reflexivity|].
  split.
  { rewrite (escalate_alert_found clock adapter request s Hid Hfind).
    eexists; reflexivity. }
  split; [rewrite Hh, <- app_assoc; reflexivity|].
  exists updated.
  split.
  { rewrite Hh, <- app_assoc; cbn [app]; unfold found_alert.
    rewrite find_alert_first; [reflexivity | exact Hbefore | exact Hsame]. }
  subst updated; cbn [Alert.escalated Alert.priority Alert.escalation_level
                       Alert.alert_id Alert.timestamp Alert.risk_level
                       Alert.patient_info Alert.alert_message].
  repeat split; exact Hsame.
Qed.

Lemma escalate_appends_new_alert_witness :
  let out := escalate_alert sample_clock source_adapters escalate_first
               state_after_one_alert in
  exists new,
    alert_history (snd out)
    = [] ++ Alert.escalated (py "URGENT") first_alert :: [] ++ [new]
    /\ alert_history state_after_one_alert = [] ++ first_alert :: []
    /\ length (alert_history (snd out))
       = length (alert_history state_after_one_alert) + 1
    /\ (forall stored, In stored (alert_history state_after_one_alert) ->
                       Alert.alert_id stored <> Alert.alert_id new)
    /\ Alert.alert_id new
       = make_alert_id (length (alert_history state_after_one_alert) + 1)
           (strftime_Ymd_HMS
              (sample_clock (clock_reads state_after_one_alert + 2)))
    /\ Alert.escalation_level new = 0%Z
    /\ Alert.priority new = py "URGENT"
    /\ PatientInfo.original_message (Alert.patient_info new)
       = py "ESCALATED: "
         ++ PatientInfo.original_message (Alert.patient_info first_alert)
    /\ (exists summary, fst out = EscalateResponse.escalated summary)
    /\ alert_history (snd out)
       = []
         ++ Alert.mk (Alert.alert_id first_alert)
              (Alert.timestamp first_alert) (py "URGENT")
              (Alert.risk_level first_alert)
              (Alert.urgency_score first_alert)
              (Alert.patient_info first_alert)
              (Alert.triage_assessment first_alert)
              (Alert.alert_message first_alert) (Alert.status first_alert)
              (Alert.response_required first_alert)
              (Alert.escalation_level first_alert + 1)%Z
              (Alert.created_by first_alert)
         :: [] ++ [new]
    /\ (exists updated,
          found_alert first_alert_id (alert_history (snd out))
          = Some updated
          /\ Alert.priority updated = py "URGENT"
          /\ Alert.escalation_level updated
             = (Alert.escalation_level first_alert + 1)%Z
          /\ Alert.alert_id updated = first_alert_id
          /\ Alert.timestamp updated = Alert.timestamp first_alert
          /\ Alert.risk_level updated = Alert.risk_level first_alert
          /\ Alert.patient_info updated = Alert.patient_info first_alert
          /\ Alert.alert_message updated = Alert.alert_message first_alert).
Proof.
  apply (@escalate_appends_new_alert sample_clock source_adapters
           escalate_first first_alert_id [] [] first_alert
           state_after_one_alert).
  - apply reach_send_alert, reach_init.
  - reflexivity.
  - vm_compute; reflexivity.
Defined.

(* ===================================================================== *)
(** ** The history query *)
(* ===================================================================== *)

(** The sort is stable, as [list.sort] is: alerts of equal timestamp keep
    their order. *)
Lemma sort_newest_first_stable (t : pystr) (l : list Alert.t) :
  filter (fun a => str_eqb (Alert.timestamp a) t) (sort_newest_first l)
  = filter (fun a => str_eqb (Alert.timestamp a) t) l.
Proof.
  induction l as [|x l IH]; [reflexivity|].
  cbn [sort_newest_first fold_right]; fold (sort_newest_first l).
  transitivity (filter (fun a => str_eqb (Alert.timestamp a) t)
                       (x :: sort_newest_first l));
    [|simpl; rewrite IH; reflexivity].
  generalize (sort_newest_first l) as m; clear IH l.
  induction m as [|y m IH]; [reflexivity|].
  cbn [insert_newest_first].
  destruct (str_leb (Alert.timestamp y) (Alert.timestamp x)) eqn:E;
    [reflexivity|].
  cbn [filter] in *.
  destruct (str_eqb (Alert.timestamp y) t) eqn:Ey;
    destruct (str_eqb (Alert.timestamp x) t) eqn:Ex;
    rewrite IH; try reflexivity.
  apply str_eqb_eq in Ey, Ex; rewrite Ey, Ex, str_leb_refl in E.
  discriminate.
Qed.

(** C7 (as amended).  For every store state, every non-empty patient name
    and every non-negative limit, the history query answers with a success
    listing of alerts of the store whose patient name equals the given
    name exactly, ordered newest first by timestamp, at most [limit] of
    them: the first [limit] of the matching alerts so ordered, all of them
    when fewer than [limit] match.  The store is left as it was. *)
Theorem history_by_patient (patient_name : pystr) (limit : Z) (s : State) :
  patient_name <> [] ->
  (0 <= limit)%Z ->
  let out :=
    get_alert_history (HistoryRequest.mk (Some limit) (Some patient_name))
      s in
  exists listing,
    fst out = HistoryResponse.success listing
    /\ (forall alert,
          In alert (HistoryResponse.alerts listing) ->
          PatientInfo.name (Alert.patient_info alert) = patient_name
          /\ In alert (alert_history s))
    /\ StronglySorted newest_first (HistoryResponse.alerts listing)
    /\ (Z.of_nat (length (HistoryResponse.alerts listing)) <= limit)%Z
    /\ HistoryResponse.alerts listing
       = firstn (Z.to_nat limit)
           (sort_newest_first (alerts_of patient_name (alert_history s)))
    /\ length (HistoryResponse.alerts listing)
       = Nat.min (Z.to_nat limit)
           (length (alerts_of patient_name (alert_history s)))
    /\ snd out = s.
Proof.
  intros Hname Hlimit out; subst out.
  unfold get_alert_history, bind, gets, ret.
  cbn [HistoryRequest.limit HistoryRequest.patient_name get_or].
  destruct patient_name as [|c name]; [congruence|].
  cbn [truthy fst snd]; fold (alerts_of (c :: name) (alert_history s)).
  unfold slice_list.
  destruct (Z.ltb_spec limit 0) as [H|_]; [lia|].
  eexists; split; [reflexivity|].
  cbn [HistoryResponse.alerts].
  set (matching := alerts_of (c :: name) (alert_history s)).
  repeat split.
  - apply In_firstn in H.
    apply (Permutation_in _ (Permutation_sym (sort_newest_first_perm _)))
      in H.
    apply filter_In in H; apply str_eqb_eq, H.
  - apply In_firstn in H.
    apply (Permutation_in _ (Permutation_sym (sort_newest_first_perm _)))
      in H.
    apply filter_In in H; apply H.
  - apply StronglySorted_firstn, sort_newest_first_sorted.
  - pose proof (firstn_le_length (Z.to_nat limit)
                  (sort_newest_first matching)); lia.
  - rewrite length_firstn, sort_newest_first_length; reflexivity.
Qed.

Lemma history_by_patient_witness :
  let out :=
    get_alert_history (HistoryRequest.mk (Some 1%Z) (Some (py "Elena")))
      state_after_two_alerts in
  exists listing,
    fst out = HistoryResponse.success listing
    /\ (forall alert,
          In alert (HistoryResponse.alerts listing) ->
          PatientInfo.name (Alert.patient_info alert) = py "Elena"
          /\ In alert (alert_history state_after_two_alerts))
    /\ StronglySorted newest_first (HistoryResponse.alerts listing)
    /\ (Z.of_nat (length (HistoryResponse.alerts listing)) <= 1)%Z
    /\ HistoryResponse.alerts listing
       = firstn (Z.to_nat 1)
           (sort_newest_first
              (alerts_of (py "Elena")
                 (alert_history state_after_two_alerts)))
    /\ length (HistoryResponse.alerts listing)
       = Nat.min (Z.to_nat 1)
           (length (alerts_of (py "Elena")
                      (alert_history state_after_two_alerts)))
    /\ snd out = state_after_two_alerts.
Proof.
  apply (@history_by_patient (py "Elena") 1%Z state_after_two_alerts).
  - discriminate.
  - lia.
Defined.

(** C7 (as stated) fails at the empty patient name and at a negative
    limit.  Asked for the patient [""], the query does not filter and
    returns Elena's alert; asked for at most [-1] of Elena's two alerts, it
    returns one. *)
Lemma history_query_edge_cases :
  (exists listing,
     fst (get_alert_history (HistoryRequest.mk (Some 10%Z) (Some []))
            state_after_one_alert)
     = HistoryResponse.success listing
     /\ map (fun alert => PatientInfo.name (Alert.patient_info alert))
            (HistoryResponse.alerts listing)
        = [py "Elena"]
     /\ py "Elena" <> [])
  /\
  (exists listing,
     fst (get_alert_history
            (HistoryRequest.mk (Some (-1)%Z) (Some (py "Elena")))
            state_after_two_alerts)
     = HistoryResponse.success listing
     /\ length (HistoryResponse.alerts listing) = 1
     /\ ~ (Z.of_nat (length (HistoryResponse.alerts listing)) <= -1)%Z).
Proof.
  split; eexists; (split; [vm_compute; reflexivity|]).
  - split; [reflexivity | discriminate].
  - split; [reflexivity | cbn; lia].
Qed.

(** C10.  A history query without a patient-name filter (no name, or the
    empty name) sorts the stored history itself, newest first by
    timestamp: afterwards the store holds the sorted list, which has the
    same alerts as before, and the alerts returned are a slice of it.  The
    directory is untouched. *)
Theorem unfiltered_history_sorts_store (request : HistoryRequest.t)
  (s : State) :
  truthy (HistoryRequest.patient_name request) = false ->
  let out := get_alert_history request s in
  alert_history (snd out) = sort_newest_first (alert_history s)
  /\ Permutation (alert_history s) (alert_history (snd out))
  /\ StronglySorted newest_first (alert_history (snd out))
  /\ healthcare_providers (snd out) = healthcare_providers s
  /\ exists listing,
       fst out = HistoryResponse.success listing
       /\ HistoryResponse.alerts listing
          = slice_list (alert_history (snd out))
              (get_or (HistoryRequest.limit request) 50%Z)
       /\ HistoryResponse.total_alerts listing
          = length (alert_history s).
Proof.
  intros Hname out; subst out.
  destruct (get_alert_history_store request s) as (Hh & Hp).
  rewrite Hname in Hh; rewrite Hh, Hp.
  repeat split.
  - apply sort_newest_first_perm.
  - apply sort_newest_first_sorted.
  - unfold get_alert_history, bind, gets, modify, ret.
    rewrite Hname; cbn [fst].
    eexists; split; [reflexivity|].
    cbn [HistoryResponse.alerts HistoryResponse.total_alerts].
    split; [reflexivity | apply sort_newest_first_length].
Qed.

Lemma unfiltered_history_sorts_store_witness :
  let out := get_alert_history (HistoryRequest.mk None None)
               state_after_two_alerts in
  alert_history (snd out)
  = sort_newest_first (alert_history state_after_two_alerts)
  /\ Permutation (alert_history state_after_two_alerts)
                 (alert_history (snd out))
  /\ StronglySorted newest_first (alert_history (snd out))
  /\ healthcare_providers (snd out)
     = healthcare_providers state_after_two_alerts
  /\ exists listing,
       fst out = HistoryResponse.success listing
       /\ HistoryResponse.alerts listing
          = slice_list (alert_history (snd out))
              (get_or (HistoryRequest.limit (HistoryRequest.mk None None))
                      50%Z)
       /\ HistoryResponse.total_alerts listing
          = length (alert_history state_after_two_alerts).
Proof.
  apply (@unfiltered_history_sorts_store (HistoryRequest.mk None None)
           state_after_two_alerts).
  reflexivity.
Defined.

(** The reordering is visible in the store: the two alerts, stored oldest
    first, are held newest first after an unfiltered query, while a query
    filtered by name leaves the stored order as it was. *)
Lemma unfiltered_history_reorders_example :
  map Alert.timestamp (alert_history state_after_two_alerts)
  = [py "2025-01-01T08:00:00"; py "2025-01-02T09:30:00"]
  /\ map Alert.timestamp
       (alert_history
          (snd (get_alert_history (HistoryRequest.mk None None)
                  state_after_two_alerts)))
     = [py "2025-01-02T09:30:00"; py "2025-01-01T08:00:00"]
  /\ alert_history
       (snd (get_alert_history
               (HistoryRequest.mk None (Some (py "Elena")))
               state_after_two_alerts))
     = alert_history state_after_two_alerts.
Proof. vm_compute; repeat split; reflexivity. Qed.

(* ===================================================================== *)
(** ** The seeded directory *)
(* ===================================================================== *)

Lemma store_on_call_complete (provider_id : pystr) (on_call : option bool)
  (providers : list (pystr * Provider.t)) :
  contacts_complete providers ->
  contacts_complete (store_on_call provider_id on_call providers).
Proof.
  unfold contacts_complete; induction 1 as [|[k p] d Hp Hd IH]; simpl;
    [constructor|].
  destruct (str_eqb k provider_id); constructor; auto.
Qed.

Lemma dict_get_complete (providers : list (pystr * Provider.t))
  (provider_id : pystr) (provider : Provider.t) :
  contacts_complete providers ->
  dict_get providers provider_id = Some provider ->
  forall c, address_of (Provider.contact provider) c <> None.
Proof.
  unfold contacts_complete; induction 1 as [|[k p] d Hp Hd IH]; simpl;
    [discriminate|].
  destruct (str_eqb k provider_id); [|exact IH].
  intros E; injection E as <-; exact Hp.
Qed.

(** In every reachable state the directory is the seeded one up to the
    on-call flags, so each of its providers has every contact address. *)
Lemma reachable_contacts_complete (clock : nat -> datetime)
  (adapter : Channel -> Alert.t -> pystr -> bool) (s : State) :
  reachable clock adapter s -> contacts_complete (healthcare_providers s).
Proof.
  induction 1 as [n out|s request _ IH|s request _ IH|s request _ IH
                  |s request _ IH].
  - repeat constructor; intros c; destruct c; discriminate.
  - destruct (send_alert_effect clock adapter request s) as (_ & _ & H).
    rewrite H; exact IH.
  - destruct (get_alert_history_store request s) as (_ & H).
    rewrite H; exact IH.
  - unfold update_provider_status, bind, gets, modify, ret.
    destruct (UpdateRequest.provider_id request) as [id|]; [|exact IH].
    destruct (dict_get (healthcare_providers s) id); [|exact IH].
    apply store_on_call_complete, IH.
  - destruct (match EscalateRequest.alert_id request with
              | Some alert_id => find_alert alert_id (alert_history s)
              | None => None
              end) as [[[before alert] after]|] eqn:E.
    + destruct (EscalateRequest.alert_id request) as [alert_id|] eqn:Hid;
        [|discriminate].
      destruct (escalate_alert_history clock adapter request s Hid E)
        as (_ & H).
      rewrite H; exact IH.
    + rewrite (escalate_alert_not_found clock adapter request s E).
      exact IH.
Qed.

(** Hence, for the providers the agent itself looks up, the [except] branch
    of the dispatcher is never taken: the result is a success listing the
    whole plan, whatever the adapters report. *)
Lemma reachable_dispatch_succeeds (clock : nat -> datetime)
  (adapter : Channel -> Alert.t -> pystr -> bool) (s : State)
  (provider_id : pystr) (provider : Provider.t) (alert : Alert.t)
  (s' : State) :
  reachable clock adapter s ->
  dict_get (healthcare_providers s) provider_id = Some provider ->
  let result :=
    fst (_send_notification_to_provider clock adapter alert provider s') in
  NotificationResult.status result = ResultStatus.success
  /\ NotificationResult.channels_used result
     = tier_of (Alert.priority alert).
Proof.
  intros Hreach Hget result; subst result.
  pose proof (dict_get_complete _ (reachable_contacts_complete Hreach) Hget)
    as Hall.
  rewrite send_notification_to_provider_eq.
  assert (Hm : first_missing (Provider.contact provider)
                 (tier_of (Alert.priority alert)) = None)
    by (apply attempted_all_addresses; intros c _; apply Hall).
  rewrite Hm, (proj1 (attempted_all _ _) Hm); cbn [fst].
  set (r0 := NotificationResult.mk _ _ _ _ _ _).
  destruct (used_channels (tier_of (Alert.priority alert)) r0)
    as (U1 & U2 & _).
  cbv zeta in U1, U2; rewrite U1, U2; split; reflexivity.
Qed.

(* ===================================================================== *)
(** ** Provider status updates *)
(* ===================================================================== *)

Lemma store_on_call_get (provider_id : pystr) (on_call : option bool)
  (providers : list (pystr * Provider.t)) (provider : Provider.t) :
  dict_get providers provider_id = Some provider ->
  dict_get (store_on_call provider_id on_call providers) provider_id
  = Some (Provider.set_on_call on_call provider).
Proof.
  induction providers as [|[k p] d IH]; simpl; [discriminate|].
  destruct (str_eqb k provider_id) eqn:E; simpl; rewrite E.
  - intros H; injection H as <-; reflexivity.
  - exact IH.
Qed.



Lemma store_on_call_twice (provider_id : pystr) (on_call : option bool)
  (providers : list (pystr * Provider.t)) :
  store_on_call provider_id on_call
    (store_on_call provider_id on_call providers)
  = store_on_call provider_id on_call providers.
Proof.
  induction providers as [|[k p] d IH]; simpl; [reflexivity|].
  destruct (str_eqb k provider_id) eqn:E; simpl; rewrite E.
  - reflexivity.
  - rewrite IH; reflexivity.
Qed.

(** X1.  A status update that names no provider of the directory (an
    unknown id, or no id at all) is answered with ["not_found"] and changes
    nothing. *)
Theorem update_unknown_provider_is_refused (request : UpdateRequest.t)
  (s : State) :
  (forall id, UpdateRequest.provider_id request = Some id ->
              dict_get (healthcare_providers s) id = None) ->
  exists message,
    update_provider_status request s = (UpdateResponse.not_found message, s).
Proof.
  intros H; unfold update_provider_status, bind, gets, ret.
  destruct (UpdateRequest.provider_id request) as [id|]; [|eauto].
  rewrite (H id eq_refl); eauto.
Qed.

Lemma update_unknown_provider_is_refused_witness :
  exists message,
    update_provider_status update_unknown (init_state 0 [])
    = (UpdateResponse.not_found message, init_state 0 []).
Proof.
  apply (@update_unknown_provider_is_refused update_unknown
           (init_state 0 [])).
  intros id H; injection H as <-; reflexivity.
Defined.



(** X3.  A status update is idempotent: served a second time, the same
    request gives the same answer and leaves the state as the first
    serving left it. *)
Theorem update_provider_status_idempotent (request : UpdateRequest.t)
  (s : State) :
  update_provider_status request (snd (update_provider_status request s))
  = update_provider_status request s.
Proof.
  unfold update_provider_status, bind, gets, modify, ret.
  destruct (UpdateRequest.provider_id request) as [id|]; [|reflexivity].
  destruct (dict_get (healthcare_providers s) id) as [p|] eqn:E;
    cbn [snd healthcare_providers set_healthcare_providers].
  - rewrite (store_on_call_get _ _ _ E).
    unfold set_healthcare_providers; cbn [healthcare_providers alert_history
                                          clock_reads outbox].
    rewrite store_on_call_twice; reflexivity.
  - rewrite E; reflexivity.
Qed.

(* ===================================================================== *)
(** ** The directory over a run *)
(* ===================================================================== *)

Lemma directory_with_entries (nurse_flag dr_flag : option bool) :
  exists p1 p2,
    directory_with nurse_flag dr_flag
    = [(py "nurse_david", Provider.set_on_call nurse_flag p1);
       (py "dr_smith", Provider.set_on_call dr_flag p2)]
    /\ forall a b,
         directory_with a b
         = [(py "nurse_david", Provider.set_on_call a p1);
            (py "dr_smith", Provider.set_on_call b p2)].
Proof. do 2 eexists; split; [reflexivity | intros; reflexivity]. Qed.

Lemma store_on_call_directory_with (provider_id : pystr)
  (on_call nurse_flag dr_flag : option bool) :
  exists nurse_flag' dr_flag',
    store_on_call provider_id on_call (directory_with nurse_flag dr_flag)
    = directory_with nurse_flag' dr_flag'.
Proof.
  destruct (directory_with_entries nurse_flag dr_flag) as (p1 & p2 & -> & H).
  cbn [store_on_call].
  destruct (str_eqb (py "nurse_david") provider_id).
  - exists on_call, dr_flag; rewrite H; reflexivity.
  - destruct (str_eqb (py "dr_smith") provider_id).
    + exists nurse_flag, on_call; rewrite H; reflexivity.
    + exists nurse_flag, dr_flag; rewrite H; reflexivity.
Qed.

Lemma reachable_directory (clock : nat -> datetime)
  (adapter : Channel -> Alert.t -> pystr -> bool) (s : State) :
  reachable clock adapter s ->
  exists nurse_flag dr_flag,
    healthcare_providers s = directory_with nurse_flag dr_flag.
Proof.
  induction 1 as [n out|s request _ IH|s request _ IH|s request _ IH
                  |s request _ IH].
  - exists (Some true), (Some false); reflexivity.
  - destruct (send_alert_effect clock adapter request s) as (_ & _ & H).
    rewrite H; exact IH.
  - destruct (get_alert_history_store request s) as (_ & H).
    rewrite H; exact IH.
  - unfold update_provider_status, bind, gets, modify, ret.
    destruct (UpdateRequest.provider_id request) as [id|]; [|exact IH].
    destruct (dict_get (healthcare_providers s) id); [|exact IH].
    cbn [snd healthcare_providers set_healthcare_providers].
    destruct IH as (a & b & ->).
    apply store_on_call_directory_with.
  - destruct (match EscalateRequest.alert_id request with
              | Some alert_id => find_alert alert_id (alert_history s)
              | None => None
              end) as [[[before alert] after]|] eqn:E.
    + destruct (EscalateRequest.alert_id request) as [alert_id|] eqn:Hid;
        [|discriminate].
      destruct (escalate_alert_history clock adapter request s Hid E)
        as (_ & H).
      rewrite H; exact IH.
    + rewrite (escalate_alert_not_found clock adapter request s E).
      exact IH.
Qed.

(** X4.  In every state the agent can reach, the directory is the seeded
    one up to the two on-call flags: no provider is ever added or removed,
    the ids stay ["nurse_david"] and ["dr_smith"] in that order, and names,
    roles, departments and contact addresses are never changed. *)
Theorem directory_is_seeded_up_to_flags (clock : nat -> datetime)
  (adapter : Channel -> Alert.t -> pystr -> bool) (s : State) :
  reachable clock adapter s ->
  (exists nurse_flag dr_flag,
     healthcare_providers s = directory_with nurse_flag dr_flag)
  /\ dict_keys (healthcare_providers s) = [py "nurse_david"; py "dr_smith"]
  /\ map (fun entry =>
            (Provider.name (snd entry), Provider.role (snd entry),
             Provider.department (snd entry), Provider.contact (snd entry)))
         (healthcare_providers s)
     = map (fun entry =>
              (Provider.name (snd entry), Provider.role (snd entry),
               Provider.department (snd entry),
               Provider.contact (snd entry)))
           _initialize_healthcare_providers.
Proof.
  intros Hreach.
  pose proof (reachable_directory Hreach) as H.
  split; [exact H|].
  destruct H as (a & b & ->); split; reflexivity.
Qed.

Lemma directory_is_seeded_up_to_flags_witness :
  (exists nurse_flag dr_flag,
     healthcare_providers state_after_one_alert
     = directory_with nurse_flag dr_flag)
  /\ dict_keys (healthcare_providers state_after_one_alert)
     = [py "nurse_david"; py "dr_smith"]
  /\ map (fun entry =>
            (Provider.name (snd entry), Provider.role (snd entry),
             Provider.department (snd entry), Provider.contact (snd entry)))
         (healthcare_providers state_after_one_alert)
     = map (fun entry =>
              (Provider.name (snd entry), Provider.role (snd entry),
               Provider.department (snd entry),
               Provider.contact (snd entry)))
           _initialize_healthcare_providers.
Proof.
  apply (@directory_is_seeded_up_to_flags sample_clock source_adapters
           state_after_one_alert).
  apply reach_send_alert, reach_init.
Defined.

(** X5.  In every reachable state, after a status update for a provider of
    the directory, [check_provider_availability] lists that provider
    exactly when the stored value is [True], and lists every other provider
    exactly when it did before; the check itself changes nothing. *)
Theorem availability_follows_status (clock : nat -> datetime)
  (adapter : Channel -> Alert.t -> pystr -> bool) (s : State)
  (id : pystr) (on_call : option bool) (provider : Provider.t) :
  reachable clock adapter s ->
  dict_get (healthcare_providers s) id = Some provider ->
  let s' :=
    snd (update_provider_status (UpdateRequest.mk (Some id) on_call) s) in
  (In id (available_ids s') <-> on_call = Some true)
  /\ (forall other, other <> id ->
        (In other (available_ids s') <-> In other (available_ids s)))
  /\ snd (check_provider_availability s') = s'.
Proof.
  intros Hreach Hget s'; subst s'.
  destruct (reachable_directory Hreach) as (a & b & Hd).
  unfold update_provider_status, bind, gets, modify, ret.
  cbn [UpdateRequest.provider_id UpdateRequest.on_call].
  rewrite Hget; cbn [snd].
  unfold available_ids, check_provider_availability, bind, gets, ret.
  cbn [fst snd healthcare_providers set_healthcare_providers].
  rewrite Hd in *; clear Hd.
  destruct (directory_with_entries a b) as (p1 & p2 & Hd & _).
  rewrite Hd in *; clear Hd.
  cbn [dict_get store_on_call] in Hget |- *.
  assert (Hne : py "nurse_david" <> py "dr_smith") by discriminate.
  destruct (str_eqb (py "nurse_david") id) eqn:E1.
  - apply str_eqb_eq in E1; subst id.
    cbn [filter map fst snd Provider.on_call Provider.set_on_call].
    split; [|split; [|reflexivity]].
    + destruct on_call as [[|]|], b as [[|]|];
        cbn [get_or filter map fst snd In];
        intuition (try congruence; try discriminate).
    + intros other Ho.
      destruct on_call as [[|]|], a as [[|]|], b as [[|]|];
        cbn [get_or filter map fst snd In];
        intuition congruence.
  - destruct (str_eqb (py "dr_smith") id) eqn:E2; [|discriminate].
    apply str_eqb_eq in E2; subst id.
    cbn [filter map fst snd Provider.on_call Provider.set_on_call].
    split; [|split; [|reflexivity]].
    + destruct on_call as [[|]|], a as [[|]|];
        cbn [get_or filter map fst snd In];
        intuition (try congruence; try discriminate).
    + intros other Ho.
      destruct on_call as [[|]|], a as [[|]|], b as [[|]|];
        cbn [get_or filter map fst snd In];
        intuition congruence.
Qed.

Lemma availability_follows_status_witness :
  let s' :=
    snd (update_provider_status
           (UpdateRequest.mk (Some (py "dr_smith")) (Some true))
           state_after_one_alert) in
  (In (py "dr_smith") (available_ids s') <-> Some true = Some true)
  /\ (forall other, other <> py "dr_smith" ->
        (In other (available_ids s')
         <-> In other (available_ids state_after_one_alert)))
  /\ snd (check_provider_availability s') = s'.
Proof.
  apply (@availability_follows_status sample_clock source_adapters
           state_after_one_alert (py "dr_smith") (Some true)
           (snd (hd (py "", nurse_david)
                    (tl _initialize_healthcare_providers)))).
  - apply reach_send_alert, reach_init.
  - vm_compute; reflexivity.
Defined.

(* ===================================================================== *)
(** ** Who is notified *)
(* ===================================================================== *)

Lemma recipients_of_directory_with (nurse_flag dr_flag : option bool)
  (alert : Alert.t) :
  let providers := directory_with nurse_flag dr_flag in
  _determine_notification_recipients providers alert
  = recipients_table
      (str_eqb (Alert.risk_level alert) (py "CRITICAL")
       || str_eqb (Alert.priority alert) (py "URGENT"))
      (on_call_now providers (py "nurse_david"))
      (on_call_now providers (py "dr_smith")).
Proof.
  unfold _determine_notification_recipients.
  destruct (str_eqb (Alert.risk_level alert) (py "CRITICAL")
            || str_eqb (Alert.priority alert) (py "URGENT"));
    destruct nurse_flag as [[|]|], dr_flag as [[|]|]; reflexivity.
Qed.

Lemma recipients_table_shape (critical_or_urgent nurse_on dr_on : bool) :
  let recipients := recipients_table critical_or_urgent nurse_on dr_on in
  NoDup recipients
  /\ 1 <= length recipients <= 2
  /\ incl recipients [py "nurse_david"; py "dr_smith"].
Proof.
  assert (N2 : NoDup [py "nurse_david"; py "dr_smith"]).
  { constructor; [intros [E|[]]; discriminate|].
    constructor; [intros []|constructor]. }
  assert (N1 : forall x : pystr, NoDup [x]).
  { intros x; constructor; [intros []|constructor]. }
  destruct critical_or_urgent, nurse_on, dr_on; cbn;
    (split; [auto|split; [lia|]]); intros x; simpl; tauto.
Qed.

(** X6.  In every reachable state the recipients of an alert are given by
    the two on-call flags.  An alert that is neither CRITICAL nor URGENT
    goes to the nurse alone when the nurse is on call, and to both
    providers otherwise; a CRITICAL or URGENT alert goes to whoever of the
    two is on call, and to both when neither is.  In particular the
    physician is left out of a CRITICAL alert when only the nurse is on
    call, and nobody is ever listed twice. *)
Theorem recipients_by_on_call_flags (clock : nat -> datetime)
  (adapter : Channel -> Alert.t -> pystr -> bool) (s : State)
  (alert : Alert.t) :
  reachable clock adapter s ->
  let providers := healthcare_providers s in
  _determine_notification_recipients providers alert
  = recipients_table
      (str_eqb (Alert.risk_level alert) (py "CRITICAL")
       || str_eqb (Alert.priority alert) (py "URGENT"))
      (on_call_now providers (py "nurse_david"))
      (on_call_now providers (py "dr_smith"))
  /\ NoDup (_determine_notification_recipients providers alert).
Proof.
  intros Hreach providers; subst providers.
  destruct (reachable_directory Hreach) as (a & b & ->).
  pose proof (recipients_of_directory_with a b alert) as H.
  cbv zeta in H; split; [exact H|].
  rewrite H; apply recipients_table_shape.
Qed.

Lemma recipients_by_on_call_flags_witness :
  let providers := healthcare_providers state_after_one_alert in
  _determine_notification_recipients providers sample_alert
  = recipients_table
      (str_eqb (Alert.risk_level sample_alert) (py "CRITICAL")
       || str_eqb (Alert.priority sample_alert) (py "URGENT"))
      (on_call_now providers (py "nurse_david"))
      (on_call_now providers (py "dr_smith"))
  /\ NoDup (_determine_notification_recipients providers sample_alert).
Proof.
  apply (@recipients_by_on_call_flags sample_clock source_adapters
           state_after_one_alert sample_alert).
  apply reach_send_alert, reach_init.
Defined.

(* ===================================================================== *)
(** ** What [send_alert] delivers *)
(* ===================================================================== *)

Lemma dict_get_of_key (A : Type) (d : list (pystr * A)) (key : pystr) :
  In key (dict_keys d) -> dict_get d key <> None.
Proof.
  unfold dict_keys; induction d as [|[k v] d IH]; simpl; [tauto|].
  intros [H|H].
  - rewrite (proj2 (str_eqb_eq _ _) H); discriminate.
  - destruct (str_eqb k key); [discriminate | auto].
Qed.

(** The notification loop over ids the directory knows, when every
    provider has all its addresses: one successful result per id, each
    listing the plan of the priority, and one delivery per channel of the
    plan and id. *)
Lemma notify_each_complete (clock : nat -> datetime)
  (adapter : Channel -> Alert.t -> pystr -> bool) (alert : Alert.t)
  (ids : list pystr) (acc : list NotificationResult.t) (s : State) :
  contacts_complete (healthcare_providers s) ->
  (forall id, In id ids -> dict_get (healthcare_providers s) id <> None) ->
  let good := fun r =>
    NotificationResult.status r = ResultStatus.success
    /\ NotificationResult.error r = None
    /\ NotificationResult.channels_used r = tier_of (Alert.priority alert) in
  let out := notify_each clock adapter alert ids acc s in
  length (fst out) = length acc + length ids
  /\ (Forall good acc -> Forall good (fst out))
  /\ map (fun r => Some (NotificationResult.provider_name r)) (fst out)
     = map (fun r => Some (NotificationResult.provider_name r)) acc
       ++ map (fun id => option_map Provider.name
                           (dict_get (healthcare_providers s) id)) ids
  /\ length (outbox (snd out))
     = length (outbox s)
       + length ids * length (tier_of (Alert.priority alert))
  /\ clock_reads (snd out) = clock_reads s + length ids.
Proof.
  intros Hc Hin good out; subst out.
  revert acc s Hc Hin; induction ids as [|id ids IH]; intros acc s Hc Hin.
  - cbn [notify_each ret fst snd length map].
    rewrite !app_nil_r; repeat split; auto; lia.
  - destruct (dict_get (healthcare_providers s) id) as [p|] eqn:Hget;
      [|exfalso; apply (Hin id); [left; reflexivity | exact Hget]].
    assert (Estep :
      notify_each clock adapter alert (id :: ids) acc s
      = notify_each clock adapter alert ids
          (acc ++ [fst (_send_notification_to_provider clock adapter alert
                          p s)])
          (snd (_send_notification_to_provider clock adapter alert p s))).
    { cbn [notify_each]; unfold bind, gets; rewrite Hget.
      destruct (_send_notification_to_provider clock adapter alert p s);
        reflexivity. }
    rewrite Estep; clear Estep.
    pose proof (send_notification_frame clock adapter alert p s) as [F1 F2].
    pose proof (send_notification_to_provider_eq clock adapter alert p s)
      as Heq; cbv zeta in Heq.
    assert (Hm : first_missing (Provider.contact p)
                   (tier_of (Alert.priority alert)) = None).
    { apply attempted_all_addresses; intros c _.
      eapply dict_get_complete; eassumption. }
    rewrite Hm, (proj1 (attempted_all _ _) Hm) in Heq.
    set (r0 := NotificationResult.mk _ _ _ _ _ _) in Heq.
    destruct (used_channels (tier_of (Alert.priority alert)) r0)
      as (U1 & U2 & U3 & U4 & _).
    destruct (recorded_deliveries
                (delivery_of adapter alert (Provider.contact p))
                (tier_of (Alert.priority alert)) (tick s))
      as (D1 & _ & _ & D4).
    cbv zeta in U1, U2, U3, U4, D1, D4.
    set (r := fst (_send_notification_to_provider clock adapter alert p s))
      in *.
    set (s1 := snd (_send_notification_to_provider clock adapter alert p s))
      in *.
    assert (Hr : r = fold_left (fun r c => NotificationResult.use c r)
                       (tier_of (Alert.priority alert)) r0)
      by (subst r; rewrite Heq; reflexivity).
    assert (Hs1 : s1 = fold_left
                         (fun s c =>
                            record_delivery
                              (delivery_of adapter alert
                                 (Provider.contact p) c) s)
                         (tier_of (Alert.priority alert)) (tick s))
      by (subst s1; rewrite Heq; reflexivity).
    clearbody r s1; clear Heq.
    assert (Hc1 : contacts_complete (healthcare_providers s1))
      by (rewrite F2; exact Hc).
    assert (Hin1 : forall id', In id' ids ->
                     dict_get (healthcare_providers s1) id' <> None)
      by (intros id' H'; rewrite F2; apply Hin; right; exact H').
    destruct (IH (acc ++ [r]) s1 Hc1 Hin1) as (L & G & N & O & C).
    rewrite F2 in N.
    split; [rewrite L, length_app; simpl; lia|].
    split.
    { intros Hacc; apply G, Forall_app; split; [exact Hacc|].
      constructor; [|constructor].
      rewrite Hr; unfold good; cbv beta; rewrite U1, U2, U3; auto. }
    split.
    { rewrite N, map_app, <- app_assoc; cbn [map app].
      rewrite Hget; cbn [option_map].
      rewrite Hr, U4; reflexivity. }
    split.
    { rewrite O, Hs1, D1, length_app, length_map.
      cbn [outbox tick length]; lia. }
    rewrite C, Hs1, D4; cbn [clock_reads tick length]; lia.
Qed.

Lemma directory_with_complete (nurse_flag dr_flag : option bool) :
  contacts_complete (directory_with nurse_flag dr_flag).
Proof. repeat constructor; intros c; destruct c; discriminate. Qed.

(** [send_alert] over a directory that is the seeded one up to its flags. *)
Lemma send_alert_on_directory (clock : nat -> datetime)
  (adapter : Channel -> Alert.t -> pystr -> bool)
  (request : SendAlertRequest.t) (s : State)
  (nurse_flag dr_flag : option bool) :
  healthcare_providers s = directory_with nurse_flag dr_flag ->
  let alert := created_alert clock request s in
  let priority := get_or (SendAlertRequest.priority request) (py "HIGH") in
  let recipients :=
    _determine_notification_recipients (healthcare_providers s) alert in
  let out := send_alert clock adapter request s in
  exists results,
    fst out
    = SendAlertResponse.alert_sent
        (SendAlertResponse.mk (Alert.alert_id alert) priority
           (length recipients) results
           (_get_expected_response_time priority) (Alert.timestamp alert))
    /\ length results = length recipients
    /\ 1 <= length recipients <= 2
    /\ Forall (fun r =>
                 NotificationResult.status r = ResultStatus.success
                 /\ NotificationResult.error r = None
                 /\ NotificationResult.channels_used r = tier_of priority)
              results
    /\ map (fun r => Some (NotificationResult.provider_name r)) results
       = map (fun id => option_map Provider.name
                          (dict_get (healthcare_providers s) id))
             recipients
    /\ length (outbox (snd out))
       = length (outbox s) + length recipients * length (tier_of priority)
    /\ clock_reads (snd out) = clock_reads s + 3 + length recipients.
Proof.
  intros Hd alert priority recipients out; subst out.
  rewrite send_alert_eq; fold alert; fold priority; cbv zeta.
  fold recipients.
  assert (Hc : contacts_complete (healthcare_providers s))
    by (rewrite Hd; apply directory_with_complete).
  assert (Hshape : 1 <= length recipients <= 2
                   /\ incl recipients (dict_keys (healthcare_providers s))).
  { subst recipients; rewrite Hd.
    pose proof (recipients_of_directory_with nurse_flag dr_flag alert) as H.
    cbv zeta in H; rewrite H.
    destruct (recipients_table_shape
                (str_eqb (Alert.risk_level alert) (py "CRITICAL")
                 || str_eqb (Alert.priority alert) (py "URGENT"))
                (on_call_now (directory_with nurse_flag dr_flag)
                   (py "nurse_david"))
                (on_call_now (directory_with nurse_flag dr_flag)
                   (py "dr_smith")))
      as (_ & H1 & H2).
    split; [exact H1 | exact H2]. }
  destruct Hshape as (Hlen & Hincl).
  destruct (@notify_each_complete clock adapter alert recipients []
              (tick (tick (tick s))) Hc)
    as (L & G & N & O & C).
  { intros id Hid; apply dict_get_of_key, Hincl, Hid. }
  destruct (notify_each clock adapter alert recipients []
              (tick (tick (tick s)))) as [results s2].
  cbn [fst snd length map app] in *.
  exists results.
  split; [rewrite L; reflexivity|].
  split; [exact L|].
  split; [exact Hlen|].
  split; [apply G; constructor|].
  split; [exact N|].
  split; [exact O|].
  cbn [clock_reads set_alert_history]; rewrite C; cbn [clock_reads tick].
  lia.
Qed.

(** X7.  In every reachable state [send_alert] notifies exactly the
    recipients it resolved, in their order, one or two of them: each
    result names the provider, has status success and lists the channels
    of the request's priority (HIGH when the request names none), and the
    adapters are invoked once per recipient and channel.  The clock is read
    three times for the alert and once per recipient. *)
Theorem send_alert_reaches_recipients (clock : nat -> datetime)
  (adapter : Channel -> Alert.t -> pystr -> bool)
  (request : SendAlertRequest.t) (s : State) :
  reachable clock adapter s ->
  let alert := created_alert clock request s in
  let priority := get_or (SendAlertRequest.priority request) (py "HIGH") in
  let recipients :=
    _determine_notification_recipients (healthcare_providers s) alert in
  let out := send_alert clock adapter request s in
  exists results,
    fst out
    = SendAlertResponse.alert_sent
        (SendAlertResponse.mk (Alert.alert_id alert) priority
           (length recipients) results
           (_get_expected_response_time priority) (Alert.timestamp alert))
    /\ length results = length recipients
    /\ 1 <= length recipients <= 2
    /\ Forall (fun r =>
                 NotificationResult.status r = ResultStatus.success
                 /\ NotificationResult.error r = None
                 /\ NotificationResult.channels_used r = tier_of priority)
              results
    /\ map (fun r => Some (NotificationResult.provider_name r)) results
       = map (fun id => option_map Provider.name
                          (dict_get (healthcare_providers s) id))
             recipients
    /\ length (outbox (snd out))
       = length (outbox s) + length recipients * length (tier_of priority)
    /\ clock_reads (snd out) = clock_reads s + 3 + length recipients.
Proof.
  intros Hreach.
  destruct (reachable_directory Hreach) as (a & b & Hd).
  exact (send_alert_on_directory clock adapter request s Hd).
Qed.

Lemma send_alert_reaches_recipients_witness :
  let alert := created_alert sample_clock sample_request (init_state 0 []) in
  let priority :=
    get_or (SendAlertRequest.priority sample_request) (py "HIGH") in
  let recipients :=
    _determine_notification_recipients
      (healthcare_providers (init_state 0 [])) alert in
  let out := send_alert sample_clock source_adapters sample_request
               (init_state 0 []) in
  exists results,
    fst out
    = SendAlertResponse.alert_sent
        (SendAlertResponse.mk (Alert.alert_id alert) priority
           (length recipients) results
           (_get_expected_response_time priority) (Alert.timestamp alert))
    /\ length results = length recipients
    /\ 1 <= length recipients <= 2
    /\ Forall (fun r =>
                 NotificationResult.status r = ResultStatus.success
                 /\ NotificationResult.error r = None
                 /\ NotificationResult.channels_used r = tier_of priority)
              results
    /\ map (fun r => Some (NotificationResult.provider_name r)) results
       = map (fun id => option_map Provider.name
                          (dict_get (healthcare_providers (init_state 0 []))
                                    id))
             recipients
    /\ length (outbox (snd out))
       = length (outbox (init_state 0 []))
         + length recipients * length (tier_of priority)
    /\ clock_reads (snd out)
       = clock_reads (init_state 0 []) + 3 + length recipients.
Proof.
  apply (@send_alert_reaches_recipients sample_clock source_adapters
           sample_request (init_state 0 [])).
  apply reach_init.
Defined.

(* ===================================================================== *)
(** ** Response times *)
(* ===================================================================== *)

(** X8.  For an alert raised by the triage agent the expected response
    time is 15 minutes when the risk level is CRITICAL, 240 minutes when it
    is LOW and 60 minutes for every other risk level, unrecognized ones
    included.  By priority the time is 15 for URGENT, 60 for HIGH, 240 for
    NORMAL and 60 for every other priority string, so it is always one of
    the three. *)
Theorem response_time_by_risk_level (risk_level priority : pystr) :
  risk_level <> py "CRITICAL" ->
  risk_level <> py "LOW" ->
  priority <> py "URGENT" ->
  priority <> py "HIGH" ->
  priority <> py "NORMAL" ->
  _get_expected_response_time (_map_risk_to_priority risk_level) = 60%Z
  /\ _get_expected_response_time (_map_risk_to_priority (py "CRITICAL"))
     = 15%Z
  /\ _get_expected_response_time (_map_risk_to_priority (py "LOW")) = 240%Z
  /\ (forall p,
        _get_expected_response_time p = 15%Z
        \/ _get_expected_response_time p = 60%Z
        \/ _get_expected_response_time p = 240%Z)
  /\ _get_expected_response_time priority = 60%Z
  /\ _get_expected_response_time (py "URGENT") = 15%Z
  /\ _get_expected_response_time (py "HIGH") = 60%Z
  /\ _get_expected_response_time (py "NORMAL") = 240%Z.
Proof.
  intros HC HL HU HH HN.
  split; [|split; [reflexivity|split; [reflexivity|split; [|split]]]].
  - unfold _map_risk_to_priority, get_or, dict_get.
    rewrite (proj2 (str_eqb_neq (py "CRITICAL") risk_level))
      by congruence.
    destruct (str_eqb (py "MODERATE") risk_level); [reflexivity|].
    rewrite (proj2 (str_eqb_neq (py "LOW") risk_level)) by congruence.
    reflexivity.
  - intros p; unfold _get_expected_response_time, get_or, dict_get.
    destruct (str_eqb (py "URGENT") p); auto.
    destruct (str_eqb (py "HIGH") p); auto.
    destruct (str_eqb (py "NORMAL") p); auto.
  - unfold _get_expected_response_time, get_or, dict_get.
    rewrite (proj2 (str_eqb_neq (py "URGENT") priority)) by congruence.
    rewrite (proj2 (str_eqb_neq (py "HIGH") priority)) by congruence.
    rewrite (proj2 (str_eqb_neq (py "NORMAL") priority)) by congruence.
    reflexivity.
  - repeat split.
Qed.

Lemma response_time_by_risk_level_witness :
  _get_expected_response_time (_map_risk_to_priority (py "UNKNOWN")) = 60%Z
  /\ _get_expected_response_time (_map_risk_to_priority (py "CRITICAL"))
     = 15%Z
  /\ _get_expected_response_time (_map_risk_to_priority (py "LOW")) = 240%Z
  /\ (forall p,
        _get_expected_response_time p = 15%Z
        \/ _get_expected_response_time p = 60%Z
        \/ _get_expected_response_time p = 240%Z)
  /\ _get_expected_response_time (py "LOW") = 60%Z
  /\ _get_expected_response_time (py "URGENT") = 15%Z
  /\ _get_expected_response_time (py "HIGH") = 60%Z
  /\ _get_expected_response_time (py "NORMAL") = 240%Z.
Proof.
  apply (@response_time_by_risk_level (py "UNKNOWN") (py "LOW"));
    discriminate.
Defined.

(* ===================================================================== *)
(** ** Escalating an alert the store does not have *)
(* ===================================================================== *)

Lemma find_alert_absent (alert_id : pystr) (history : list Alert.t) :
  ~ In alert_id (alert_ids history) -> find_alert alert_id history = None.
Proof.
  unfold alert_ids; induction history as [|a h IH]; simpl; [reflexivity|].
  intros H.
  destruct (str_eqb (Alert.alert_id a) alert_id) eqn:E.
  - apply str_eqb_eq in E; tauto.
  - rewrite IH; [reflexivity | tauto].
Qed.

(** X9.  An escalation request whose id no stored alert has (or that names
    no id) is answered with ["not_found"] and changes nothing: no alert is
    updated or created, nobody is notified and the clock is not read. *)
Theorem escalate_unknown_alert_is_refused (clock : nat -> datetime)
  (adapter : Channel -> Alert.t -> pystr -> bool)
  (request : EscalateRequest.t) (s : State) :
  (forall id, EscalateRequest.alert_id request = Some id ->
              ~ In id (alert_ids (alert_history s))) ->
  exists message,
    escalate_alert clock adapter request s
    = (EscalateResponse.not_found message, s).
Proof.
  intros H; eexists; apply escalate_alert_not_found.
  destruct (EscalateRequest.alert_id request) as [id|]; [|reflexivity].
  apply find_alert_absent, H; reflexivity.
Qed.

Lemma escalate_unknown_alert_is_refused_witness :
  exists message,
    escalate_alert sample_clock source_adapters escalate_missing
      state_after_one_alert
    = (EscalateResponse.not_found message, state_after_one_alert).
Proof.
  apply (@escalate_unknown_alert_is_refused sample_clock source_adapters
           escalate_missing state_after_one_alert).
  intros id H; injection H as <-.
  vm_compute; intros [E|[]]; discriminate.
Defined.

(* ===================================================================== *)
(** ** Repeating a history query *)
(* ===================================================================== *)

Lemma sort_newest_first_sorted_id (l : list Alert.t) :
  Sorted newest_first l -> sort_newest_first l = l.
Proof.
  induction 1 as [|x l Hs IH Hd]; [reflexivity|].
  cbn [sort_newest_first fold_right]; fold (sort_newest_first l).
  rewrite IH.
  destruct Hd as [|y l Hxy]; [reflexivity|].
  cbn [insert_newest_first]; unfold newest_first in Hxy; rewrite Hxy.
  reflexivity.
Qed.

Lemma sort_newest_first_idempotent (l : list Alert.t) :
  sort_newest_first (sort_newest_first l) = sort_newest_first l.
Proof.
  apply sort_newest_first_sorted_id, StronglySorted_Sorted,
    sort_newest_first_sorted.
Qed.

(** X10.  An unfiltered history query reorders the store once only:
    repeated at once, the same query returns the same listing and leaves
    the state as the first query left it. *)
Theorem unfiltered_history_query_idempotent (request : HistoryRequest.t)
  (s : State) :
  truthy (HistoryRequest.patient_name request) = false ->
  get_alert_history request (snd (get_alert_history request s))
  = get_alert_history request s.
Proof.
  intros H; unfold get_alert_history, bind, gets, modify, ret.
  rewrite H; cbn [snd alert_history set_alert_history].
  rewrite sort_newest_first_idempotent; reflexivity.
Qed.

Lemma unfiltered_history_query_idempotent_witness :
  get_alert_history (HistoryRequest.mk None None)
    (snd (get_alert_history (HistoryRequest.mk None None)
            state_after_two_alerts))
  = get_alert_history (HistoryRequest.mk None None) state_after_two_alerts.
Proof.
  apply (@unfiltered_history_query_idempotent (HistoryRequest.mk None None)
           state_after_two_alerts).
  reflexivity.
Defined.

(* ===================================================================== *)
(** ** Finding a stored alert again *)
(* ===================================================================== *)

Lemma get_alert_history_filtered (limit : option Z) (patient_name : pystr)
  (s : State) :
  patient_name <> [] ->
  get_alert_history (HistoryRequest.mk limit (Some patient_name)) s
  = (HistoryResponse.success
       (HistoryResponse.mk
          (slice_list
             (sort_newest_first (alerts_of patient_name (alert_history s)))
             (get_or limit 50%Z))
          (length (sort_newest_first
                     (alerts_of patient_name (alert_history s))))
          (get_or limit 50%Z)),
     s).
Proof.
  intros H; destruct patient_name as [|c name]; [congruence|].
  reflexivity.
Qed.

Lemma alerts_of_app (patient_name : pystr) (h1 h2 : list Alert.t) :
  alerts_of patient_name (h1 ++ h2)
  = alerts_of patient_name h1 ++ alerts_of patient_name h2.
Proof. unfold alerts_of; apply filter_app. Qed.

(** X11.  An alert sent for a patient is found by the next history query
    for that patient's name: the query counts one more matching alert than
    the store held before, and lists the new alert whenever the limit is
    not below that count.  (The name is the one stored in the alert,
    ["Unknown Patient"] when the context gave none; it must not be
    empty.) *)
Theorem sent_alert_is_in_patient_history (clock : nat -> datetime)
  (adapter : Channel -> Alert.t -> pystr -> bool)
  (request : SendAlertRequest.t) (limit : Z) (s : State) :
  let alert := created_alert clock request s in
  let patient_name := PatientInfo.name (Alert.patient_info alert) in
  let before := length (alerts_of patient_name (alert_history s)) in
  patient_name <> [] ->
  (Z.of_nat before < limit)%Z ->
  exists listing,
    fst (get_alert_history
           (HistoryRequest.mk (Some limit) (Some patient_name))
           (snd (send_alert clock adapter request s)))
    = HistoryResponse.success listing
    /\ In alert (HistoryResponse.alerts listing)
    /\ HistoryResponse.total_alerts listing = before + 1
    /\ length (HistoryResponse.alerts listing) = before + 1.
Proof.
  intros alert patient_name before Hname Hlimit.
  rewrite get_alert_history_filtered by exact Hname.
  destruct (send_alert_effect clock adapter request s) as (_ & Hh & _).
  fold alert in Hh; rewrite Hh, alerts_of_app.
  assert (Hone : alerts_of patient_name [alert] = [alert]).
  { unfold alerts_of; cbn [filter]; subst patient_name.
    rewrite str_eqb_refl; reflexivity. }
  rewrite Hone; fold before.
  set (matching := alerts_of patient_name (alert_history s) ++ [alert]).
  assert (Hlen : length (sort_newest_first matching) = before + 1).
  { rewrite sort_newest_first_length; subst matching before.
    rewrite length_app; reflexivity. }
  eexists; split; [reflexivity|].
  cbn [HistoryResponse.alerts HistoryResponse.total_alerts get_or].
  unfold slice_list.
  destruct (Z.ltb_spec limit 0) as [H|_]; [lia|].
  rewrite firstn_all2 by lia.
  split; [|split; exact Hlen].
  eapply Permutation_in; [apply sort_newest_first_perm|].
  subst matching; apply in_or_app; right; left; reflexivity.
Qed.

Lemma sent_alert_is_in_patient_history_witness :
  let alert :=
    created_alert sample_clock later_request state_after_one_alert in
  let patient_name := PatientInfo.name (Alert.patient_info alert) in
  let before :=
    length (alerts_of patient_name (alert_history state_after_one_alert)) in
  exists listing,
    fst (get_alert_history
           (HistoryRequest.mk (Some 50%Z) (Some patient_name))
           (snd (send_alert sample_clock source_adapters later_request
                   state_after_one_alert)))
    = HistoryResponse.success listing
    /\ In alert (HistoryResponse.alerts listing)
    /\ HistoryResponse.total_alerts listing = before + 1
    /\ length (HistoryResponse.alerts listing) = before + 1.
Proof.
  apply (@sent_alert_is_in_patient_history sample_clock source_adapters
           later_request 50%Z state_after_one_alert).
  - discriminate.
  - vm_compute; reflexivity.
Defined.

(* ===================================================================== *)
(** ** Alert ids are unique *)
(* ===================================================================== *)

Lemma NoDup_snoc (A : Type) (l : list A) (x : A) :
  NoDup l -> ~ In x l -> NoDup (l ++ [x]).
Proof.
  intros H Hx.
  eapply Permutation_NoDup; [apply Permutation_cons_append|].
  constructor; assumption.
Qed.

Lemma alert_ids_update (before after : list Alert.t) (a a' : Alert.t) :
  Alert.alert_id a' = Alert.alert_id a ->
  alert_ids (before ++ a' :: after) = alert_ids (before ++ a :: after).
Proof.
  intros H; unfold alert_ids; rewrite !map_app; cbn [map]; rewrite H.
  reflexivity.
Qed.

Lemma alert_ids_fresh (h : list Alert.t) (stamp : pystr) :
  numbered h -> ~ In (make_alert_id (length h + 1) stamp) (alert_ids h).
Proof.
  intros Hn Hin; unfold alert_ids in Hin.
  apply in_map_iff in Hin; destruct Hin as (a & Ha & Hin).
  revert Ha; apply numbered_fresh; assumption.
Qed.

Lemma reachable_ids_nodup (clock : nat -> datetime)
  (adapter : Channel -> Alert.t -> pystr -> bool) (s : State) :
  reachable clock adapter s -> NoDup (alert_ids (alert_history s)).
Proof.
  induction 1 as [n out|s request Hr IH|s request Hr IH|s request Hr IH
                  |s request Hr IH].
  - constructor.
  - destruct (send_alert_effect clock adapter request s) as (_ & H & _).
    rewrite H; unfold alert_ids; rewrite map_app; cbn [map].
    apply NoDup_snoc; [exact IH|].
    rewrite created_alert_id.
    apply alert_ids_fresh, (reachable_numbered Hr).
  - destruct (get_alert_history_store request s) as (H & _); rewrite H.
    destruct (truthy _); [exact IH|].
    eapply Permutation_NoDup; [|exact IH].
    apply Permutation_map, sort_newest_first_perm.
  - rewrite update_provider_status_history; exact IH.
  - destruct (match EscalateRequest.alert_id request with
              | Some alert_id => find_alert alert_id (alert_history s)
              | None => None
              end) as [[[before alert] after]|] eqn:E.
    + destruct (EscalateRequest.alert_id request) as [alert_id|] eqn:Hid;
        [|discriminate].
      destruct (escalate_alert_history clock adapter request s Hid E)
        as (H & _).
      destruct (find_alert_split _ _ E) as (Hs & _).
      pose proof (reachable_numbered Hr) as Hn.
      rewrite H; unfold alert_ids at 1; rewrite map_app; cbn [map].
      fold (alert_ids (before ++ Alert.escalated
                         (get_or (EscalateRequest.new_priority request)
                                 (py "URGENT")) alert :: after)).
      rewrite (@alert_ids_update before after alert) by reflexivity.
      rewrite <- Hs.
      apply NoDup_snoc; [exact IH|].
      rewrite created_alert_id.
      cbn [alert_history tick set_alert_history].
      replace (length (before ++ _ :: after))
        with (length (alert_history s))
        by (rewrite Hs, !length_app; reflexivity).
      apply alert_ids_fresh, Hn.
    + rewrite (escalate_alert_not_found clock adapter request s E).
      exact IH.
Qed.

(** X12.  In every reachable state no two stored alerts have the same id,
    so an id names at most one alert: any stored alert is the one
    [escalate_alert] finds under its id. *)
Theorem stored_alert_ids_are_unique (clock : nat -> datetime)
  (adapter : Channel -> Alert.t -> pystr -> bool) (s : State) :
  reachable clock adapter s ->
  NoDup (alert_ids (alert_history s))
  /\ forall alert, In alert (alert_history s) ->
       found_alert (Alert.alert_id alert) (alert_history s) = Some alert.
Proof.
  intros Hreach; pose proof (reachable_ids_nodup Hreach) as Hnd.
  split; [exact Hnd|].
  unfold found_alert.
  induction (alert_history s) as [|a h IH]; intros alert Hin; [destruct Hin|].
  cbn [alert_ids map] in Hnd; inversion Hnd as [|x l Hx Hl]; subst.
  cbn [find_alert].
  destruct (str_eqb (Alert.alert_id a) (Alert.alert_id alert)) eqn:E.
  - destruct Hin as [->|Hin]; [reflexivity|].
    apply str_eqb_eq in E; exfalso; apply Hx.
    rewrite E; apply in_map; exact Hin.
  - destruct Hin as [->|Hin]; [rewrite str_eqb_refl in E; discriminate|].
    specialize (IH Hl alert Hin).
    destruct (find_alert (Alert.alert_id alert) h) as [[[b f] r]|];
      [exact IH | discriminate].
Qed.

Lemma stored_alert_ids_are_unique_witness :
  NoDup (alert_ids (alert_history state_after_two_alerts))
  /\ forall alert, In alert (alert_history state_after_two_alerts) ->
       found_alert (Alert.alert_id alert)
         (alert_history state_after_two_alerts) = Some alert.
Proof.
  apply (@stored_alert_ids_are_unique sample_clock source_adapters
           state_after_two_alerts).
  apply reach_send_alert, reach_send_alert, reach_init.
Defined.

(* ===================================================================== *)
(** ** Escalation leaves the other alerts alone *)
(* ===================================================================== *)

Lemma found_alert_app (alert_id : pystr) (h1 h2 : list Alert.t) :
  found_alert alert_id (h1 ++ h2)
  = match found_alert alert_id h1 with
    | Some alert => Some alert
    | None => found_alert alert_id h2
    end.
Proof.
  unfold found_alert; induction h1 as [|a h1 IH]; cbn [app find_alert].
  - destruct (find_alert alert_id h2) as [[[b f] r]|]; reflexivity.
  - destruct (str_eqb (Alert.alert_id a) alert_id); [reflexivity|].
    destruct (find_alert alert_id (h1 ++ h2)) as [[[b f] r]|];
      destruct (find_alert alert_id h1) as [[[b1 f1] r1]|];
      destruct (find_alert alert_id h2) as [[[b2 f2] r2]|];
      try exact IH; try discriminate; reflexivity.
Qed.

Lemma found_alert_cons_other (alert_id : pystr) (a : Alert.t)
  (h : list Alert.t) :
  Alert.alert_id a <> alert_id ->
  found_alert alert_id (a :: h) = found_alert alert_id h.
Proof.
  intros H; unfold found_alert; cbn [find_alert].
  rewrite (proj2 (str_eqb_neq _ _) H).
  destruct (find_alert alert_id h) as [[[b f] r]|]; reflexivity.
Qed.

(** X13.  In every reachable state, escalating one alert leaves every
    other stored alert as it was: under any other stored id the same
    alert, with the same priority and escalation level, is found
    afterwards. *)
Theorem escalate_leaves_other_alerts (clock : nat -> datetime)
  (adapter : Channel -> Alert.t -> pystr -> bool)
  (request : EscalateRequest.t) (alert_id other : pystr) (s : State) :
  reachable clock adapter s ->
  EscalateRequest.alert_id request = Some alert_id ->
  other <> alert_id ->
  In other (alert_ids (alert_history s)) ->
  let s' := snd (escalate_alert clock adapter request s) in
  found_alert other (alert_history s') = found_alert other (alert_history s)
  /\ escalation_level_of other (alert_history s')
     = escalation_level_of other (alert_history s).
Proof.
  intros Hreach Hid Hne Hin s'; subst s'.
  assert (Hlevel : forall h,
            escalation_level_of other h
            = option_map Alert.escalation_level (found_alert other h)).
  { intros h; unfold escalation_level_of, found_alert.
    destruct (find_alert other h) as [[[b f] r]|]; reflexivity. }
  rewrite !Hlevel.
  assert (found_alert other
            (alert_history (snd (escalate_alert clock adapter request s)))
          = found_alert other (alert_history s)) as ->; [|auto].
  destruct (find_alert alert_id (alert_history s))
    as [[[before alert] after]|] eqn:E.
  - destruct (escalate_alert_history clock adapter request s Hid E)
      as (H & _).
    destruct (find_alert_split _ _ E) as (Hs & Ha & _).
    set (updated := Alert.escalated _ alert) in *.
    set (new := created_alert clock _ _) in *.
    assert (Hnew : Alert.alert_id new <> other).
    { intros Eq; subst new; rewrite created_alert_id in Eq.
      cbn [alert_history tick set_alert_history] in Eq.
      replace (length (before ++ updated :: after))
        with (length (alert_history s)) in Eq
        by (rewrite Hs, !length_app; reflexivity).
      rewrite <- Eq in Hin; revert Hin.
      apply alert_ids_fresh, (reachable_numbered Hreach). }
    rewrite H, Hs, <- app_assoc; cbn [app].
    rewrite !found_alert_app.
    destruct (found_alert other before); [reflexivity|].
    rewrite !found_alert_cons_other by (cbn; congruence).
    rewrite found_alert_app.
    destruct (found_alert other after); [reflexivity|].
    rewrite found_alert_cons_other by exact Hnew; reflexivity.
  - rewrite escalate_alert_not_found; [reflexivity|].
    rewrite Hid; exact E.
Qed.

Lemma escalate_leaves_other_alerts_witness :
  let s' := snd (escalate_alert sample_clock source_adapters escalate_first
                   state_after_two_alerts) in
  found_alert (py "ALERT_2_20250101_00005") (alert_history s')
  = found_alert (py "ALERT_2_20250101_00005")
      (alert_history state_after_two_alerts)
  /\ escalation_level_of (py "ALERT_2_20250101_00005") (alert_history s')
     = escalation_level_of (py "ALERT_2_20250101_00005")
         (alert_history state_after_two_alerts).
Proof.
  apply (@escalate_leaves_other_alerts sample_clock source_adapters
           escalate_first first_alert_id (py "ALERT_2_20250101_00005")
           state_after_two_alerts).
  - apply reach_send_alert, reach_send_alert, reach_init.
  - reflexivity.
  - discriminate.
  - vm_compute; auto.
Defined.

(* ===================================================================== *)
(** ** Runs of requests through [invoke] *)
(* ===================================================================== *)

Section Runs.

Variable clock : nat -> datetime.
Variable adapter : Channel -> Alert.t -> pystr -> bool.

(** The state [invoke] leaves is the one of the method it dispatched to, or
    the state it found. *)
Lemma invoke_state (request : InvokeRequest.t) (s : State) :
  snd (invoke clock adapter request s)
  = snd (send_alert clock adapter (InvokeRequest.as_send_alert request) s)
  \/ snd (invoke clock adapter request s)
     = snd (get_alert_history (InvokeRequest.as_get_alert_history request) s)
  \/ snd (invoke clock adapter request s)
     = snd (update_provider_status
              (InvokeRequest.as_update_provider_status request) s)
  \/ snd (invoke clock adapter request s)
     = snd (escalate_alert clock adapter
              (InvokeRequest.as_escalate_alert request) s)
  \/ snd (invoke clock adapter request s) = s.
Proof.
  unfold invoke, bind, ret.
  repeat match goal with
         | |- context [if ?b then _ else _] => destruct b
         end.
  - left; destruct (send_alert _ _ _ _); reflexivity.
  - right; left; destruct (get_alert_history _ _); reflexivity.
  - right; right; left; destruct (update_provider_status _ _); reflexivity.
  - right; right; right; right; reflexivity.
  - right; right; right; left; destruct (escalate_alert _ _ _ _);
      reflexivity.
  - right; right; right; right; reflexivity.
Qed.

Lemma invoke_reachable (request : InvokeRequest.t) (s : State) :
  reachable clock adapter s ->
  reachable clock adapter (snd (invoke clock adapter request s)).
Proof.
  intros H.
  destruct (invoke_state request s) as [E|[E|[E|[E|E]]]]; rewrite E.
  - apply reach_send_alert, H.
  - apply reach_get_alert_history, H.
  - apply reach_update_provider_status, H.
  - apply reach_escalate_alert, H.
  - exact H.
Qed.

Lemma invoke_keeps_alerts (request : InvokeRequest.t) (s : State) :
  let s' := snd (invoke clock adapter request s) in
  incl (alert_ids (alert_history s)) (alert_ids (alert_history s'))
  /\ length (alert_history s) <= length (alert_history s').
Proof.
  intros s'; subst s'.
  destruct (invoke_state request s) as [E|[E|[E|[E|E]]]]; rewrite E;
    clear E.
  - destruct (send_alert_effect clock adapter
                (InvokeRequest.as_send_alert request) s) as (_ & H & _).
    rewrite H, length_app; unfold alert_ids; rewrite map_app.
    split; [apply incl_appl, incl_refl | lia].
  - destruct (get_alert_history_store
                (InvokeRequest.as_get_alert_history request) s) as (H & _).
    rewrite H; destruct (truthy _); [split; [apply incl_refl | lia]|].
    rewrite sort_newest_first_length; split; [|lia].
    intros x Hx; eapply Permutation_in; [|exact Hx].
    apply Permutation_map, sort_newest_first_perm.
  - rewrite update_provider_status_history; split; [apply incl_refl | lia].
  - set (r := InvokeRequest.as_escalate_alert request).
    destruct (match EscalateRequest.alert_id r with
              | Some alert_id => find_alert alert_id (alert_history s)
              | None => None
              end) as [[[before alert] after]|] eqn:F.
    + destruct (EscalateRequest.alert_id r) as [alert_id|] eqn:Hid;
        [|discriminate].
      destruct (escalate_alert_history clock adapter r s Hid F) as (H & _).
      destruct (find_alert_split _ _ F) as (Hs & _).
      rewrite H, length_app; unfold alert_ids at 2; rewrite map_app.
      fold (alert_ids (before ++ Alert.escalated
                         (get_or (EscalateRequest.new_priority r)
                                 (py "URGENT")) alert :: after)).
      rewrite (@alert_ids_update before after alert) by reflexivity.
      rewrite <- Hs; split; [apply incl_appl, incl_refl|].
      rewrite Hs, !length_app; cbn [length]; lia.
    + rewrite (escalate_alert_not_found clock adapter r s F); cbn [snd].
      split; [apply incl_refl | lia].
  - split; [apply incl_refl | lia].
Qed.

End Runs.

(** X14.  The alert history is append-only over any run of requests served
    through [invoke] from a reachable state: every id stored before the run
    is still stored after it, the history never gets shorter, no two stored
    alerts share an id, and the directory keeps its two providers. *)
Theorem serving_requests_never_loses_alerts (clock : nat -> datetime)
  (adapter : Channel -> Alert.t -> pystr -> bool)
  (requests : list InvokeRequest.t) (s : State) :
  reachable clock adapter s ->
  let s' := serve clock adapter requests s in
  incl (alert_ids (alert_history s)) (alert_ids (alert_history s'))
  /\ length (alert_history s) <= length (alert_history s')
  /\ NoDup (alert_ids (alert_history s'))
  /\ dict_keys (healthcare_providers s') = [py "nurse_david"; py "dr_smith"].
Proof.
  intros Hreach s'; subst s'.
  assert (H : reachable clock adapter (serve clock adapter requests s)
              /\ incl (alert_ids (alert_history s))
                      (alert_ids
                         (alert_history (serve clock adapter requests s)))
              /\ length (alert_history s)
                 <= length (alert_history (serve clock adapter requests s))).
  { revert s Hreach; induction requests as [|request rest IH];
      intros s Hreach; cbn [serve].
    - split; [exact Hreach|split; [apply incl_refl | lia]].
    - destruct (IH _ (invoke_reachable request Hreach)) as (R & I & L).
      destruct (invoke_keeps_alerts clock adapter request s) as (I0 & L0).
      split; [exact R|].
      split; [eapply incl_tran; eassumption | lia]. }
  destruct H as (R & I & L).
  split; [exact I|]. split; [exact L|].
  split; [apply (reachable_ids_nodup R)|].
  destruct (reachable_directory R) as (a & b & ->); reflexivity.
Qed.

Lemma serving_requests_never_loses_alerts_witness :
  let s' := serve sample_clock source_adapters sample_run
              state_after_one_alert in
  incl (alert_ids (alert_history state_after_one_alert))
       (alert_ids (alert_history s'))
  /\ length (alert_history state_after_one_alert)
     <= length (alert_history s')
  /\ NoDup (alert_ids (alert_history s'))
  /\ dict_keys (healthcare_providers s') = [py "nurse_david"; py "dr_smith"].
Proof.
  apply (@serving_requests_never_loses_alerts sample_clock source_adapters
           sample_run state_after_one_alert).
  apply reach_send_alert, reach_init.
Defined.

(** X15.  A request whose action is none of the five [invoke] knows is
    answered with the ["Unknown action"] error, which names the action and
    lists the five; the state is left as it was. *)
Theorem invoke_unknown_action_is_refused (clock : nat -> datetime)
  (adapter : Channel -> Alert.t -> pystr -> bool)
  (request : InvokeRequest.t) (action : pystr) (s : State) :
  InvokeRequest.action request = Some action ->
  ~ In action [py "send_alert"; py "get_alert_history";
               py "update_provider_status";
               py "check_provider_availability"; py "escalate_alert"] ->
  invoke clock adapter request s
  = (InvokeResponse.unknown_action (py "Unknown action: " ++ action)
       [py "send_alert"; py "get_alert_history";
        py "update_provider_status"; py "check_provider_availability";
        py "escalate_alert"],
     s).
Proof.
  intros Ha Hn; unfold invoke; rewrite Ha; cbn [get_or].
  rewrite !(proj2 (str_eqb_neq action _)); [reflexivity| | | | |];
    intros E; apply Hn; rewrite E; simpl; tauto.
Qed.

Lemma invoke_unknown_action_is_refused_witness :
  invoke sample_clock source_adapters
    (invoke_request (Some (py "delete_alert"))) state_after_one_alert
  = (InvokeResponse.unknown_action
       (py "Unknown action: " ++ py "delete_alert")
       [py "send_alert"; py "get_alert_history";
        py "update_provider_status"; py "check_provider_availability";
        py "escalate_alert"],
     state_after_one_alert).
Proof.
  apply (@invoke_unknown_action_is_refused sample_clock source_adapters
           (invoke_request (Some (py "delete_alert"))) (py "delete_alert")
           state_after_one_alert).
  - reflexivity.
  - simpl; intros H; repeat destruct H as [H|H]; try discriminate; exact H.
Defined.

(* ===================================================================== *)
(** ** The triage agent *)
(* ===================================================================== *)

Section TriageFacts.

Variable clock : nat -> datetime.
Variable call_agent : NotificationData.t -> M unit.

(** [assess_symptoms] when the assessment asks for escalation and has a
    risk level: one reading of the clock, one call of the A2A client. *)
Lemma assess_symptoms_escalating (assessment : TriageAssessment.t)
  (risk_level patient_message : pystr)
  (patient_context : option PatientContext.t) (s : State) :
  TriageAssessment.escalate assessment = Some true ->
  TriageAssessment.risk_level assessment = Some risk_level ->
  assess_symptoms clock call_agent (parsed assessment) patient_message
    patient_context s
  = (assessment,
     snd (call_agent
            (NotificationData.mk patient_message assessment patient_context
               (isoformat (clock (clock_reads s)))
               (_map_risk_to_priority risk_level))
            (tick s))).
Proof.
  intros He Hr.
  unfold assess_symptoms, _trigger_nurse_notification, bind, datetime_now,
    ret.
  rewrite He, Hr; cbn [get_or].
  destruct (call_agent _ (tick s)); reflexivity.
Qed.

End TriageFacts.

(** X16.  When the model's assessment has a risk level and does not ask
    for escalation (the flag is false or missing), [assess_symptoms]
    returns that assessment as it is and has no effect: the A2A client is
    not called and the clock is not read. *)
Theorem assessment_without_escalation_has_no_effect
  (clock : nat -> datetime) (call_agent : NotificationData.t -> M unit)
  (assessment : TriageAssessment.t) (risk_level patient_message : pystr)
  (patient_context : option PatientContext.t) (s : State) :
  TriageAssessment.escalate assessment <> Some true ->
  TriageAssessment.risk_level assessment = Some risk_level ->
  assess_symptoms clock call_agent (parsed assessment) patient_message
    patient_context s
  = (assessment, s).
Proof.
  intros He Hr; unfold assess_symptoms, bind, ret.
  rewrite Hr.
  destruct (TriageAssessment.escalate assessment) as [[|]|];
    [congruence|reflexivity|reflexivity].
Qed.

Lemma assessment_without_escalation_has_no_effect_witness :
  assess_symptoms sample_clock (notifier_endpoint sample_clock source_adapters)
    (parsed routine_assessment) (py "When can I shower?") (Some elena)
    state_after_one_alert
  = (routine_assessment, state_after_one_alert).
Proof.
  apply (@assessment_without_escalation_has_no_effect sample_clock
           (notifier_endpoint sample_clock source_adapters)
           routine_assessment (py "LOW") (py "When can I shower?")
           (Some elena) state_after_one_alert).
  - discriminate.
  - reflexivity.
Defined.

(** X17.  When an assessment that asks for escalation has no risk level,
    [assess_symptoms] answers with its system-error fallback, a CRITICAL
    assessment with the escalate flag set, although nobody has been
    notified: the A2A client is never called, whatever it is; only the
    clock has been read once.  The same fallback, with no effect at all, is
    the answer when the model call itself fails. *)
Theorem fallback_assessment_notifies_nobody (clock : nat -> datetime)
  (call_agent : NotificationData.t -> M unit)
  (assessment : TriageAssessment.t) (detail patient_message : pystr)
  (patient_context : option PatientContext.t) (s : State) :
  TriageAssessment.escalate assessment = Some true ->
  TriageAssessment.risk_level assessment = None ->
  assess_symptoms clock call_agent (parsed assessment) patient_message
    patient_context s
  = (system_error_assessment (py "'risk_level'"), tick s)
  /\ assess_symptoms clock call_agent (generation_failed detail)
       patient_message patient_context s
     = (system_error_assessment detail, s)
  /\ (forall d,
        TriageAssessment.risk_level (system_error_assessment d)
        = Some (py "CRITICAL")
        /\ TriageAssessment.escalate (system_error_assessment d)
           = Some true).
Proof.
  intros He Hr; split; [|split; [reflexivity | intros d; split; reflexivity]].
  unfold assess_symptoms, _trigger_nurse_notification, bind, datetime_now,
    ret.
  rewrite He, Hr; reflexivity.
Qed.

Lemma fallback_assessment_notifies_nobody_witness :
  assess_symptoms sample_clock (notifier_endpoint sample_clock source_adapters)
    (parsed assessment_without_risk_level) (py "I have a fever")
    (Some elena) state_after_one_alert
  = (system_error_assessment (py "'risk_level'"),
     tick state_after_one_alert)
  /\ assess_symptoms sample_clock
       (notifier_endpoint sample_clock source_adapters)
       (generation_failed (py "timeout")) (py "I have a fever")
       (Some elena) state_after_one_alert
     = (system_error_assessment (py "timeout"), state_after_one_alert)
  /\ (forall d,
        TriageAssessment.risk_level (system_error_assessment d)
        = Some (py "CRITICAL")
        /\ TriageAssessment.escalate (system_error_assessment d)
           = Some true).
Proof.
  apply (@fallback_assessment_notifies_nobody sample_clock
           (notifier_endpoint sample_clock source_adapters)
           assessment_without_risk_level (py "timeout")
           (py "I have a fever") (Some elena) state_after_one_alert);
    reflexivity.
Defined.

(** X18.  A reply of the model that is not JSON is replaced by the
    parsing-error assessment (MODERATE, escalate set), which is returned,
    and the A2A client is called exactly once, with priority HIGH, the
    clock reading as timestamp, and the patient message and context as
    received. *)
Theorem unparsable_reply_escalates_as_high (clock : nat -> datetime)
  (call_agent : NotificationData.t -> M unit) (patient_message : pystr)
  (patient_context : option PatientContext.t) (s : State) :
  assess_symptoms clock call_agent not_json patient_message patient_context
    s
  = (parsing_error_assessment,
     snd (call_agent
            (NotificationData.mk patient_message parsing_error_assessment
               patient_context (isoformat (clock (clock_reads s)))
               (py "HIGH"))
            (tick s)))
  /\ TriageAssessment.risk_level parsing_error_assessment
     = Some (py "MODERATE").
Proof.
  split; [|reflexivity].
  unfold assess_symptoms, _trigger_nurse_notification, bind, datetime_now,
    ret.
  cbn [parsing_error_assessment TriageAssessment.escalate
       TriageAssessment.risk_level get_or].
  destruct (call_agent _ (tick s)); reflexivity.
Qed.

(* ===================================================================== *)
(** ** From the triage agent to the notifier *)
(* ===================================================================== *)

(** X19.  When the model's assessment asks for escalation and has a risk
    level, and a patient context is given, [assess_symptoms] returns that
    assessment and the notifier stores exactly one new alert: its priority
    is the one mapped from the risk level, its risk level, message,
    assessment and patient are those of the call, its timestamp is the
    clock reading of the triage agent, and its escalation level is 0. *)
Theorem escalating_assessment_stores_one_alert (clock : nat -> datetime)
  (adapter : Channel -> Alert.t -> pystr -> bool)
  (assessment : TriageAssessment.t) (risk_level patient_message : pystr)
  (patient_context : PatientContext.t) (s : State) :
  TriageAssessment.escalate assessment = Some true ->
  TriageAssessment.risk_level assessment = Some risk_level ->
  let out :=
    assess_symptoms clock (notifier_endpoint clock adapter)
      (parsed assessment) patient_message (Some patient_context) s in
  fst out = assessment
  /\ healthcare_providers (snd out) = healthcare_providers s
  /\ exists alert,
       alert_history (snd out) = alert_history s ++ [alert]
       /\ Alert.priority alert = _map_risk_to_priority risk_level
       /\ Alert.risk_level alert = risk_level
       /\ Alert.timestamp alert = isoformat (clock (clock_reads s))
       /\ Alert.triage_assessment alert = assessment
       /\ Alert.escalation_level alert = 0%Z
       /\ PatientInfo.original_message (Alert.patient_info alert)
          = patient_message
       /\ PatientInfo.name (Alert.patient_info alert)
          = get_or (PatientContext.name patient_context)
                   (py "Unknown Patient").
Proof.
  intros He Hr out; subst out.
  rewrite (assess_symptoms_escalating clock (notifier_endpoint clock adapter)
             assessment patient_message (Some patient_context) s He Hr).
  cbn [fst snd]; split; [reflexivity|].
  unfold notifier_endpoint, handler_send_alert, bind, ret.
  cbn [NotificationData.patient_context NotificationData.patient_message
       NotificationData.triage_assessment NotificationData.priority
       NotificationData.timestamp].
  set (request := SendAlertRequest.mk _ _ _ _ _).
  destruct (send_alert_effect clock adapter request (tick s))
    as (_ & Hh & Hp).
  destruct (send_alert clock adapter request (tick s)) as [response s1].
  cbn [fst snd] in *.
  split; [rewrite Hp; reflexivity|].
  exists (created_alert clock request (tick s)).
  split; [rewrite Hh; reflexivity|].
  subst request; unfold created_alert; rewrite create_alert_eq.
  cbn [fst Alert.priority Alert.risk_level Alert.timestamp
       Alert.triage_assessment Alert.escalation_level Alert.patient_info
       PatientInfo.original_message PatientInfo.name get_or
       SendAlertRequest.patient_message SendAlertRequest.triage_assessment
       SendAlertRequest.patient_context SendAlertRequest.priority
       SendAlertRequest.timestamp].
  rewrite Hr; repeat split.
Qed.

Lemma escalating_assessment_stores_one_alert_witness :
  let out :=
    assess_symptoms sample_clock
      (notifier_endpoint sample_clock source_adapters)
      (parsed sample_assessment) (py "I have a fever") (Some elena)
      state_after_one_alert in
  fst out = sample_assessment
  /\ healthcare_providers (snd out)
     = healthcare_providers state_after_one_alert
  /\ exists alert,
       alert_history (snd out)
       = alert_history state_after_one_alert ++ [alert]
       /\ Alert.priority alert = _map_risk_to_priority (py "CRITICAL")
       /\ Alert.risk_level alert = py "CRITICAL"
       /\ Alert.timestamp alert
          = isoformat (sample_clock (clock_reads state_after_one_alert))
       /\ Alert.triage_assessment alert = sample_assessment
       /\ Alert.escalation_level alert = 0%Z
       /\ PatientInfo.original_message (Alert.patient_info alert)
          = py "I have a fever"
       /\ PatientInfo.name (Alert.patient_info alert)
          = get_or (PatientContext.name elena) (py "Unknown Patient").
Proof.
  apply (@escalating_assessment_stores_one_alert sample_clock
           source_adapters sample_assessment (py "CRITICAL")
           (py "I have a fever") elena state_after_one_alert);
    reflexivity.
Defined.

(** X20.  Called without a patient context (its default, [None]),
    [assess_symptoms] still returns an escalating assessment as it is, but
    no alert comes of it: [send_alert] fails on the [None] context before
    creating the alert and answers with its error dict, so the history, the
    directory and the outbox are as before and only the clock has been
    read, twice. *)
Theorem escalation_without_context_is_lost (clock : nat -> datetime)
  (adapter : Channel -> Alert.t -> pystr -> bool)
  (assessment : TriageAssessment.t) (risk_level patient_message : pystr)
  (s : State) :
  TriageAssessment.escalate assessment = Some true ->
  TriageAssessment.risk_level assessment = Some risk_level ->
  assess_symptoms clock (notifier_endpoint clock adapter)
    (parsed assessment) patient_message None s
  = (assessment, tick (tick s))
  /\ (forall params,
        NotificationData.patient_context params = None ->
        handler_send_alert clock adapter params (tick s)
        = (SendAlertResponse.error
             (py "'NoneType' object has no attribute 'get'"),
           tick (tick s)))
  /\ alert_history (tick (tick s)) = alert_history s
  /\ outbox (tick (tick s)) = outbox s.
Proof.
  intros He Hr.
  split; [|split; [|split; reflexivity]].
  - rewrite (assess_symptoms_escalating clock
               (notifier_endpoint clock adapter) assessment patient_message
               None s He Hr).
    reflexivity.
  - intros params Hp; unfold handler_send_alert; rewrite Hp; reflexivity.
Qed.

Lemma escalation_without_context_is_lost_witness :
  assess_symptoms sample_clock
    (notifier_endpoint sample_clock source_adapters)
    (parsed sample_assessment) (py "I have a fever") None
    state_after_one_alert
  = (sample_assessment, tick (tick state_after_one_alert))
  /\ (forall params,
        NotificationData.patient_context params = None ->
        handler_send_alert sample_clock source_adapters params
          (tick state_after_one_alert)
        = (SendAlertResponse.error
             (py "'NoneType' object has no attribute 'get'"),
           tick (tick state_after_one_alert)))
  /\ alert_history (tick (tick state_after_one_alert))
     = alert_history state_after_one_alert
  /\ outbox (tick (tick state_after_one_alert))
     = outbox state_after_one_alert.
Proof.
  apply (@escalation_without_context_is_lost sample_clock source_adapters
           sample_assessment (py "CRITICAL") (py "I have a fever")
           state_after_one_alert);
    reflexivity.
Defined.

(* ===================================================================== *)
(** ** Escalation notifies again *)
(* ===================================================================== *)

(** X21.  In every reachable state a successful escalation notifies again
    through the tier of the new priority (URGENT when the request names
    none): the response reports the priority the alert had before and the
    new one, and its escalation result is an ["alert_sent"] summary for the
    new priority with one or two providers notified, every result a
    success that lists the channels of the new priority, and one adapter
    invocation per provider and channel. *)
Theorem escalation_notifies_through_new_tier (clock : nat -> datetime)
  (adapter : Channel -> Alert.t -> pystr -> bool)
  (request : EscalateRequest.t) (alert_id : pystr)
  (before after : list Alert.t) (alert : Alert.t) (s : State) :
  reachable clock adapter s ->
  EscalateRequest.alert_id request = Some alert_id ->
  find_alert alert_id (alert_history s) = Some (before, alert, after) ->
  let new_priority :=
    get_or (EscalateRequest.new_priority request) (py "URGENT") in
  let out := escalate_alert clock adapter request s in
  exists summary,
    fst out
    = EscalateResponse.escalated
        (EscalateResponse.mk alert_id (Alert.priority alert) new_priority
           (Alert.escalation_level alert + 1)%Z
           (SendAlertResponse.alert_sent summary))
    /\ SendAlertResponse.priority summary = new_priority
    /\ SendAlertResponse.expected_response_time_minutes summary
       = _get_expected_response_time new_priority
    /\ 1 <= SendAlertResponse.providers_notified summary <= 2
    /\ length (SendAlertResponse.notification_results summary)
       = SendAlertResponse.providers_notified summary
    /\ Forall (fun r =>
                 NotificationResult.status r = ResultStatus.success
                 /\ NotificationResult.channels_used r
                    = tier_of new_priority)
              (SendAlertResponse.notification_results summary)
    /\ length (outbox (snd out))
       = length (outbox s)
         + SendAlertResponse.providers_notified summary
           * length (tier_of new_priority).
Proof.
  intros Hreach Hid Hfind new_priority out; subst out.
  rewrite (escalate_alert_found clock adapter request s Hid Hfind).
  fold new_priority.
  set (updated := Alert.escalated new_priority alert).
  set (s1 := tick (set_alert_history (before ++ updated :: after) s)).
  set (request' := escalation_request updated new_priority
                     (clock (clock_reads s))).
  destruct (reachable_directory Hreach) as (a & b & Hd).
  assert (Hd1 : healthcare_providers s1 = directory_with a b) by exact Hd.
  destruct (send_alert_on_directory clock adapter request' s1 Hd1)
    as (results & R & L & B & G & _ & O & _).
  cbn [fst snd].
  eexists; split; [rewrite R; reflexivity|].
  cbn [SendAlertResponse.priority
       SendAlertResponse.expected_response_time_minutes
       SendAlertResponse.providers_notified
       SendAlertResponse.notification_results].
  split; [reflexivity|]. split; [reflexivity|].
  split; [exact B|]. split; [exact L|].
  split; [|exact O].
  eapply Forall_impl; [|exact G].
  intros r (H1 & _ & H3); split; [exact H1 | exact H3].
Qed.

Lemma escalation_notifies_through_new_tier_witness :
  let new_priority :=
    get_or (EscalateRequest.new_priority escalate_first) (py "URGENT") in
  let out := escalate_alert sample_clock source_adapters escalate_first
               state_after_one_alert in
  exists summary,
    fst out
    = EscalateResponse.escalated
        (EscalateResponse.mk first_alert_id (Alert.priority first_alert)
           new_priority (Alert.escalation_level first_alert + 1)%Z
           (SendAlertResponse.alert_sent summary))
    /\ SendAlertResponse.priority summary = new_priority
    /\ SendAlertResponse.expected_response_time_minutes summary
       = _get_expected_response_time new_priority
    /\ 1 <= SendAlertResponse.providers_notified summary <= 2
    /\ length (SendAlertResponse.notification_results summary)
       = SendAlertResponse.providers_notified summary
    /\ Forall (fun r =>
                 NotificationResult.status r = ResultStatus.success
                 /\ NotificationResult.channels_used r
                    = tier_of new_priority)
              (SendAlertResponse.notification_results summary)
    /\ length (outbox (snd out))
       = length (outbox state_after_one_alert)
         + SendAlertResponse.providers_notified summary
           * length (tier_of new_priority).
Proof.
  apply (@escalation_notifies_through_new_tier sample_clock source_adapters
           escalate_first first_alert_id [] [] first_alert
           state_after_one_alert).
  - apply reach_send_alert, reach_init.
  - reflexivity.
  - vm_compute; reflexivity.
Defined.

(* ===================================================================== *)
(** ** The size of a history listing *)
(* ===================================================================== *)

Lemma slice_list_length (A : Type) (l : list A) (k : Z) :
  length (slice_list l k) <= length l
  /\ ((0 <= k)%Z -> length (slice_list l k) = Nat.min (Z.to_nat k) (length l)).
Proof.
  unfold slice_list; destruct (Z.ltb_spec k 0).
  - rewrite length_firstn; split; [lia | lia].
  - rewrite length_firstn; split; [lia | reflexivity].
Qed.

(** X22.  Every history query, filtered or not, answers with a success
    listing whose [total_alerts] counts all the alerts that matched, never
    fewer than the alerts listed.  When the request gives no limit at most
    50 alerts are listed, and with a non-negative limit the number listed
    is the smaller of the limit and the total. *)
Theorem history_listing_is_bounded (request : HistoryRequest.t) (s : State) :
  exists listing,
    fst (get_alert_history request s) = HistoryResponse.success listing
    /\ HistoryResponse.total_alerts listing
       = (if truthy (HistoryRequest.patient_name request)
          then length (alerts_of
                         (get_or (HistoryRequest.patient_name request) [])
                         (alert_history s))
          else length (alert_history s))
    /\ length (HistoryResponse.alerts listing)
       <= HistoryResponse.total_alerts listing
    /\ (HistoryRequest.limit request = None ->
        length (HistoryResponse.alerts listing) <= 50)
    /\ (forall limit,
          HistoryRequest.limit request = Some limit -> (0 <= limit)%Z ->
          length (HistoryResponse.alerts listing)
          = Nat.min (Z.to_nat limit) (HistoryResponse.total_alerts listing)).
Proof.
  unfold get_alert_history, bind, gets, modify, ret.
  destruct (truthy (HistoryRequest.patient_name request));
    cbn [fst]; eexists; (split; [reflexivity|]);
    cbn [HistoryResponse.alerts HistoryResponse.total_alerts];
    fold (alerts_of (get_or (HistoryRequest.patient_name request) [])
            (alert_history s));
    rewrite sort_newest_first_length;
    (split; [reflexivity|]);
    match goal with
    | |- context [slice_list ?l ?k] =>
        destruct (slice_list_length l k) as (B1 & B2);
        rewrite sort_newest_first_length in B1, B2
    end;
    (split; [exact B1|]);
    (split; [intros Hn; rewrite Hn in *; cbn [get_or] in *;
             rewrite B2 by lia; change (Z.to_nat 50) with 50; lia
            |intros limit Hl Hpos; rewrite Hl in *; cbn [get_or] in *;
             apply B2, Hpos]).
Qed.
